(** * Skylogic: air-quality forecasting and aviation-safety scripts

    A shallow embedding of the data-shaping code of three scripts,

      - [forecasting_system.py]     (class [AirQualityForecaster]),
      - [ml_prediction_service.py]  (class [DashboardMLPredictor]),
      - [enhanced_aviation_ml.py]   (class [AirQualityFlightSafetyPredictor]),

    followed by the properties of the pipeline specification, each settled
    against that embedding.

    Conventions of the embedding.
      - Python floats are idealised as exact rationals ([Q]); a decimal
        literal of the source is the rational it denotes.  Results are
        compared with [==] ([Qeq]).  The idealisation decides nothing
        where the rounding errors of the doubles decide: [round] of a
        value that is exactly halfway between two integers is left to the
        interface [Float64].
      - A NaN cell of a pandas column is [None]; a column is a
        [list (option Q)].
      - A Python [dict] used as a map is a [gmap string _]; a one-row
        [DataFrame], whose column order matters, is an association list.
      - A raised exception is the [Raise] branch of [Result].
      - The scikit-learn estimators, the transcendental functions of
        numpy and the calendar fields of a timestamp are interfaces
        ([Estimator], [Trig], [Calendar]); nothing is assumed about what
        they compute.
      - The rows of a frame sorted on one key come in the order of a
        stable sort; pandas sorts one key with quicksort, which may order
        rows with equal keys differently, so a statement that depends on
        the order of the sorted rows assumes distinct keys. *)

From Stdlib Require Import QArith Qround Qminmax Qabs Lqa ZArith Lia Ascii
  OrderedTypeEx.
From stdpp Require Import gmap strings list pretty sorting.

(* ================================================================== *)
(** * Part I.  The embedding                                            *)
(* ================================================================== *)

(** ** Python and numpy primitives *)

(** Double-precision arithmetic, where it differs from the rationals in a
    way the code can observe.  When the exact value of [x] is halfway
    between two integers, the double that the code passes to [round] lies
    at the half or next to it on either side, depending on the rounding
    errors of the expression that produced it: [round_tie_up x] says
    whether [round] returns the upper of the two integers. *)
Class Float64 : Type := {
  round_tie_up : Q → bool
}.

Module Py.

(** The exceptions the modelled code can raise. *)
Inductive Exception : Type :=
| KeyError (key : string)
| ValueError (msg : string)
| TypeError
| ZeroDivisionError
| SystemExit (code : Z).

Inductive Result (A : Type) : Type :=
| Ok (a : A)
| Raise (e : Exception).
Arguments Ok {A} a.
Arguments Raise {A} e.

Definition bind {A B} (m : Result A) (k : A → Result B) : Result B :=
  match m with
  | Ok a => k a
  | Raise e => Raise e
  end.

(** [try: body  except Exception as e: handler].  [SystemExit] derives
    from [BaseException], so an [except Exception] clause lets it pass. *)
Definition try_except {A} (body : Result A) (handler : Exception → Result A)
  : Result A :=
  match body with
  | Ok a => Ok a
  | Raise (SystemExit c) => Raise (SystemExit c)
  | Raise e => handler e
  end.

Definition Qltb (a b : Q) : bool := negb (Qle_bool b a).

(** [max(a, b)] of two numbers: [b] when [b > a], else [a]. *)
Definition max (a b : Q) : Q := if Qltb a b then b else a.

(** [round(x)] with one argument, on the double computed for [x]: the
    nearest integer; at an exact half, the side the double lies on. *)
Definition round {fl : Float64} (x : Q) : Z :=
  let f := Qfloor x in
  match (x - inject_Z f ?= 1 # 2)%Q with
  | Lt => f
  | Gt => (f + 1)%Z
  | Eq => if round_tie_up x then (f + 1)%Z else f
  end.

(** [a / b] on Python numbers raises on a zero divisor. *)
Definition div (a b : Q) : Result Q :=
  if Qeq_bool b 0 then Raise ZeroDivisionError else Ok (a / b)%Q.

(** [np.clip(x, lo, hi)] is [minimum(hi, maximum(x, lo))]. *)
Definition clip (x lo hi : Q) : Q := Qmin hi (Qmax x lo).

(** [d[k]] on an association list (an insertion-ordered dict). *)
Fixpoint assoc {V} (k : string) (d : list (string * V)) : option V :=
  match d with
  | [] => None
  | (k', v) :: d' => if String.eqb k k' then Some v else assoc k d'
  end.

Definition getitem {V} (d : list (string * V)) (k : string) : Result V :=
  match assoc k d with
  | Some v => Ok v
  | None => Raise (KeyError k)
  end.

(** [s.startswith(p)] *)
Definition startswith (s p : string) : bool := String.prefix p s.

End Py.

#[global] Instance result_ret : MRet Py.Result := @Py.Ok.
#[global] Instance result_bind : MBind Py.Result := λ A B k m, Py.bind m k.

(** ** AQI breakpoint tables

    The three scripts carry the same two literal tables; a bracket is the
    tuple [(bp_low, bp_high, aqi_low, aqi_high)]. *)

Module AQI.

Definition Bracket : Type := (Q * Q * Q * Q).

Definition bp_low (b : Bracket) : Q := b.1.1.1.
Definition bp_high (b : Bracket) : Q := b.1.1.2.
Definition aqi_low (b : Bracket) : Q := b.1.2.
Definition aqi_high (b : Bracket) : Q := b.2.

Definition breakpoints (pollutant : string) : list Bracket :=
  if String.eqb pollutant "pm25" then
    [(0, 12.0, 0, 50); (12.1, 35.4, 51, 100); (35.5, 55.4, 101, 150);
     (55.5, 150.4, 151, 200); (150.5, 250.4, 201, 300);
     (250.5, 350.4, 301, 400)]%Q
  else
    [(0, 54, 0, 50); (55, 154, 51, 100); (155, 254, 101, 150);
     (255, 354, 151, 200); (355, 424, 201, 300); (425, 504, 301, 400)]%Q.

(** The loop test [bp_low <= concentration <= bp_high]. *)
Definition in_bracket (c : Q) (b : Bracket) : bool :=
  Qle_bool (bp_low b) c && Qle_bool c (bp_high b).

(** The loop body's expression
    [((aqi_high - aqi_low) / (bp_high - bp_low)) * (c - bp_low) + aqi_low]. *)
Definition interpolate (b : Bracket) (c : Q) : Q :=
  (((aqi_high b - aqi_low b) / (bp_high b - bp_low b)) * (c - bp_low b)
   + aqi_low b)%Q.

(** [for ... in breakpoints: if ...: aqi = ...; return/break] *)
Fixpoint scan (bps : list Bracket) (c : Q) : option Q :=
  match bps with
  | [] => None
  | b :: rest => if in_bracket c b then Some (interpolate b c) else scan rest c
  end.

(** [breakpoints[-1][1]] (the tables are never empty). *)
Definition last_bp_high (bps : list Bracket) : Q :=
  bp_high (List.last bps (0, 0, 0, 0)%Q).

End AQI.

(** ** The pandas operations the scripts use *)

Module Pandas.

(** A numeric column; [None] is NaN. *)
Abbreviation Series := (list (option Q)).

(** [s.shift(periods)]: positive periods move the values towards the
    end (a lag), negative ones towards the start (a lead); the vacated
    positions are NaN and the length is unchanged. *)
Definition shift (periods : Z) (s : Series) : Series :=
  if (0 <=? periods)%Z then
    take (length s) (replicate (Z.to_nat periods) None ++ s)
  else
    drop (Z.to_nat (- periods)) s
    ++ replicate (Z.to_nat (- periods) `min` length s) None.

(** [s.dropna()] on a column. *)
Definition dropna (s : Series) : list Q := omap id s.

Definition sum (l : list Q) : Q := foldr Qplus 0%Q l.

Definition mean (l : list Q) : Q :=
  (sum l / inject_Z (Z.of_nat (length l)))%Q.

(** The trailing window of size [w] that ends at position [i]. *)
Definition window {A} (w i : nat) (s : list A) : list A :=
  drop (S i - w) (take (S i) s).

(** [s.rolling(window=w, min_periods=m).mean()]: the mean of the
    non-NaN observations of the window, NaN when there are fewer than
    [m] of them (or none at all). *)
Definition rolling_mean (w m : nat) (s : Series) : Series :=
  imap (λ i _,
          let obs := dropna (window w i s) in
          if bool_decide (m ≤ length obs ∧ 0 < length obs)
          then Some (mean obs) else None) s.

(** [s.rolling(w).mean()]: [min_periods] defaults to the window size. *)
Definition rolling_mean_default (w : nat) (s : Series) : Series :=
  rolling_mean w w s.

(** [df.sort_values(key)], as a stable insertion sort: rows with equal
    keys keep their order.  That is the order of pandas for a list of
    keys (a stable lexsort); for a single key pandas uses quicksort, and
    this definition gives its result when the keys are distinct. *)
Fixpoint insert_by {A} (le : A → A → bool) (x : A) (l : list A) : list A :=
  match l with
  | [] => [x]
  | y :: l' => if le x y then x :: y :: l' else y :: insert_by le x l'
  end.

Definition sort_values {A} (le : A → A → bool) (l : list A) : list A :=
  foldr (insert_by le) [] l.

(** [s.unique()]: the distinct values in order of first appearance. *)
Fixpoint unique (l : list string) : list string :=
  match l with
  | [] => []
  | x :: l' => x :: filter (λ y, y ≠ x) (unique l')
  end.

(** The cell of column [c] at position [i]. *)
Definition cell (c : Series) (i : nat) : option Q := mjoin (c !! i).

(** [frame[col] = 0] when [col] is not yet a column of the one-row
    [frame]: the new column goes last. *)
Definition add_missing (frame : list (string * Q)) (col : string)
  : list (string * Q) :=
  match Py.assoc col frame with
  | Some _ => frame
  | None => frame ++ [(col, 0%Q)]
  end.

(** [frame[cols]]: selecting a list of labels raises [KeyError] when a
    label is not a column.  The message of pandas lists every missing
    label; the payload here is the first of them, and stands for that
    message. *)
Definition select (frame : list (string * Q)) (cols : list string)
  : Py.Result (list (string * Q)) :=
  mapM (λ col, v ← Py.getitem frame col; Py.Ok (col, v)) cols.

End Pandas.

(** ** The interfaces of the libraries the scripts call *)

(** A scikit-learn regressor: [fit] on a table of feature rows and a
    label vector, [predict] on one feature row (which may raise). *)
Class Estimator : Type := {
  Model : Type;
  rf_fit : list (list (option Q)) → list Q → Model;
  rf_predict : Model → list Q → Py.Result Q
}.

(** [np.sin], [np.cos] and [np.pi]. *)
Class Trig : Type := {
  np_sin : Q → Q;
  np_cos : Q → Q;
  np_pi : Q
}.

(** The calendar fields of a timestamp given in hours ([.dt.hour],
    [.dt.dayofyear], [.dt.dayofweek], [.dt.month]). *)
Class Calendar : Type := {
  dt_hour : Z → Z;
  dt_dayofyear : Z → Z;
  dt_dayofweek : Z → Z;
  dt_month : Z → Z
}.

(** The values stored in a pickled artifact. *)
Inductive PyVal {est : Estimator} : Type :=
| VModels (m : gmap string Model)
| VScalers (m : gmap string unit)
| VColumns (l : list string)
| VThresholds (m : gmap string (gmap string Q)).

(** A file that [joblib.load] reads: a pickled dict, or bytes that do
    not unpickle. *)
Inductive FileContent {est : Estimator} : Type :=
| Pickled (d : gmap string PyVal)
| Corrupt.

(** ** forecasting_system.py *)

Module Forecasting.
Section Forecasting.
Context {est : Estimator} {trig : Trig} {cal : Calendar}.

(** One line of a city's CSV file: the timestamp (in hours) and the
    measurements.  The six named fields are the columns the script
    lags; [other] holds the remaining measurement columns of the file,
    in the order of [schema] below. *)
Record Reading : Type := mkReading {
  DateTime : Z;
  PM25 : option Q;
  PM10 : option Q;
  Temperature : option Q;
  Humidity : option Q;
  WindSpeed : option Q;
  Dust : option Q;
  other : list (option Q)
}.

(** A row of the frame returned by [create_time_series_features]. *)
Record Row : Type := mkRow {
  City : string;
  reading : Reading;
  lag : list (option Q);
  rolling : list (option Q);
  seasonal : list Q
}.

(** [AirQualityForecaster]: [self.models], [self.scalers],
    [self.feature_columns]. *)
Record Forecaster : Type := mkForecaster {
  models : gmap string Model;
  scalers : gmap string unit;
  feature_columns : list string
}.

(** [__init__] *)
Definition init : Forecaster :=
  {| models := ∅; scalers := ∅; feature_columns := [] |}.

Definition lag_hours : list Z := [1; 2; 3; 6; 12; 24]%Z.

Definition lag_columns : list (string * (Reading → option Q)) :=
  [("PM2.5 (µg/m³)", PM25); ("PM10 (µg/m³)", PM10);
   ("Temperature (°C)", Temperature); ("Humidity (%)", Humidity);
   ("Wind Speed (m/s)", WindSpeed); ("Dust (µg/m³)", Dust)].

Definition column (col : Reading → option Q) (df : list (string * Reading))
  : Pandas.Series := map (λ r, col r.2) df.

(** The 36 lag columns, in creation order. *)
Definition lag_features (df : list (string * Reading)) : list Pandas.Series :=
  col ← lag_columns; lag ← lag_hours; [Pandas.shift lag (column col.2 df)].

(** The 12 rolling columns, in creation order. *)
Definition rolling_features (df : list (string * Reading))
  : list Pandas.Series :=
  col ← lag_columns;
  [Pandas.rolling_mean 6 1 (column col.2 df);
   Pandas.rolling_mean 24 1 (column col.2 df)].

(** [hour_sin], [hour_cos], [day_sin], [day_cos]. *)
Definition seasonal_components (t : Z) : list Q :=
  [np_sin (2 * np_pi * inject_Z (dt_hour t) / 24);
   np_cos (2 * np_pi * inject_Z (dt_hour t) / 24);
   np_sin (2 * np_pi * inject_Z (dt_dayofyear t) / 365);
   np_cos (2 * np_pi * inject_Z (dt_dayofyear t) / 365)]%Q.

Definition by_DateTime (a b : string * Reading) : bool :=
  (DateTime a.2 <=? DateTime b.2)%Z.

Definition create_time_series_features (df : list (string * Reading))
  : list Row :=
  let df := Pandas.sort_values by_DateTime df in
  let lags := lag_features df in
  let rolls := rolling_features df in
  imap (λ i r,
          {| City := r.1; reading := r.2;
             lag := map (λ c, Pandas.cell c i) lags;
             rolling := map (λ c, Pandas.cell c i) rolls;
             seasonal := seasonal_components (DateTime r.2) |}) df.

(** [df.dropna()]: a row survives when none of its cells is NaN (the
    city, the timestamp and the seasonal components never are). *)
Definition complete (r : Row) : bool :=
  forallb (λ c, bool_decide (is_Some c))
    (map (λ col, col.2 (reading r)) lag_columns
     ++ other (reading r) ++ lag r ++ rolling r).

Definition dropna (df : list Row) : list Row := List.filter complete df.

Definition files : list string :=
  ["./data/Muscat_oman_weather_aod_pm2023-2025.csv";
   "./data/Musandam_oman_weather_aod_pm2023-2025.csv";
   "./data/Salalah_oman_weather_aod_pm2023-2025.csv"].

(** [str.split(sep)] for a one-character separator. *)
Fixpoint split (sep : Ascii.ascii) (s : string) : list string :=
  match s with
  | EmptyString => [EmptyString]
  | String c s' =>
      if Ascii.eqb c sep then EmptyString :: split sep s'
      else match split sep s' with
           | [] => [String c EmptyString]
           | w :: ws => String c w :: ws
           end
  end.

(** [f.split('/')[-1].split('_')[0]]; the trailing [replace] of the
    source removes a Windows path prefix that contains a backslash,
    which no element of [files] has. *)
Definition city_name (f : string) : string :=
  List.hd EmptyString
    (split "_"%char (List.last (split "/"%char f) EmptyString)).

Definition by_City_DateTime (a b : string * Reading) : bool :=
  String.ltb a.1 b.1 || (String.eqb a.1 b.1 && (DateTime a.2 <=? DateTime b.2)%Z).

(** The frame of [prepare_forecast_data] once the files are read and
    hold at least one row: concatenate, sort by city and time, build the
    features city by city, concatenate again and drop the incomplete
    rows. *)
Definition build_frame (df_list : list (list (string * Reading))) : list Row :=
  let df := Pandas.sort_values by_City_DateTime (concat df_list) in
  let city_dfs :=
    map (λ city,
           create_time_series_features
             (List.filter (λ r, String.eqb r.1 city) df))
        (Pandas.unique (map fst df)) in
  dropna (concat city_dfs).

(** [read_csv f] is [None] when [pd.read_csv] raises (the bare
    [except: continue] then skips the file). *)
Definition load_files (read_csv : string → option (list Reading))
  : list (list (string * Reading)) :=
  omap (λ f, map (λ r, (city_name f, r)) <$> read_csv f) files.

(** [prepare_forecast_data].  When the files that were read hold no
    row, [df['City'].unique()] is empty, [city_dfs] stays empty and
    [pd.concat(city_dfs)] raises [ValueError]. *)
Definition prepare_forecast_data (read_csv : string → option (list Reading))
  : Py.Result (list Row) :=
  match load_files read_csv with
  | [] => Py.Raise (Py.ValueError "No data files found!")
  | df_list =>
      match concat df_list with
      | [] => Py.Raise (Py.ValueError "No objects to concatenate")
      | _ => Py.Ok (build_frame df_list)
      end
  end.

(** The names of the measurement columns held in [other]; the CSV
    header is not part of the scripts.  When it contains
    ["Heat Index (°C)"], that column is excluded from the features. *)
Context (schema : list string).

Definition exclude_cols : list string :=
  ["DateTime"; "City"; "PM2.5 (µg/m³)"; "PM10 (µg/m³)"; "Heat Index (°C)"].

(** The raw columns of the frame other than [DateTime] and [City]; the
    lagged measurements are listed first, then those of [schema]. *)
Definition raw_cells (r : Reading) : list (string * option Q) :=
  map (λ col, (col.1, col.2 r)) lag_columns ++ zip schema (other r).

Definition lag_names : list string :=
  col ← lag_columns; l ← lag_hours; [col.1 +:+ "_lag_" +:+ pretty l +:+ "h"].

Definition rolling_names : list string :=
  col ← lag_columns; [col.1 +:+ "_rolling_6h"; col.1 +:+ "_rolling_24h"].

Definition seasonal_names : list string :=
  ["hour_sin"; "hour_cos"; "day_sin"; "day_cos"].

(** The cells of a row under their column names, [DateTime] and
    [City] apart. *)
Definition cells (r : Row) : list (string * option Q) :=
  raw_cells (reading r)
  ++ zip lag_names (lag r)
  ++ zip rolling_names (rolling r)
  ++ zip seasonal_names (Some <$> seasonal r).

(** [[col for col in df.columns if col not in exclude_cols]] applied to
    one row. *)
Definition feature_cells (r : Row) : list (string * option Q) :=
  List.filter (λ c, bool_decide (c.1 ∉ exclude_cols)) (cells r).

(** [pd.get_dummies(df['City'], prefix='City')]: one indicator column
    per distinct city of the frame, in sorted order. *)
Definition dummy_cities (df : list Row) : list string :=
  Pandas.sort_values String.leb (Pandas.unique (map City df)).

Definition city_dummies (cities : list string) (r : Row)
  : list (string * option Q) :=
  map (λ c, ("City_" +:+ c,
             Some (if String.eqb (City r) c then 1 else 0)%Q)) cities.

(** A row of [X = pd.concat([df[feature_cols], city_dummies], axis=1)]. *)
Definition X_row (cities : list string) (r : Row) : list (string * option Q) :=
  feature_cells r ++ city_dummies cities r.

Definition X_of (df : list Row) : list (list (option Q)) :=
  let cities := dummy_cities df in
  map (λ r, snd <$> X_row cities r) df.

(** [X.columns.tolist()] *)
Definition X_columns (df : list Row) : list string :=
  List.filter (λ c, bool_decide (c ∉ exclude_cols))
    (map fst lag_columns ++ schema ++ lag_names ++ rolling_names
     ++ seasonal_names)
  ++ map (λ c, "City_" +:+ c) (dummy_cities df).

Definition horizons : list nat := [1; 6; 12; 24; 48].

(** [df[col].shift(-horizon).dropna()] *)
Definition future_target (col : Reading → option Q) (df : list Row)
  (horizon : nat) : list Q :=
  Pandas.dropna
    (Pandas.shift (- Z.of_nat horizon) (map (λ r, col (reading r)) df)).

(** [X.iloc[:len(y_pm25)]] *)
Definition X_aligned (df : list Row) (horizon : nat)
  : list (list (option Q)) :=
  take (length (future_target PM25 df horizon)) (X_of df).

(** The rows of [df] behind [X_aligned], for stating properties. *)
Definition rows_aligned (df : list Row) (horizon : nat) : list Row :=
  take (length (future_target PM25 df horizon)) df.

(** [model.fit(X, y)]: scikit-learn checks that [X] and [y] have the
    same number of samples and raises [ValueError] otherwise. *)
Definition fit (X : list (list (option Q))) (y : list Q) : Py.Result Model :=
  if bool_decide (length X = length y) then Py.Ok (rf_fit X y)
  else Py.Raise (Py.ValueError "inconsistent numbers of samples").

Definition model_key (target : string) (horizon : nat) : string :=
  target +:+ "_" +:+ pretty horizon +:+ "h".

(** One iteration of the loop over [horizons]. *)
Definition train_horizon (df : list Row) (models : gmap string Model)
  (horizon : nat) : Py.Result (gmap string Model) :=
  let y_pm25 := future_target PM25 df horizon in
  let y_pm10 := future_target PM10 df horizon in
  let X_al := X_aligned df horizon in
  if bool_decide (length X_al < 100) then Py.Ok models
  else
    model_pm25 ← fit X_al y_pm25;
    model_pm10 ← fit X_al y_pm10;
    Py.Ok (<[model_key "pm10" horizon := model_pm10]>
             (<[model_key "pm25" horizon := model_pm25]> models)).

Fixpoint train_loop (df : list Row) (models : gmap string Model)
  (hs : list nat) : Py.Result (gmap string Model) :=
  match hs with
  | [] => Py.Ok models
  | h :: hs' => m ← train_horizon df models h; train_loop df m hs'
  end.

Definition train_forecast_models (self : Forecaster)
  (read_csv : string → option (list Reading)) : Py.Result Forecaster :=
  df ← prepare_forecast_data read_csv;
  m ← train_loop df (models self) horizons;
  Py.Ok {| models := m; scalers := scalers self;
           feature_columns := X_columns df |}.

(** The one-row frame passed to [forecast_next_48_hours]: its numeric
    columns in order, and the ['City'] column when there is one. *)
Record Conditions : Type := mkConditions {
  columns : list (string * Q);
  city : option string
}.

Record Forecast : Type := mkForecast {
  pm25 : Q;
  pm10 : Q;
  timestamp : Z
}.

Definition is_city_column (col : string) : bool := Py.startswith col "City_".

(** [city_dummies] of [forecast_next_48_hours]: the indicator of the
    request's city completed with zeros for the training-time cities, or
    the indicator of Muscat when the request has no ['City'] column. *)
Definition request_dummies (self : Forecaster) (current_conditions : Conditions)
  : list (string * Q) :=
  match city current_conditions with
  | Some c =>
      foldl Pandas.add_missing [("City_" +:+ c, 1%Q)]
        (List.filter is_city_column (feature_columns self))
  | None =>
      map (λ col, (col, if String.eqb col "City_Muscat" then 1 else 0)%Q)
        (List.filter is_city_column (feature_columns self))
  end.

Definition base_features (self : Forecaster) : list string :=
  List.filter (λ col, negb (is_city_column col)) (feature_columns self).

(** The feature vector built at the start of [forecast_next_48_hours]. *)
Definition current_vector (self : Forecaster) (current_conditions : Conditions)
  : Py.Result (list (string * Q)) :=
  base ← Pandas.select (columns current_conditions) (base_features self);
  let X_current := foldl Pandas.add_missing
                     (base ++ request_dummies self current_conditions)
                     (feature_columns self) in
  Pandas.select X_current (feature_columns self).

Fixpoint forecast_loop (self : Forecaster) (X_current : list Q) (now : Z)
  (hs : list nat) : Py.Result (list (string * Forecast)) :=
  match hs with
  | [] => Py.Ok []
  | h :: hs' =>
      match models self !! model_key "pm25" h,
            models self !! model_key "pm10" h with
      | Some m25, Some m10 =>
          pm25_pred ← rf_predict m25 X_current;
          pm10_pred ← rf_predict m10 X_current;
          rest ← forecast_loop self X_current now hs';
          Py.Ok ((pretty h +:+ "h",
                  {| pm25 := Py.max 0 pm25_pred;
                     pm10 := Py.max 0 pm10_pred;
                     timestamp := (now + Z.of_nat h)%Z |}) :: rest)
      | _, _ => forecast_loop self X_current now hs'
      end
  end.

(** [now] is the reading of [datetime.now()], in hours. *)
Definition forecast_next_48_hours (self : Forecaster)
  (current_conditions : Conditions) (now : Z)
  : Py.Result (list (string * Forecast)) :=
  X_current ← current_vector self current_conditions;
  forecast_loop self (snd <$> X_current) now horizons.

Definition calculate_aqi (concentration : Q) (pollutant : string) : Q :=
  match AQI.scan (AQI.breakpoints pollutant) concentration with
  | Some aqi => aqi
  | None => 500%Q
  end.

(** An alert of [generate_forecast_alerts]; the ['message'] text, which
    only formats [horizon] and [aqi], is left out. *)
Record Alert : Type := mkAlert {
  horizon : string;
  level : string;
  alert_timestamp : Z;
  aqi : Q
}.

Definition overall_aqi (pred : Forecast) : Q :=
  Py.max (calculate_aqi (pm25 pred) "pm25") (calculate_aqi (pm10 pred) "pm10").

Definition generate_forecast_alerts (forecasts : list (string * Forecast))
  : list Alert :=
  entry ← forecasts;
  let overall := overall_aqi entry.2 in
  if Py.Qltb 150 overall then
    [{| horizon := entry.1; level := "HIGH";
        alert_timestamp := timestamp entry.2; aqi := overall |}]
  else if Py.Qltb 100 overall then
    [{| horizon := entry.1; level := "MODERATE";
        alert_timestamp := timestamp entry.2; aqi := overall |}]
  else [].

(** [save_forecast_models]: the dict handed to [joblib.dump]. *)
Definition save_forecast_models (self : Forecaster) : gmap string PyVal :=
  {[ "models" := VModels (models self);
     "feature_columns" := VColumns (feature_columns self) ]}.

(** The one-row frame of sample conditions that [main] builds. *)
Definition sample_conditions : Conditions :=
  {| columns :=
       [("Temperature (°C)", 30.5); ("Humidity (%)", 45.0);
        ("Wind Speed (m/s)", 12.0); ("Wind Direction (°)", 180.0);
        ("Pressure (hPa)", 1015.0); ("Dust (µg/m³)", 95.0);
        ("Aerosol Optical Depth", 0.25);
        ("PM2.5 (µg/m³)_lag_1h", 25.0); ("PM2.5 (µg/m³)_lag_24h", 22.0);
        ("PM10 (µg/m³)_lag_1h", 65.0); ("PM10 (µg/m³)_lag_24h", 58.0);
        ("Temperature (°C)_lag_1h", 29.8); ("Humidity (%)_lag_1h", 47.0);
        ("Wind Speed (m/s)_lag_1h", 11.5); ("Dust (µg/m³)_lag_1h", 88.0);
        ("PM2.5 (µg/m³)_rolling_6h", 24.0);
        ("PM2.5 (µg/m³)_rolling_24h", 23.5);
        ("PM10 (µg/m³)_rolling_6h", 62.0);
        ("PM10 (µg/m³)_rolling_24h", 60.0);
        ("hour_sin", np_sin (2 * np_pi * 12 / 24));
        ("hour_cos", np_cos (2 * np_pi * 12 / 24));
        ("day_sin", np_sin (2 * np_pi * 276 / 365));
        ("day_cos", np_cos (2 * np_pi * 276 / 365))]%Q;
     city := Some "Muscat" |}.

(** The frame [main] passes to [forecast_next_48_hours]: every required
    feature (a training-time column that is not a site indicator) that
    is not a column of the sample frame is added with 0.0.  ['City'] is
    a column of the sample frame, so it is never added. *)
Definition main_conditions (self : Forecaster) : Conditions :=
  {| columns :=
       foldl Pandas.add_missing (columns sample_conditions)
         (List.filter (λ feature, negb (String.eqb feature "City"))
            (base_features self));
     city := city sample_conditions |}.

End Forecasting.
End Forecasting.

(** ** ml_prediction_service.py *)

Module Service.
Section Service.
Context {est : Estimator} {trig : Trig} {fl : Float64}.

(** [DashboardMLPredictor]; the attributes hold whatever the loaded
    artifact stored under the corresponding key. *)
Record Predictor : Type := mkPredictor {
  models : PyVal;
  scalers : PyVal;
  feature_columns : PyVal;
  forecast_models : PyVal;
  forecast_scalers : PyVal;
  forecast_feature_columns : PyVal
}.

(** The attribute values set by [__init__] before [load_models]. *)
Definition init : Predictor :=
  {| models := VModels ∅; scalers := VScalers ∅;
     feature_columns := VColumns [];
     forecast_models := VModels ∅; forecast_scalers := VScalers ∅;
     forecast_feature_columns := VColumns [] |}.

(** [joblib.load(path)] for a path that exists. *)
Definition joblib_load (c : FileContent) : Py.Result (gmap string PyVal) :=
  match c with
  | Pickled d => Py.Ok d
  | Corrupt => Py.Raise (Py.ValueError "cannot unpickle")
  end.

(** [d[key]] on a dict. *)
Definition item (d : gmap string PyVal) (key : string) : Py.Result PyVal :=
  match d !! key with
  | Some v => Py.Ok v
  | None => Py.Raise (Py.KeyError key)
  end.

(** The body of the [try] in [load_models]; [fs] maps the paths that
    exist to their content. *)
Definition load_models_body (self : Predictor) (fs : gmap string FileContent)
  : Py.Result Predictor :=
  self ←
    match fs !! "air_quality_flight_safety_models.pkl" with
    | Some c =>
        model_data ← joblib_load c;
        m ← item model_data "models";
        s ← item model_data "scalers";
        f ← item model_data "feature_columns";
        Py.Ok {| models := m; scalers := s; feature_columns := f;
                 forecast_models := forecast_models self;
                 forecast_scalers := forecast_scalers self;
                 forecast_feature_columns := forecast_feature_columns self |}
    | None => Py.Ok self
    end;
  match fs !! "air_quality_forecast_models.pkl" with
  | Some c =>
      forecast_data ← joblib_load c;
      m ← item forecast_data "models";
      s ← item forecast_data "scalers";
      f ← item forecast_data "feature_columns";
      Py.Ok {| models := models self; scalers := scalers self;
               feature_columns := feature_columns self;
               forecast_models := m; forecast_scalers := s;
               forecast_feature_columns := f |}
  | None => Py.Ok self
  end.

(** [load_models]: the loaded predictor, or the exception that leaves
    the method; the handler prints and calls [sys.exit(1)]. *)
Definition load_models (self : Predictor) (fs : gmap string FileContent)
  : Py.Result Predictor :=
  Py.try_except (load_models_body self fs)
    (λ e, Py.Raise (Py.SystemExit 1)).

(** [get_season] *)
Definition get_season (month : Z) : Z :=
  if bool_decide (month ∈ [12; 1; 2]%Z) then 0
  else if bool_decide (month ∈ [3; 4; 5]%Z) then 1
  else if bool_decide (month ∈ [6; 7; 8]%Z) then 2
  else 3.

(** What [datetime.now()] contributes: the weekday and the month. *)
Record Now : Type := mkNow { weekday : Z; month : Z }.

Definition cities : list string := ["Musandam"; "Muscat"; "Salalah"].

(** [create_features_for_location]; [datetime.replace(hour=hour)]
    raises [ValueError] outside 0..23. *)
Definition create_features_for_location (now : Now)
  (site : string) (lat lon : Q) (region : string) (hour : Z)
  (temperature humidity wind_speed pressure dust aod : Q)
  : Py.Result (list (string * Q)) :=
  if negb (bool_decide (0 ≤ hour ≤ 23)%Z) then
    Py.Raise (Py.ValueError "hour must be in 0..23")
  else
    visibility ← Py.div 50 (1 + (dust / 200) + (aod * 100))%Q;
    air_density ← Py.div (pressure * 100) (287.05 * (temperature + 273.15))%Q;
    Py.Ok
      ([("Temperature (°C)", temperature);
        ("Humidity (%)", humidity);
        ("Wind Speed (m/s)", wind_speed);
        ("Wind Direction (°)",
          180 + 60 * np_sin (inject_Z hour * np_pi / 12));
        ("Pressure (hPa)", pressure);
        ("Dust (µg/m³)", dust);
        ("Aerosol Optical Depth", aod);
        ("Hour", inject_Z hour);
        ("DayOfWeek", inject_Z (weekday now));
        ("Month", inject_Z (month now));
        ("Season", inject_Z (get_season (month now)));
        ("IsWeekend", if bool_decide (5 ≤ weekday now)%Z then 1 else 0);
        ("Visibility_Est", visibility);
        ("Turbulence_Risk", Py.clip (wind_speed / 25 + dust / 200) 0 1);
        ("Air_Density", air_density);
        ("Dust_Wind_Factor", (dust / 100) * (wind_speed / 25));
        ("Pressure_Stability", Qabs (pressure - 1013.25) / 50);
        ("Temp_Humidity_Index", temperature * (1 + humidity / 100))]%Q
       ++ map (λ city,
                 ("City_" +:+ city,
                  if String.eqb region city || String.eqb site city
                  then 1 else 0)%Q) cities).

Definition calculate_aqi (concentration : Q) (pollutant : string) : Z :=
  let breakpoints := AQI.breakpoints pollutant in
  match AQI.scan breakpoints concentration with
  | Some aqi => Py.round aqi
  | None =>
      if Py.Qltb (AQI.last_bp_high breakpoints) concentration then 500 else 0
  end.

Definition fallback_values : gmap string Q :=
  {[ "PM2.5" := 20; "PM10" := 40; "Visibility_Est" := 15;
     "Flight_Safety_Score" := 0.7; "Overall_AQI" := 50 ]}%Q.

(** The frame handed to the models: the missing training-time columns
    are added with 0 (the source walks them as a set; the order in
    which they are appended is erased by the selection that follows),
    then the columns are selected in training-time order. *)
Definition feature_frame (features : list (string * Q))
  (feature_columns : list string) : Py.Result (list (string * Q)) :=
  Pandas.select (foldl Pandas.add_missing features feature_columns)
    feature_columns.

(** The body of the [try] / [except] around one model. *)
Definition predict_target (feature_df : list Q) (target_name : string)
  (model : Model) : Q :=
  match rf_predict model feature_df with
  | Py.Ok pred => Py.max 0 pred
  | Py.Raise _ => default 0%Q (fallback_values !! target_name)
  end.

Definition predict_conditions (self : Predictor) (now : Now)
  (site : string) (lat lon : Q) (region : string) (hour : Z)
  (temperature humidity wind_speed pressure dust aod : Q)
  : Py.Result (gmap string Q) :=
  features ← create_features_for_location now site lat lon region hour
               temperature humidity wind_speed pressure dust aod;
  match feature_columns self, models self with
  | VColumns cols, VModels ms =>
      feature_df ← feature_frame features cols;
      let predictions := map_imap
            (λ name model, Some (predict_target (snd <$> feature_df) name model))
            ms in
      let aqi := Z.max
            (calculate_aqi (default 20%Q (predictions !! "PM2.5")) "pm25")
            (calculate_aqi (default 40%Q (predictions !! "PM10")) "pm10") in
      Py.Ok (<["AQI" := inject_Z aqi]> predictions)
  | _, _ => Py.Raise Py.TypeError
  end.

(** An element of [sites_data]: the keys read with [site_info[...]]
    and those read with [site_info.get(..., default)]. *)
Record SiteInfo : Type := mkSiteInfo {
  si_site : string;
  si_lat : Q;
  si_lon : Q;
  si_region : string;
  si_hour : Z;
  si_temperature : option Q;
  si_humidity : option Q;
  si_wind_speed : option Q;
  si_pressure : option Q;
  si_dust : option Q;
  si_aod : option Q
}.

(** The numeric part of a dashboard result. *)
Record DashboardRow : Type := mkDashboardRow {
  r_site : string;
  r_pm25 : Q;
  r_pm10 : Q;
  r_visibility : Q;
  r_flight_safety_score : Q;
  r_AQI : Q
}.

Definition predict_site (self : Predictor) (now : Now) (site_info : SiteInfo)
  : Py.Result DashboardRow :=
  predictions ← predict_conditions self now
    (si_site site_info) (si_lat site_info) (si_lon site_info)
    (si_region site_info) (si_hour site_info)
    (default 25%Q (si_temperature site_info))
    (default 60%Q (si_humidity site_info))
    (default 10%Q (si_wind_speed site_info))
    (default 1013%Q (si_pressure site_info))
    (default 50%Q (si_dust site_info))
    (default 0.2%Q (si_aod site_info));
  Py.Ok {| r_site := si_site site_info;
           r_pm25 := default 20%Q (predictions !! "PM2.5");
           r_pm10 := default 40%Q (predictions !! "PM10");
           r_visibility := default 15%Q (predictions !! "Visibility_Est");
           r_flight_safety_score :=
             default 0.7%Q (predictions !! "Flight_Safety_Score");
           r_AQI := default 50%Q (predictions !! "AQI") |}.

Definition predict_for_dashboard (self : Predictor) (now : Now)
  (sites_data : list SiteInfo) : Py.Result (list DashboardRow) :=
  mapM (predict_site self now) sites_data.

End Service.
End Service.

(** ** enhanced_aviation_ml.py *)

Module Aviation.
Section Aviation.
Context {est : Estimator} {cal : Calendar} {fl : Float64}.

(** [self.thresholds] *)
Definition thresholds : gmap string (gmap string Q) :=
  {[ "pm25" := {[ "good" := 12; "moderate" := 35.4;
                  "unhealthy_sensitive" := 55.4; "unhealthy" := 150.4;
                  "very_unhealthy" := 250.4 ]};
     "pm10" := {[ "good" := 54; "moderate" := 154;
                  "unhealthy_sensitive" := 254; "unhealthy" := 354;
                  "very_unhealthy" := 424 ]};
     "visibility" := {[ "poor" := 5; "reduced" := 10; "good" := 25 ]};
     "flight_safety" := {[ "high_risk" := 0.3; "moderate_risk" := 0.6;
                           "low_risk" := 1.0 ]} ]}%Q.

(** [self.thresholds[group][name]] for the literal keys the code uses. *)
Definition threshold (group name : string) : Q :=
  default 0%Q (thresholds !! group ≫= (.!! name)).

(** Elementwise numpy division where the quotient is stored as it is.
    A zero divisor gives [inf] or NaN, neither of which is a rational:
    such a cell is [None].  (Used for [Air_Density] only, whose divisor
    vanishes at -273.15 °C; there [dropna] keeps an [inf] that this model
    drops with the NaN.) *)
Definition np_div (a b : Q) : option Q :=
  if Qeq_bool b 0 then None else Some (a / b)%Q.

(** [calculate_visibility] on one row.  When the divisor vanishes it is
    the double [+0.0] (a sum that starts with 1 and cancels), the
    quotient is [+inf] and [np.clip] returns the upper bound. *)
Definition calculate_visibility (pm25 pm10 dust : Q) : Q :=
  let divisor := (1 + (pm25 / 50) + (pm10 / 100) + (dust / 200))%Q in
  if Qeq_bool divisor 0 then 50%Q
  else Py.clip (50 / divisor) 0.1 50.

(** [calculate_turbulence_risk] on one row. *)
Definition calculate_turbulence_risk (wind_speed dust temperature : Q) : Q :=
  let wind_factor := Py.clip (wind_speed / 20) 0 1 in
  let dust_factor := Py.clip (dust / 500) 0 1 in
  let temp_factor := Py.clip (temperature / 50) 0 1 in
  (wind_factor * 0.4 + dust_factor * 0.4 + temp_factor * 0.2)%Q.

(** [calculate_air_density] on one row. *)
Definition calculate_air_density (temp_c pressure_hpa humidity_pct : Q)
  : option Q :=
  let temp_k := (temp_c + 273.15)%Q in
  let rh_factor := (1 - (humidity_pct / 100) * 0.02)%Q in
  d ← np_div (pressure_hpa * 100) (287.05 * temp_k)%Q;
  Some (d * rh_factor)%Q.

(** [calculate_aqi] on one cell of the column. *)
Definition calculate_aqi (conc : option Q) (pollutant : string) : option Q :=
  c ← conc;
  let breakpoints := AQI.breakpoints pollutant in
  let aqi := default 0%Q (AQI.scan breakpoints c) in
  let aqi := if Py.Qltb (AQI.last_bp_high breakpoints) c then 500%Q else aqi in
  Some (inject_Z (Py.round aqi)).

(** One line of a CSV file, tagged with its city. *)
Record Reading : Type := mkReading {
  City : string;
  DateTime : Z;
  PM25 : option Q;
  PM10 : option Q;
  Temperature : option Q;
  Humidity : option Q;
  WindSpeed : option Q;
  WindDirection : option Q;
  Pressure : option Q;
  Dust : option Q;
  AOD : option Q
}.

(** A row of [self.data]: the reading and the engineered columns. *)
Record Row : Type := mkRow {
  reading : Reading;
  Hour : Z;
  DayOfWeek : Z;
  Month : Z;
  Season : option Q;
  IsWeekend : Z;
  Visibility_Est : option Q;
  Turbulence_Risk : option Q;
  Air_Density : option Q;
  Dust_Wind_Factor : option Q;
  Pollution_Index : option Q;
  Pressure_Stability : option Q;
  Temp_Humidity_Index : option Q;
  AQI_PM25 : option Q;
  AQI_PM10 : option Q;
  Overall_AQI : option Q;
  Flight_Safety_Score : option Q
}.

(** [df['Month'].map({12:0, 1:0, ...})]: a month outside the table maps
    to NaN. *)
Definition season_of (month : Z) : option Q :=
  if bool_decide (month ∈ [12; 1; 2]%Z) then Some 0%Q
  else if bool_decide (month ∈ [3; 4; 5]%Z) then Some 1%Q
  else if bool_decide (month ∈ [6; 7; 8]%Z) then Some 2%Q
  else if bool_decide (month ∈ [9; 10; 11]%Z) then Some 3%Q
  else None.

(** The column [abs(P - P.rolling(24).mean())], computed over the
    whole concatenated frame. *)
Definition pressure_stability (df : list Reading) : Pandas.Series :=
  let P := map Pressure df in
  zip_with (λ p m, p ← p; m ← m; Some (Qabs (p - m))) P
    (Pandas.rolling_mean_default 24 P).

(** [calculate_flight_safety_score] on one row. *)
Definition calculate_flight_safety_score
  (visibility_est turbulence_risk overall_aqi wind_speed : Q) : Q :=
  let visibility_score := Py.clip (visibility_est / 25) 0 1 in
  let low_turbulence_score := (1 - turbulence_risk)%Q in
  let air_quality_score := Py.clip ((300 - overall_aqi) / 300) 0 1 in
  let wind_score := Py.clip ((25 - wind_speed) / 25) 0 1 in
  Py.clip (visibility_score * 0.3 + low_turbulence_score * 0.3
           + air_quality_score * 0.25 + wind_score * 0.15)%Q 0 1.

(** The engineered columns of one row; [stability] is the row's cell of
    [pressure_stability]. *)
Definition engineer (r : Reading) (stability : option Q) : Row :=
  let dow := dt_dayofweek (DateTime r) in
  let vis := pm25 ← PM25 r; pm10 ← PM10 r; dust ← Dust r;
             Some (calculate_visibility pm25 pm10 dust) in
  let turb := w ← WindSpeed r; d ← Dust r; t ← Temperature r;
              Some (calculate_turbulence_risk w d t) in
  let aqi25 := calculate_aqi (PM25 r) "pm25" in
  let aqi10 := calculate_aqi (PM10 r) "pm10" in
  let overall := a ← aqi25; b ← aqi10; Some (Qmax a b) in
  {| reading := r;
     Hour := dt_hour (DateTime r);
     DayOfWeek := dow;
     Month := dt_month (DateTime r);
     Season := season_of (dt_month (DateTime r));
     IsWeekend := if bool_decide (5 ≤ dow)%Z then 1 else 0;
     Visibility_Est := vis;
     Turbulence_Risk := turb;
     Air_Density := t ← Temperature r; p ← Pressure r; h ← Humidity r;
                    calculate_air_density t p h;
     Dust_Wind_Factor := d ← Dust r; w ← WindSpeed r; Some (d * w / 100)%Q;
     Pollution_Index := a ← PM25 r; b ← PM10 r; Some ((a * 2 + b) / 3)%Q;
     Pressure_Stability := stability;
     Temp_Humidity_Index := t ← Temperature r; h ← Humidity r;
                            Some (t * (h / 100))%Q;
     AQI_PM25 := aqi25;
     AQI_PM10 := aqi10;
     Overall_AQI := overall;
     Flight_Safety_Score :=
       v ← vis; t ← turb; o ← overall; w ← WindSpeed r;
       Some (calculate_flight_safety_score v t o w) |}.

(** [df.dropna()] *)
Definition complete (r : Row) : bool :=
  forallb (λ c, bool_decide (is_Some c))
    [PM25 (reading r); PM10 (reading r); Temperature (reading r);
     Humidity (reading r); WindSpeed (reading r); WindDirection (reading r);
     Pressure (reading r); Dust (reading r); AOD (reading r);
     Season r; Visibility_Est r; Turbulence_Risk r; Air_Density r;
     Dust_Wind_Factor r; Pollution_Index r; Pressure_Stability r;
     Temp_Humidity_Index r; AQI_PM25 r; AQI_PM10 r; Overall_AQI r;
     Flight_Safety_Score r].

(** [load_and_prepare_data]; [df_list] holds the frames of the files
    [glob] found, in the order [glob] returned them, each already
    tagged with its city. *)
Definition load_and_prepare_data (df_list : list (list Reading)) : list Row :=
  let df := concat df_list in
  List.filter complete (zip_with engineer df (pressure_stability df)).

(** An alert of [generate_alerts]; [value] is the quantity the message
    formats. *)
Record Alert : Type := mkAlert {
  type : string;
  level : string;
  value : Q;
  color : string
}.

(** [predictions[key]] *)
Definition prediction (predictions : gmap string Q) (key : string)
  : Py.Result Q :=
  match predictions !! key with
  | Some v => Py.Ok v
  | None => Py.Raise (Py.KeyError key)
  end.

Definition air_quality_alerts (pm25 : Q) : list Alert :=
  if Py.Qltb (threshold "pm25" "unhealthy") pm25 then
    [{| type := "AIR_QUALITY"; level := "HIGH"; value := pm25;
        color := "red" |}]
  else if Py.Qltb (threshold "pm25" "moderate") pm25 then
    [{| type := "AIR_QUALITY"; level := "MODERATE"; value := pm25;
        color := "orange" |}]
  else [].

Definition flight_safety_alerts (score : Q) : list Alert :=
  if Py.Qltb score (threshold "flight_safety" "high_risk") then
    [{| type := "FLIGHT_SAFETY"; level := "HIGH"; value := score;
        color := "red" |}]
  else if Py.Qltb score (threshold "flight_safety" "moderate_risk") then
    [{| type := "FLIGHT_SAFETY"; level := "MODERATE"; value := score;
        color := "orange" |}]
  else [].

Definition visibility_alerts (visibility : Q) : list Alert :=
  if Py.Qltb visibility (threshold "visibility" "poor") then
    [{| type := "VISIBILITY"; level := "HIGH"; value := visibility;
        color := "red" |}]
  else [].

(** [generate_alerts]: the three blocks append to [alerts] in turn. *)
Definition generate_alerts (predictions : gmap string Q)
  : Py.Result (list Alert) :=
  pm25 ← prediction predictions "PM2.5";
  score ← prediction predictions "Flight_Safety_Score";
  visibility ← prediction predictions "Visibility_Est";
  Py.Ok (air_quality_alerts pm25 ++ flight_safety_alerts score
         ++ visibility_alerts visibility).

(** [AirQualityFlightSafetyPredictor] after training. *)
Record Trainer : Type := mkTrainer {
  models : gmap string Model;
  scalers : gmap string unit;
  feature_columns : list string
}.

(** [save_models]: the dict handed to [joblib.dump]. *)
Definition save_models (self : Trainer) : gmap string PyVal :=
  {[ "models" := VModels (models self);
     "scalers" := VScalers (scalers self);
     "feature_columns" := VColumns (feature_columns self);
     "thresholds" := VThresholds thresholds ]}.

(** [base_features] of [prepare_features]. *)
Definition base_features : list string :=
  ["Temperature (°C)"; "Humidity (%)"; "Wind Speed (m/s)";
   "Wind Direction (°)"; "Pressure (hPa)"; "Dust (µg/m³)";
   "Aerosol Optical Depth"; "Hour"; "DayOfWeek"; "Month"; "Season";
   "IsWeekend"; "Visibility_Est"; "Turbulence_Risk"; "Air_Density";
   "Dust_Wind_Factor"; "Pressure_Stability"; "Temp_Humidity_Index"].

(** [df[base_features]] on one row. *)
Definition base_values (r : Row) : list (option Q) :=
  [Temperature (reading r); Humidity (reading r); WindSpeed (reading r);
   WindDirection (reading r); Pressure (reading r); Dust (reading r);
   AOD (reading r); Some (inject_Z (Hour r)); Some (inject_Z (DayOfWeek r));
   Some (inject_Z (Month r)); Season r; Some (inject_Z (IsWeekend r));
   Visibility_Est r; Turbulence_Risk r; Air_Density r; Dust_Wind_Factor r;
   Pressure_Stability r; Temp_Humidity_Index r].

(** The cities behind the columns of
    [pd.get_dummies(df['City'], prefix='City')], in sorted order. *)
Definition dummy_cities (data : list Row) : list string :=
  Pandas.sort_values String.leb (Pandas.unique (map (λ r, City (reading r)) data)).

(** [prepare_features]: the feature matrix, and the predictor with
    [self.feature_columns] set to the matrix's column names. *)
Definition prepare_features (self : Trainer) (data : list Row)
  : Trainer * list (list (option Q)) :=
  let cities := dummy_cities data in
  ({| models := models self; scalers := scalers self;
      feature_columns := base_features ++ map (λ c, "City_" +:+ c) cities |},
   map (λ r, base_values r
             ++ map (λ c, Some (if String.eqb (City (reading r)) c
                                then 1 else 0)%Q) cities) data).

End Aviation.
End Aviation.

(** ** Concrete instances, for running the embedding on examples *)

Module Fixtures.

(** A regressor that predicts the mean of its training labels. *)
Definition mean_estimator : Estimator :=
  {| Model := Q;
     rf_fit := λ _ y, Pandas.mean y;
     rf_predict := λ m _, Py.Ok m |}.

(** Doubles that hit every half exactly: [round] then goes to the even
    integer. *)
Definition exact_halves : Float64 :=
  {| round_tie_up := λ x, Z.odd (Qfloor x) |}.

(** Constant stand-ins for the trigonometric functions. *)
Definition flat_trig : Trig :=
  {| np_sin := λ _, 0%Q; np_cos := λ _, 1%Q; np_pi := 3.14159%Q |}.

(** A calendar of 365-day years and 31-day months over hour counts. *)
Definition hourly_calendar : Calendar :=
  {| dt_hour := λ t, (t mod 24)%Z;
     dt_dayofyear := λ t, ((t / 24) mod 365 + 1)%Z;
     dt_dayofweek := λ t, ((t / 24) mod 7)%Z;
     dt_month := λ t, (((t / 24) mod 365) / 31 + 1)%Z |}.

(** The remaining measurement columns of the CSV files, as the
    aviation script names them. *)
Definition schema : list string :=
  ["Wind Direction (°)"; "Pressure (hPa)"; "Aerosol Optical Depth"].

(** An hourly series of [n] complete readings starting at hour 0; the
    PM2.5 value at hour [t] is [base + t]. *)
Definition hourly (base : Z) (n : nat) : list Forecasting.Reading :=
  map (λ t : nat,
         {| Forecasting.DateTime := Z.of_nat t;
            Forecasting.PM25 := Some (inject_Z (base + Z.of_nat t));
            Forecasting.PM10 := Some (inject_Z (2 * base + Z.of_nat t));
            Forecasting.Temperature := Some 30%Q;
            Forecasting.Humidity := Some 45%Q;
            Forecasting.WindSpeed := Some 12%Q;
            Forecasting.Dust := Some 95%Q;
            Forecasting.other := [Some 180; Some 1015; Some 0.25]%Q |})
      (seq 0 n).

(** Musandam and Muscat have 124 hourly readings each; the Salalah
    file cannot be read. *)
Definition two_cities (f : string) : option (list Forecasting.Reading) :=
  if String.eqb f "./data/Muscat_oman_weather_aod_pm2023-2025.csv"
  then Some (hourly 1000 124)
  else if String.eqb f "./data/Musandam_oman_weather_aod_pm2023-2025.csv"
  then Some (hourly 0 124)
  else None.

(** The frame [prepare_forecast_data] builds from [two_cities]. *)
Definition two_cities_frame : list Forecasting.Row :=
  Forecasting.build_frame (trig := flat_trig) (cal := hourly_calendar)
    (Forecasting.load_files two_cities).

(** Only the Muscat file can be read; it has 144 hourly readings. *)
Definition single_city (f : string) : option (list Forecasting.Reading) :=
  if String.eqb f "./data/Muscat_oman_weather_aod_pm2023-2025.csv"
  then Some (hourly 1000 144)
  else None.

(** 24 readings of one city at constant pressure [p]. *)
Definition steady (city : string) (p : Q) : list Aviation.Reading :=
  map (λ t : nat,
         {| Aviation.City := city;
            Aviation.DateTime := Z.of_nat t;
            Aviation.PM25 := Some 20%Q;
            Aviation.PM10 := Some 40%Q;
            Aviation.Temperature := Some 25%Q;
            Aviation.Humidity := Some 60%Q;
            Aviation.WindSpeed := Some 10%Q;
            Aviation.WindDirection := Some 180%Q;
            Aviation.Pressure := Some p;
            Aviation.Dust := Some 50%Q;
            Aviation.AOD := Some 0.2%Q |})
      (seq 0 24).

(** Two files of 24 readings: Muscat at 1000 hPa, Salalah at 1024 hPa. *)
Definition muscat_file : list Aviation.Reading := steady "Muscat" 1000.
Definition salalah_file : list Aviation.Reading := steady "Salalah" 1024.

(** The hour and the pressure-stability cell (reduced) of the rows of one
    city in a prepared frame. *)
Definition stability_of (city : string) (data : list Aviation.Row)
  : list (Z * option Q) :=
  map (λ r, (Aviation.DateTime (Aviation.reading r),
             Qred <$> Aviation.Pressure_Stability r))
    (List.filter (λ r, String.eqb (Aviation.City (Aviation.reading r)) city)
       data).

(** The only row that [load_and_prepare_data] retains from 24 readings
    at a constant 1013 hPa (hour 23, the first with a full pressure
    window); its measurements are the defaults of the inference
    request. *)
Definition training_row : option Aviation.Row :=
  head (Aviation.load_and_prepare_data (cal := hourly_calendar)
          (fl := exact_halves)
          [steady "Muscat" 1013]).

(** A column (reduced) of the training row. *)
Definition trained_with (col : Aviation.Row → option Q) : option Q :=
  Qred <$> (training_row ≫= col).

(** A feature (reduced) of an inference feature dict. *)
Definition served_with (features : Py.Result (list (string * Q)))
  (name : string) : option Q :=
  match features with
  | Py.Ok fs => Qred <$> Py.assoc name fs
  | Py.Raise _ => None
  end.

(** The forecaster trained on [single_city] (a fresh one, should
    training raise). *)
Definition trained_single : Forecasting.Forecaster (est := mean_estimator) :=
  match Forecasting.train_forecast_models (est := mean_estimator)
          (trig := flat_trig) (cal := hourly_calendar)
          schema Forecasting.init single_city with
  | Py.Ok trained => trained
  | Py.Raise _ => Forecasting.init
  end.

(** A file system that holds only the forecast artifact, written by a
    forecaster that has just been initialised. *)
Definition forecast_only : gmap string (FileContent (est := mean_estimator)) :=
  {[ "air_quality_forecast_models.pkl" :=
       Pickled (Forecasting.save_forecast_models Forecasting.init) ]}.

(** The current measurements of Muscat, without any engineered column. *)
Definition raw_conditions : Forecasting.Conditions :=
  {| Forecasting.columns :=
       [("Temperature (°C)", 30.5); ("Humidity (%)", 45.0);
        ("Wind Speed (m/s)", 12.0); ("Dust (µg/m³)", 95.0);
        ("Wind Direction (°)", 180.0); ("Pressure (hPa)", 1015.0);
        ("Aerosol Optical Depth", 0.25)]%Q;
     Forecasting.city := Some "Muscat" |}.

(** Only the Muscat file can be read; it has 26 hourly readings, too few
    to train any horizon. *)
Definition brief_city (f : string) : option (list Forecasting.Reading) :=
  if String.eqb f "./data/Muscat_oman_weather_aod_pm2023-2025.csv"
  then Some (hourly 1000 26)
  else None.

(** The forecaster trained on [brief_city] (a fresh one, should training
    raise). *)
Definition trained_brief : Forecasting.Forecaster (est := mean_estimator) :=
  match Forecasting.train_forecast_models (est := mean_estimator)
          (trig := flat_trig) (cal := hourly_calendar)
          schema Forecasting.init brief_city with
  | Py.Ok trained => trained
  | Py.Raise _ => Forecasting.init
  end.

(** A forecaster that holds both models of the 1-hour horizon and only
    the PM2.5 model of the 6-hour horizon, over one measurement column
    and two site indicators. *)
Definition toy_forecaster : Forecasting.Forecaster (est := mean_estimator) :=
  {| Forecasting.models :=
       {[ "pm25_1h" := 30%Q; "pm10_1h" := 70%Q; "pm25_6h" := 35%Q ]};
     Forecasting.scalers := ∅;
     Forecasting.feature_columns :=
       ["City_Muscat"; "Humidity (%)"; "City_Salalah"] |}.

(** A forecaster without models that expects two seasonal columns. *)
Definition seasonal_forecaster : Forecasting.Forecaster (est := mean_estimator) :=
  {| Forecasting.models := ∅; Forecasting.scalers := ∅;
     Forecasting.feature_columns :=
       ["Humidity (%)"; "City_Muscat"; "hour_sin"; "day_sin"] |}.

(** A trainer with one model and three feature columns, one of which
    the prediction service does not know. *)
Definition toy_trainer : Aviation.Trainer (est := mean_estimator) :=
  {| Aviation.models := {[ "PM2.5" := 30%Q ]};
     Aviation.scalers := {[ "PM2.5" := () ]};
     Aviation.feature_columns := ["Hour"; "City_Muscat"; "City_Sohar"] |}.

(** A file system that holds only the artifact of the training script,
    written by [toy_trainer]. *)
Definition flight_only : gmap string (FileContent (est := mean_estimator)) :=
  {[ "air_quality_flight_safety_models.pkl" :=
       Pickled (Aviation.save_models toy_trainer) ]}.

(** A predictor that holds the artifact of [toy_trainer]. *)
Definition toy_predictor : Service.Predictor (est := mean_estimator) :=
  {| Service.models := VModels (Aviation.models toy_trainer);
     Service.scalers := VScalers (Aviation.scalers toy_trainer);
     Service.feature_columns := VColumns (Aviation.feature_columns toy_trainer);
     Service.forecast_models := VModels ∅;
     Service.forecast_scalers := VScalers ∅;
     Service.forecast_feature_columns := VColumns [] |}.

(** A dashboard request for Muscat at noon that gives no measurement. *)
Definition muscat_noon : Service.SiteInfo :=
  {| Service.si_site := "Muscat"; Service.si_lat := 23.5933;
     Service.si_lon := 58.2844; Service.si_region := "Muscat";
     Service.si_hour := 12;
     Service.si_temperature := None; Service.si_humidity := None;
     Service.si_wind_speed := None; Service.si_pressure := None;
     Service.si_dust := None; Service.si_aod := None |}%Q.

(** The same request with an hour that is no hour of the day. *)
Definition muscat_hour_24 : Service.SiteInfo :=
  {| Service.si_site := "Muscat"; Service.si_lat := 23.5933;
     Service.si_lon := 58.2844; Service.si_region := "Muscat";
     Service.si_hour := 24;
     Service.si_temperature := None; Service.si_humidity := None;
     Service.si_wind_speed := None; Service.si_pressure := None;
     Service.si_dust := None; Service.si_aod := None |}%Q.

(** A Wednesday in July. *)
Definition july : Service.Now := {| Service.weekday := 2; Service.month := 7 |}.

(** One prepared row for each of the three sites. *)
Definition three_sites : list Aviation.Row :=
  map (λ city,
         Aviation.engineer (cal := hourly_calendar) (fl := exact_halves)
           {| Aviation.City := city; Aviation.DateTime := 0;
              Aviation.PM25 := Some 20%Q; Aviation.PM10 := Some 40%Q;
              Aviation.Temperature := Some 25%Q;
              Aviation.Humidity := Some 60%Q;
              Aviation.WindSpeed := Some 10%Q;
              Aviation.WindDirection := Some 180%Q;
              Aviation.Pressure := Some 1013%Q;
              Aviation.Dust := Some 50%Q; Aviation.AOD := Some 0.2%Q |}
           (Some 0%Q))
      ["Salalah"; "Muscat"; "Musandam"].

End Fixtures.

(** ** Vocabulary of the properties *)

(** A bracket with [bp_low < bp_high] and [0 <= aqi_low <= aqi_high]. *)
Definition well_formed (b : AQI.Bracket) : Prop :=
  (AQI.bp_low b < AQI.bp_high b)%Q
  ∧ (0 <= AQI.aqi_low b)%Q ∧ (AQI.aqi_low b <= AQI.aqi_high b)%Q.

(** A frame in which no cell is NaN. *)
Definition clean (df : list Forecasting.Row) : Prop :=
  Forall (λ r, Forecasting.complete r = true) df.

(** The model that one iteration of the training loop fits for the
    target column [col] and horizon [h]. *)
Definition fitted {est : Estimator} (schema : list string)
  (col : Forecasting.Reading → option Q) (df : list Forecasting.Row) (h : nat)
  : Model :=
  rf_fit (Forecasting.X_aligned schema df h) (Forecasting.future_target col df h).

(** The models after an iteration that trains horizon [h]. *)
Definition with_fitted {est : Estimator} (schema : list string)
  (df : list Forecasting.Row) (models : gmap string Model) (h : nat)
  : gmap string Model :=
  <[Forecasting.model_key "pm10" h := fitted schema Forecasting.PM10 df h]>
    (<[Forecasting.model_key "pm25" h := fitted schema Forecasting.PM25 df h]>
       models).

(** A frame sorted by the order [le]. *)
Definition sorted_by {A} (le : A → A → bool) (l : list A) : Prop :=
  StronglySorted (λ x y, le x y = true) l.

(** The rows of one city in the concatenated input. *)
Definition readings_of (city : string) (df : list (string * Forecasting.Reading))
  : list (string * Forecasting.Reading) :=
  List.filter (λ r, String.eqb r.1 city) df.

(** The rows of one city in a frame of features. *)
Definition rows_of (city : string) (df : list Forecasting.Row)
  : list Forecasting.Row :=
  List.filter (λ r, String.eqb (Forecasting.City r) city) df.

(** The frame of one file, tagged with its city. *)
Definition tagged (f : string * list Forecasting.Reading)
  : list (string * Forecasting.Reading) :=
  map (λ r, (f.1, r)) f.2.

(** A table whose brackets ascend: each bracket ends strictly below the
    later ones, and its AQI range ends where theirs begin, at most. *)
Definition ascending (bps : list AQI.Bracket) : Prop :=
  StronglySorted
    (λ b b', (AQI.bp_high b < AQI.bp_low b')%Q
             ∧ (AQI.aqi_high b <= AQI.aqi_low b')%Q) bps.

(** A reading none of whose measurements is NaN. *)
Definition full_reading (r : Forecasting.Reading) : bool :=
  forallb (λ c, bool_decide (is_Some c))
    (map (λ col, col.2 r) Forecasting.lag_columns ++ Forecasting.other r).

(** The site indicator that [forecast_next_48_hours] gives the column
    [col]: 1 for the column of the request's city (of Muscat when the
    request names no city), 0 otherwise. *)
Definition site_indicator (current_conditions : Forecasting.Conditions)
  (col : string) : Q :=
  match Forecasting.city current_conditions with
  | Some c => if String.eqb col ("City_" +:+ c) then 1 else 0
  | None => if String.eqb col "City_Muscat" then 1 else 0
  end.

(** The horizons for which [self.models] holds both models. *)
Definition served_horizons {est : Estimator} (self : Forecasting.Forecaster)
  (hs : list nat) : list nat :=
  List.filter
    (λ h, bool_decide (is_Some (Forecasting.models self
                                  !! Forecasting.model_key "pm25" h))
          && bool_decide (is_Some (Forecasting.models self
                                     !! Forecasting.model_key "pm10" h)))
    hs.

(** A dashboard request on which [create_features_for_location] does
    not raise: an hour of the day, and measurements (the given ones, or
    the defaults) for which neither denominator vanishes. *)
Definition well_posed (site_info : Service.SiteInfo) : Prop :=
  (0 ≤ Service.si_hour site_info ≤ 23)%Z
  ∧ ¬ (1 + default 50 (Service.si_dust site_info) / 200
       + default 0.2 (Service.si_aod site_info) * 100 == 0)%Q
  ∧ ¬ (287.05 * (default 25 (Service.si_temperature site_info) + 273.15)
       == 0)%Q.

(** The row the dashboard shows when no model answers. *)
Definition fallback_row (site_info : Service.SiteInfo) : Service.DashboardRow :=
  {| Service.r_site := Service.si_site site_info;
     Service.r_pm25 := 20; Service.r_pm10 := 40;
     Service.r_visibility := 15; Service.r_flight_safety_score := 0.7;
     Service.r_AQI := 68 |}%Q.

(* ================================================================== *)
(** * Part II.  Properties                                              *)
(* ================================================================== *)

(** ** Arithmetic of the Python primitives *)

Lemma Qltb_lt (a b : Q) : Py.Qltb a b = true ↔ (a < b)%Q.
Proof.
  unfold Py.Qltb. rewrite negb_true_iff, <- not_true_iff_false, Qle_bool_iff.
  split; [apply Qnot_le_lt | apply Qlt_not_le].
Qed.

Lemma Qltb_ge (a b : Q) : Py.Qltb a b = false ↔ (b <= a)%Q.
Proof.
  unfold Py.Qltb. rewrite negb_false_iff. apply Qle_bool_iff.
Qed.

Lemma py_max_ge_l (a b : Q) : (a <= Py.max a b)%Q.
Proof.
  unfold Py.max. destruct (Py.Qltb a b) eqn:E.
  - apply Qlt_le_weak, Qltb_lt, E.
  - apply Qle_refl.
Qed.

Lemma py_max_ge_r (a b : Q) : (b <= Py.max a b)%Q.
Proof.
  unfold Py.max. destruct (Py.Qltb a b) eqn:E.
  - apply Qle_refl.
  - apply Qltb_ge, E.
Qed.

Lemma in_bracket_iff (c : Q) (b : AQI.Bracket) :
  AQI.in_bracket c b = true ↔ (AQI.bp_low b <= c <= AQI.bp_high b)%Q.
Proof.
  unfold AQI.in_bracket. rewrite andb_true_iff, !Qle_bool_iff. tauto.
Qed.

(** ** The AQI interpolation *)

(** The loop returns the interpolation of the first bracket that
    contains the concentration. *)
Lemma scan_first (pre post : list AQI.Bracket) (b : AQI.Bracket) (c : Q) :
  Forall (λ b', ¬ (AQI.bp_low b' <= c <= AQI.bp_high b')%Q) pre →
  (AQI.bp_low b <= c <= AQI.bp_high b)%Q →
  AQI.scan (pre ++ b :: post) c = Some (AQI.interpolate b c).
Proof.
  intros Hpre Hb. induction Hpre as [|b' pre Hb' _ IH]; simpl.
  - apply in_bracket_iff in Hb. by rewrite Hb.
  - destruct (AQI.in_bracket c b') eqn:E; [|exact IH].
    apply in_bracket_iff in E. contradiction.
Qed.

(** A table that has a bracket containing [c] has a first one. *)
Lemma first_bracket_exists (bps : list AQI.Bracket) (c : Q) :
  (∃ b, b ∈ bps ∧ (AQI.bp_low b <= c <= AQI.bp_high b)%Q) →
  ∃ pre b post,
    bps = pre ++ b :: post
    ∧ Forall (λ b', ¬ (AQI.bp_low b' <= c <= AQI.bp_high b')%Q) pre
    ∧ (AQI.bp_low b <= c <= AQI.bp_high b)%Q.
Proof.
  induction bps as [|b0 bps IH]; intros (b & Hin & Hb).
  - by apply elem_of_nil in Hin.
  - destruct (AQI.in_bracket c b0) eqn:E.
    + exists [], b0, bps. split; [done|].
      split; [apply Forall_nil_2 | by apply in_bracket_iff].
    + assert (Hb0 : ¬ (AQI.bp_low b0 <= c <= AQI.bp_high b0)%Q).
      { rewrite <- in_bracket_iff, E. discriminate. }
      apply elem_of_cons in Hin as [-> | Hin]; [contradiction|].
      destruct IH as (pre & b1 & post & -> & Hpre & Hb1); [by eauto|].
      exists (b0 :: pre), b1, post. split; [done|]. split; [by constructor | done].
Qed.

(** Above the last breakpoint no bracket of either table matches. *)
Lemma scan_above_last (pollutant : string) (c : Q) :
  (AQI.last_bp_high (AQI.breakpoints pollutant) < c)%Q →
  AQI.scan (AQI.breakpoints pollutant) c = None.
Proof.
  unfold AQI.breakpoints.
  destruct (String.eqb pollutant "pm25"); cbn; intros Hc;
    repeat match goal with
    | |- context [AQI.in_bracket c ?b] =>
        let E := fresh in
        destruct (AQI.in_bracket c b) eqn:E;
        [apply in_bracket_iff in E; cbn in E; lra |]
    end; reflexivity.
Qed.

Lemma breakpoints_cases (pollutant : string) :
  AQI.breakpoints pollutant = AQI.breakpoints "pm25"
  ∨ AQI.breakpoints pollutant = AQI.breakpoints "pm10".
Proof.
  unfold AQI.breakpoints. destruct (String.eqb pollutant "pm25"); auto.
Qed.








(** ** Artifacts: the forecaster saves, the prediction service loads *)

Section Artifacts.
Context {est : Estimator}.

Lemma item_forecast_scalers (fc : Forecasting.Forecaster) :
  Service.item (Forecasting.save_forecast_models fc) "scalers"
  = Py.Raise (Py.KeyError "scalers").
Proof. reflexivity. Qed.

Lemma item_forecast_models (fc : Forecasting.Forecaster) :
  Service.item (Forecasting.save_forecast_models fc) "models"
  = Py.Ok (VModels (Forecasting.models fc)).
Proof. reflexivity. Qed.

(** Loading the forecaster's artifact raises, whatever came before. *)
Lemma load_models_body_raises (self : Service.Predictor)
  (fc : Forecasting.Forecaster) (fs : gmap string FileContent) :
  fs !! "air_quality_forecast_models.pkl"
    = Some (Pickled (Forecasting.save_forecast_models fc)) →
  ∃ e, Service.load_models_body self fs = Py.Raise e
       ∧ ∀ code, e ≠ Py.SystemExit code.
Proof.
  intros Hfs. unfold Service.load_models_body. rewrite Hfs.
  destruct (fs !! "air_quality_flight_safety_models.pkl") as [[d|]|]; cbn.
  - destruct (Service.item d "models") as [m|e] eqn:Em; cbn;
      [destruct (Service.item d "scalers") as [s|e] eqn:Es; cbn;
       [destruct (Service.item d "feature_columns") as [f|e] eqn:Ef; cbn|]|].
    1: by eexists.
    all: match goal with
         | E : Service.item _ _ = Py.Raise _ |- _ =>
             unfold Service.item in E; destruct (_ !! _) in E; [done|];
             injection E as <-; by eexists
         end.
  - by eexists.
  - by eexists.
Qed.

(** C10: the dict written by [save_forecast_models] has exactly the
    keys ['models'] and ['feature_columns']; when the forecast artifact
    file holds such a dict, [load_models] reads ['models'], fails with
    [KeyError] on ['scalers'] (when nothing failed before), the handler
    catches what was raised, and the method leaves through
    [sys.exit(1)]. *)
Theorem forecast_artifact_never_loads (self : Service.Predictor)
  (fc : Forecasting.Forecaster) (fs : gmap string FileContent) :
  fs !! "air_quality_forecast_models.pkl"
    = Some (Pickled (Forecasting.save_forecast_models fc)) →
  dom (Forecasting.save_forecast_models fc)
    = ({["models"; "feature_columns"]} : gset string)
  ∧ (fs !! "air_quality_flight_safety_models.pkl" = None →
     Service.load_models_body self fs = Py.Raise (Py.KeyError "scalers"))
  ∧ Service.load_models self fs = Py.Raise (Py.SystemExit 1).
Proof.
  intros Hfs. split; [|split].
  - unfold Forecasting.save_forecast_models.
    rewrite dom_insert_L, dom_singleton_L. set_solver.
  - intros Hnone. unfold Service.load_models_body.
    by rewrite Hnone, Hfs.
  - unfold Service.load_models.
    destruct (load_models_body_raises self fc fs Hfs) as (e & -> & Hne).
    destruct e; cbn; try reflexivity. by destruct (Hne code).
Qed.

End Artifacts.

(** C10, witness: only the forecast artifact exists, written by a
    forecaster that has just been initialised. *)
Lemma forecast_artifact_never_loads_witness :
  Service.load_models_body (est := Fixtures.mean_estimator) Service.init
    Fixtures.forecast_only = Py.Raise (Py.KeyError "scalers")
  ∧ Service.load_models (est := Fixtures.mean_estimator) Service.init
      Fixtures.forecast_only = Py.Raise (Py.SystemExit 1).
Proof.
  destruct (forecast_artifact_never_loads (est := Fixtures.mean_estimator)
              Service.init Forecasting.init Fixtures.forecast_only)
    as (_ & Hbody & Hexit); [reflexivity|].
  split; [apply Hbody; reflexivity | exact Hexit].
Defined.

(** ** Alerts *)

Lemma air_quality_alert_types (pm25 : Q) :
  map Aviation.type (Aviation.air_quality_alerts pm25)
  = if Py.Qltb 35.4%Q pm25 then ["AIR_QUALITY"] else [].
Proof.
  unfold Aviation.air_quality_alerts.
  change (Aviation.threshold "pm25" "unhealthy") with 150.4%Q.
  change (Aviation.threshold "pm25" "moderate") with 35.4%Q.
  destruct (Py.Qltb 150.4%Q pm25) eqn:E1; destruct (Py.Qltb 35.4%Q pm25) eqn:E2;
    try reflexivity.
  apply Qltb_lt in E1. apply Qltb_ge in E2. lra.
Qed.

Lemma flight_safety_alert_types (score : Q) :
  map Aviation.type (Aviation.flight_safety_alerts score)
  = if Py.Qltb score 0.6%Q then ["FLIGHT_SAFETY"] else [].
Proof.
  unfold Aviation.flight_safety_alerts.
  change (Aviation.threshold "flight_safety" "high_risk") with 0.3%Q.
  change (Aviation.threshold "flight_safety" "moderate_risk") with 0.6%Q.
  destruct (Py.Qltb score 0.3%Q) eqn:E1; destruct (Py.Qltb score 0.6%Q) eqn:E2;
    try reflexivity.
  apply Qltb_lt in E1. apply Qltb_ge in E2. lra.
Qed.

Lemma visibility_alert_types (visibility : Q) :
  map Aviation.type (Aviation.visibility_alerts visibility)
  = if Py.Qltb visibility 5%Q then ["VISIBILITY"] else [].
Proof.
  unfold Aviation.visibility_alerts.
  change (Aviation.threshold "visibility" "poor") with 5%Q.
  by destruct (Py.Qltb visibility 5%Q).
Qed.

Lemma air_quality_alert_levels (pm25 : Q) :
  map Aviation.level (Aviation.air_quality_alerts pm25)
  = if Py.Qltb 150.4%Q pm25 then ["HIGH"]
    else if Py.Qltb 35.4%Q pm25 then ["MODERATE"] else [].
Proof.
  unfold Aviation.air_quality_alerts.
  change (Aviation.threshold "pm25" "unhealthy") with 150.4%Q.
  change (Aviation.threshold "pm25" "moderate") with 35.4%Q.
  by destruct (Py.Qltb 150.4%Q pm25); [|destruct (Py.Qltb 35.4%Q pm25)].
Qed.

Lemma flight_safety_alert_levels (score : Q) :
  map Aviation.level (Aviation.flight_safety_alerts score)
  = if Py.Qltb score 0.3%Q then ["HIGH"]
    else if Py.Qltb score 0.6%Q then ["MODERATE"] else [].
Proof.
  unfold Aviation.flight_safety_alerts.
  change (Aviation.threshold "flight_safety" "high_risk") with 0.3%Q.
  change (Aviation.threshold "flight_safety" "moderate_risk") with 0.6%Q.
  by destruct (Py.Qltb score 0.3%Q); [|destruct (Py.Qltb score 0.6%Q)].
Qed.

Lemma visibility_alert_levels (visibility : Q) :
  map Aviation.level (Aviation.visibility_alerts visibility)
  = if Py.Qltb visibility 5%Q then ["HIGH"] else [].
Proof.
  unfold Aviation.visibility_alerts.
  change (Aviation.threshold "visibility" "poor") with 5%Q.
  by destruct (Py.Qltb visibility 5%Q).
Qed.

(** The overall AQI of a forecast entry is the larger of its two
    per-pollutant AQIs. *)
Lemma overall_aqi_is_max (entry : Forecasting.Forecast) :
  let aqi_pm25 := Forecasting.calculate_aqi (Forecasting.pm25 entry) "pm25" in
  let aqi_pm10 := Forecasting.calculate_aqi (Forecasting.pm10 entry) "pm10" in
  (aqi_pm25 <= Forecasting.overall_aqi entry)%Q
  ∧ (aqi_pm10 <= Forecasting.overall_aqi entry)%Q
  ∧ (Forecasting.overall_aqi entry = aqi_pm25
     ∨ Forecasting.overall_aqi entry = aqi_pm10).
Proof.
  cbv zeta. unfold Forecasting.overall_aqi, Py.max.
  destruct (Py.Qltb _ _) eqn:E.
  - apply Qltb_lt in E. split; [lra|]. split; [lra|]. by right.
  - apply Qltb_ge in E. split; [lra|]. split; [lra|]. by left.
Qed.

(** C9: for a forecast of PM2.5 = 200 and PM10 = 50 the PM2.5 AQI is
    the interpolation in the fifth bracket (150.5, 250.4, 201, 300) of
    the PM2.5 table, namely 9252/37 (about 250.05, between 201 and 300),
    the PM10 AQI is 1250/27 (about 46.3), the overall AQI is their
    maximum 9252/37, it exceeds 150 and [generate_forecast_alerts] emits
    one HIGH alert carrying it.  For every forecast entry the overall
    AQI is the larger of the two per-pollutant AQIs, and the entry
    raises a HIGH alert above 150, a MODERATE one above 100 and none
    otherwise.  And for every prediction set [generate_alerts] emits
    exactly the triggered alerts with their levels, air quality first,
    then flight safety, then visibility (a PM2.5 prediction of 200
    giving a HIGH air-quality alert at the head). *)
Theorem alerts_dominated_by_pm25_and_ordered
  (predictions : gmap string Q) (pm25 score visibility : Q) (hz : string)
  (t : Z) :
  predictions !! "PM2.5" = Some pm25 →
  predictions !! "Flight_Safety_Score" = Some score →
  predictions !! "Visibility_Est" = Some visibility →
  let pred := {| Forecasting.pm25 := 200%Q; Forecasting.pm10 := 50%Q;
                 Forecasting.timestamp := t |} in
  let aqi_pm25 := Forecasting.calculate_aqi 200%Q "pm25" in
  let aqi_pm10 := Forecasting.calculate_aqi 50%Q "pm10" in
  (AQI.breakpoints "pm25" !! 4%nat = Some (150.5, 250.4, 201, 300)%Q
   ∧ aqi_pm25 = AQI.interpolate (150.5, 250.4, 201, 300)%Q 200%Q
   ∧ (aqi_pm25 == 9252 # 37)%Q
   ∧ (201 <= aqi_pm25 <= 300)%Q
   ∧ (aqi_pm10 == 1250 # 27)%Q
   ∧ (aqi_pm10 < aqi_pm25)%Q
   ∧ Forecasting.overall_aqi pred = Py.max aqi_pm25 aqi_pm10
   ∧ (Forecasting.overall_aqi pred == 9252 # 37)%Q
   ∧ (150 < Forecasting.overall_aqi pred)%Q
   ∧ Forecasting.generate_forecast_alerts [(hz, pred)]
     = [{| Forecasting.horizon := hz; Forecasting.level := "HIGH";
           Forecasting.alert_timestamp := t;
           Forecasting.aqi := Forecasting.overall_aqi pred |}])
  ∧ (∀ entry : Forecasting.Forecast,
       ((Forecasting.calculate_aqi (Forecasting.pm25 entry) "pm25"
         <= Forecasting.overall_aqi entry)%Q
        ∧ (Forecasting.calculate_aqi (Forecasting.pm10 entry) "pm10"
           <= Forecasting.overall_aqi entry)%Q
        ∧ (Forecasting.overall_aqi entry
           = Forecasting.calculate_aqi (Forecasting.pm25 entry) "pm25"
           ∨ Forecasting.overall_aqi entry
             = Forecasting.calculate_aqi (Forecasting.pm10 entry) "pm10"))
       ∧ Forecasting.generate_forecast_alerts [(hz, entry)]
         = map (λ level,
                  {| Forecasting.horizon := hz; Forecasting.level := level;
                     Forecasting.alert_timestamp := Forecasting.timestamp entry;
                     Forecasting.aqi := Forecasting.overall_aqi entry |})
             (if Py.Qltb 150 (Forecasting.overall_aqi entry) then ["HIGH"]
              else if Py.Qltb 100 (Forecasting.overall_aqi entry)
                   then ["MODERATE"] else []))
  ∧ ∃ alerts,
      Aviation.generate_alerts predictions = Py.Ok alerts
      ∧ map Aviation.type alerts
        = (if Py.Qltb 35.4%Q pm25 then ["AIR_QUALITY"] else [])
          ++ (if Py.Qltb score 0.6%Q then ["FLIGHT_SAFETY"] else [])
          ++ (if Py.Qltb visibility 5%Q then ["VISIBILITY"] else [])
      ∧ map Aviation.level alerts
        = (if Py.Qltb 150.4%Q pm25 then ["HIGH"]
           else if Py.Qltb 35.4%Q pm25 then ["MODERATE"] else [])
          ++ (if Py.Qltb score 0.3%Q then ["HIGH"]
              else if Py.Qltb score 0.6%Q then ["MODERATE"] else [])
          ++ (if Py.Qltb visibility 5%Q then ["HIGH"] else [])
      ∧ ((pm25 == 200)%Q →
         head alerts = Some {| Aviation.type := "AIR_QUALITY";
                               Aviation.level := "HIGH";
                               Aviation.value := pm25;
                               Aviation.color := "red" |}).
Proof.
  intros Hpm Hscore Hvis pred aqi_pm25 aqi_pm10.
  split; [|split].
  - split_and!; try reflexivity; by vm_compute.
  - intros entry. split; [apply overall_aqi_is_max|].
    unfold Forecasting.generate_forecast_alerts. cbn [mbind list_bind].
    cbv zeta. cbn [fst snd].
    destruct (Py.Qltb 150 (Forecasting.overall_aqi entry));
      [reflexivity|].
    by destruct (Py.Qltb 100 (Forecasting.overall_aqi entry)).
  - unfold Aviation.generate_alerts, Aviation.prediction.
    rewrite Hpm, Hscore, Hvis. cbn. eexists. split; [reflexivity|].
    split; [|split].
    + rewrite !map_app, air_quality_alert_types, flight_safety_alert_types,
        visibility_alert_types. reflexivity.
    + rewrite !map_app, air_quality_alert_levels, flight_safety_alert_levels,
        visibility_alert_levels. reflexivity.
    + intros H200. unfold Aviation.air_quality_alerts.
      change (Aviation.threshold "pm25" "unhealthy") with 150.4%Q.
      assert (E : Py.Qltb 150.4%Q pm25 = true) by (apply Qltb_lt; lra).
      by rewrite E.
Qed.

(** C9, witness: PM2.5 = 200, a flight-safety score of 0.2 and a
    visibility of 3 km trigger all three alerts, each of them HIGH. *)
Lemma alerts_dominated_by_pm25_and_ordered_witness :
  ∃ alerts,
    Aviation.generate_alerts
      {[ "PM2.5" := 200%Q; "Flight_Safety_Score" := 0.2%Q;
         "Visibility_Est" := 3%Q ]} = Py.Ok alerts
    ∧ map Aviation.type alerts
      = ["AIR_QUALITY"; "FLIGHT_SAFETY"; "VISIBILITY"]
    ∧ map Aviation.level alerts = ["HIGH"; "HIGH"; "HIGH"].
Proof.
  destruct (alerts_dominated_by_pm25_and_ordered
              {[ "PM2.5" := 200%Q; "Flight_Safety_Score" := 0.2%Q;
                 "Visibility_Est" := 3%Q ]} 200%Q 0.2%Q 3%Q "1h" 0%Z)
    as (_ & _ & alerts & Hok & Htypes & Hlevels & _);
    [vm_compute; reflexivity ..|].
  exists alerts. split; [exact Hok | split; [exact Htypes | exact Hlevels]].
Defined.

(** ** Columns without NaN *)

Lemma dropna_length_full (s : Pandas.Series) :
  Forall is_Some s → length (Pandas.dropna s) = length s.
Proof.
  unfold Pandas.dropna. induction 1 as [|x s [v ->] _ IH]; [done|].
  cbn. f_equal. exact IH.
Qed.

Lemma dropna_replicate_None (n : nat) : Pandas.dropna (replicate n None) = [].
Proof. unfold Pandas.dropna. induction n; simpl; auto. Qed.

Lemma dropna_app (s1 s2 : Pandas.Series) :
  Pandas.dropna (s1 ++ s2) = Pandas.dropna s1 ++ Pandas.dropna s2.
Proof. apply omap_app. Qed.

(** A lead by [h] followed by [dropna]: on a column without NaN these are
    the values from position [h] on. *)
Lemma shift_back_dropna (h : nat) (s : Pandas.Series) :
  Pandas.dropna (Pandas.shift (- Z.of_nat h) s) = Pandas.dropna (drop h s).
Proof.
  unfold Pandas.shift. destruct (0 <=? - Z.of_nat h)%Z eqn:E.
  - apply Z.leb_le in E. assert (h = 0) as -> by lia.
    simpl. by rewrite take_ge by lia.
  - replace (Z.to_nat (- - Z.of_nat h)) with h by lia.
    by rewrite dropna_app, dropna_replicate_None, app_nil_r.
Qed.

Lemma shift_back_dropna_length (h : nat) (s : Pandas.Series) :
  Forall is_Some s →
  length (Pandas.dropna (Pandas.shift (- Z.of_nat h) s)) = length s - h.
Proof.
  intros Hs. rewrite shift_back_dropna, dropna_length_full.
  - by rewrite length_drop.
  - by apply Forall_drop.
Qed.

Lemma dropna_lookup_full (s : Pandas.Series) (i : nat) :
  Forall is_Some s → Pandas.dropna s !! i = mjoin (s !! i).
Proof.
  unfold Pandas.dropna. intros Hs. revert i.
  induction Hs as [|x s [v ->] _ IH]; intros [|i]; simpl; auto.
Qed.

(** ... and the value paired with position [i] is the one at position
    [i + h] of the column. *)
Lemma shift_back_dropna_lookup (h i : nat) (s : Pandas.Series) :
  Forall is_Some s →
  Pandas.dropna (Pandas.shift (- Z.of_nat h) s) !! i = mjoin (s !! (h + i)).
Proof.
  intros Hs. rewrite shift_back_dropna.
  rewrite dropna_lookup_full by (by apply Forall_drop).
  by rewrite lookup_drop.
Qed.

(** ** The training frame and the horizon loop *)

Section Training.
Context {est : Estimator} {trig : Trig} {cal : Calendar} (schema : list string).

Lemma complete_lag_column (r : Forecasting.Row)
  (col : string * (Forecasting.Reading → option Q)) :
  Forecasting.complete r = true → col ∈ Forecasting.lag_columns →
  is_Some (col.2 (Forecasting.reading r)).
Proof.
  unfold Forecasting.complete. rewrite forallb_forall. intros Hall Hcol.
  apply (bool_decide_eq_true_1 _), Hall, in_or_app. left.
  apply in_map_iff. exists col. split; [done|]. by apply list_elem_of_In.
Qed.

Lemma complete_PM25 (r : Forecasting.Row) :
  Forecasting.complete r = true → is_Some (Forecasting.PM25 (Forecasting.reading r)).
Proof.
  intros Hr. apply (complete_lag_column r ("PM2.5 (µg/m³)", Forecasting.PM25) Hr).
  unfold Forecasting.lag_columns. set_solver.
Qed.

Lemma complete_PM10 (r : Forecasting.Row) :
  Forecasting.complete r = true → is_Some (Forecasting.PM10 (Forecasting.reading r)).
Proof.
  intros Hr. apply (complete_lag_column r ("PM10 (µg/m³)", Forecasting.PM10) Hr).
  unfold Forecasting.lag_columns. set_solver.
Qed.

Lemma dropna_clean (df : list Forecasting.Row) : clean (Forecasting.dropna df).
Proof.
  apply List.Forall_forall. intros r Hr.
  by apply filter_In in Hr as [_ Hr].
Qed.

Lemma prepare_clean (read_csv : string → option (list Forecasting.Reading))
  (df : list Forecasting.Row) :
  Forecasting.prepare_forecast_data read_csv = Py.Ok df → clean df.
Proof.
  unfold Forecasting.prepare_forecast_data.
  destruct (Forecasting.load_files read_csv); [discriminate|].
  destruct (concat _); [discriminate|].
  intros [= <-]. apply dropna_clean.
Qed.

Lemma clean_column_PM25 (df : list Forecasting.Row) :
  clean df →
  Forall is_Some (map (λ r, Forecasting.PM25 (Forecasting.reading r)) df).
Proof.
  intros Hdf. apply Forall_fmap. eapply Forall_impl; [exact Hdf|].
  intros r. apply complete_PM25.
Qed.

Lemma clean_column_PM10 (df : list Forecasting.Row) :
  clean df →
  Forall is_Some (map (λ r, Forecasting.PM10 (Forecasting.reading r)) df).
Proof.
  intros Hdf. apply Forall_fmap. eapply Forall_impl; [exact Hdf|].
  intros r. apply complete_PM10.
Qed.

(** On a clean frame the label vector of horizon [h] has [len(df) - h]
    entries (none when the frame has at most [h] rows) ... *)
Lemma future_target_PM25_length (df : list Forecasting.Row) (h : nat) :
  clean df → length (Forecasting.future_target Forecasting.PM25 df h) = length df - h.
Proof.
  intros Hdf. unfold Forecasting.future_target.
  rewrite shift_back_dropna_length by by apply clean_column_PM25.
  by rewrite length_map.
Qed.

Lemma future_target_PM10_length (df : list Forecasting.Row) (h : nat) :
  clean df → length (Forecasting.future_target Forecasting.PM10 df h) = length df - h.
Proof.
  intros Hdf. unfold Forecasting.future_target.
  rewrite shift_back_dropna_length by by apply clean_column_PM10.
  by rewrite length_map.
Qed.

(** ... and its entry [i] is the PM2.5 value of the row [h] positions
    further down the whole frame, whichever city that row belongs to. *)
Lemma future_target_PM25_lookup (df : list Forecasting.Row) (h i : nat) :
  clean df →
  Forecasting.future_target Forecasting.PM25 df h !! i
  = df !! (h + i) ≫= λ r, Forecasting.PM25 (Forecasting.reading r).
Proof.
  intros Hdf. unfold Forecasting.future_target.
  rewrite shift_back_dropna_lookup by by apply clean_column_PM25.
  rewrite list_lookup_fmap. by destruct (df !! (h + i)).
Qed.

Lemma X_of_length (df : list Forecasting.Row) :
  length (Forecasting.X_of schema df) = length df.
Proof. unfold Forecasting.X_of. apply length_map. Qed.

Lemma X_aligned_length (df : list Forecasting.Row) (h : nat) :
  clean df → length (Forecasting.X_aligned schema df h) = length df - h.
Proof.
  intros Hdf. unfold Forecasting.X_aligned.
  rewrite length_take, X_of_length, future_target_PM25_length by done. lia.
Qed.

(** Both [fit] calls of a horizon receive as many labels as rows. *)
Lemma fit_pm25_ok (df : list Forecasting.Row) (h : nat) :
  clean df →
  Forecasting.fit (Forecasting.X_aligned schema df h)
    (Forecasting.future_target Forecasting.PM25 df h)
  = Py.Ok (fitted schema Forecasting.PM25 df h).
Proof.
  intros Hdf. unfold Forecasting.fit.
  rewrite bool_decide_eq_true_2; [done|].
  rewrite X_aligned_length, future_target_PM25_length by done. lia.
Qed.

Lemma fit_pm10_ok (df : list Forecasting.Row) (h : nat) :
  clean df →
  Forecasting.fit (Forecasting.X_aligned schema df h)
    (Forecasting.future_target Forecasting.PM10 df h)
  = Py.Ok (fitted schema Forecasting.PM10 df h).
Proof.
  intros Hdf. unfold Forecasting.fit.
  rewrite bool_decide_eq_true_2; [done|].
  rewrite X_aligned_length, future_target_PM10_length by done. lia.
Qed.

End Training.

Lemma append_h_inj (s s' : string) : s +:+ "h" = s' +:+ "h" → s = s'.
Proof.
  revert s'. induction s as [|c s IH]; intros [|c' s']; simpl; intros Heq.
  - done.
  - injection Heq as _ Heq. by destruct s'.
  - injection Heq as _ Heq. by destruct s.
  - injection Heq as -> Heq. f_equal. by apply IH.
Qed.

Lemma model_key_inj (target : string) (h h' : nat) :
  Forecasting.model_key target h = Forecasting.model_key target h' → h = h'.
Proof.
  unfold Forecasting.model_key. intros Heq.
  apply (String.app_inj target) in Heq. injection Heq as Heq.
  by apply append_h_inj, (inj pretty) in Heq.
Qed.

Lemma model_key_pm25_pm10 (h h' : nat) :
  Forecasting.model_key "pm25" h ≠ Forecasting.model_key "pm10" h'.
Proof. unfold Forecasting.model_key. cbn. discriminate. Qed.

Section TrainingLoop.
Context {est : Estimator} {trig : Trig} {cal : Calendar} (schema : list string).

(** One iteration never raises on a clean frame: it leaves the models
    alone below 100 rows and stores two models otherwise. *)
Lemma train_horizon_clean (df : list Forecasting.Row)
  (models : gmap string Model) (h : nat) :
  clean df →
  Forecasting.train_horizon schema df models h
  = Py.Ok (if bool_decide (length (Forecasting.X_aligned schema df h) < 100)
           then models else with_fitted schema df models h).
Proof.
  intros Hdf. unfold Forecasting.train_horizon.
  case_bool_decide; [done|].
  by rewrite (fit_pm25_ok schema), (fit_pm10_ok schema).
Qed.

(** The loop over any list of horizons: it returns normally; a key that
    belongs to no horizon with at least 100 rows keeps its entry; the two
    keys of a horizon with at least 100 rows hold the fitted models. *)
Lemma train_loop_clean (df : list Forecasting.Row) (hs : list nat)
  (models : gmap string Model) :
  clean df →
  ∃ models',
    Forecasting.train_loop schema df models hs = Py.Ok models'
    ∧ (∀ k,
         (∀ h, h ∈ hs → 100 ≤ length (Forecasting.X_aligned schema df h) →
               k ≠ Forecasting.model_key "pm25" h
               ∧ k ≠ Forecasting.model_key "pm10" h) →
         models' !! k = models !! k)
    ∧ (∀ h, h ∈ hs → 100 ≤ length (Forecasting.X_aligned schema df h) →
            models' !! Forecasting.model_key "pm25" h
              = Some (fitted schema Forecasting.PM25 df h)
            ∧ models' !! Forecasting.model_key "pm10" h
              = Some (fitted schema Forecasting.PM10 df h)).
Proof.
  intros Hdf. revert models.
  induction hs as [|h0 hs IH]; intros models; simpl.
  - exists models. split; [done|]. split; [done|].
    intros h Hh. by apply elem_of_nil in Hh.
  - rewrite train_horizon_clean by done. cbn.
    set (m1 := if bool_decide _ then models else _).
    destruct (IH m1) as (models' & Hloop & Hkeep & Hfit).
    exists models'. split; [exact Hloop|]. split.
    + intros k Hk. rewrite Hkeep.
      * subst m1. case_bool_decide; [done|].
        destruct (Hk h0) as [Hk25 Hk10]; [apply list_elem_of_here | lia |].
        unfold with_fitted. by rewrite !lookup_insert_ne.
      * intros h Hh. apply Hk. by apply list_elem_of_further.
    + intros h Hh Hrows.
      destruct (decide (h ∈ hs)) as [Hin | Hnotin]; [by apply Hfit|].
      apply elem_of_cons in Hh as [-> | Hh]; [|contradiction].
      assert (Hm1 : m1 = with_fitted schema df models h0).
      { subst m1. rewrite bool_decide_eq_false_2; [done | lia]. }
      unfold with_fitted in Hm1.
      split.
      * rewrite Hkeep.
        -- rewrite Hm1, lookup_insert_ne, lookup_insert_eq; [done|].
           apply not_eq_sym, model_key_pm25_pm10.
        -- intros h Hh' _. split.
           ++ intros Heq. apply model_key_inj in Heq. by subst.
           ++ apply model_key_pm25_pm10.
      * rewrite Hkeep.
        -- by rewrite Hm1, lookup_insert_eq.
        -- intros h Hh' _. split.
           ++ apply not_eq_sym, model_key_pm25_pm10.
           ++ intros Heq. apply model_key_inj in Heq. by subst.
Qed.

End TrainingLoop.

Section InsufficientData.
Context {est : Estimator} {trig : Trig} {cal : Calendar} (schema : list string).

(** C8: when the data can be prepared, [train_forecast_models] returns
    normally; for every horizon whose aligned set has fewer than 100 rows
    the two model entries are left as they were (absent, on a fresh
    forecaster), and for every other horizon the two fitted models are
    stored, whatever the row counts of the horizons around it. *)
Theorem insufficient_horizon_is_skipped (self : Forecasting.Forecaster)
  (read_csv : string → option (list Forecasting.Reading))
  (df : list Forecasting.Row) :
  Forecasting.prepare_forecast_data read_csv = Py.Ok df →
  ∃ trained,
    Forecasting.train_forecast_models schema self read_csv = Py.Ok trained
    ∧ ∀ h, h ∈ Forecasting.horizons →
        (length (Forecasting.X_aligned schema df h) < 100 →
         Forecasting.models trained !! Forecasting.model_key "pm25" h
           = Forecasting.models self !! Forecasting.model_key "pm25" h
         ∧ Forecasting.models trained !! Forecasting.model_key "pm10" h
           = Forecasting.models self !! Forecasting.model_key "pm10" h
         ∧ (Forecasting.models self = ∅ →
            Forecasting.models trained !! Forecasting.model_key "pm25" h = None
            ∧ Forecasting.models trained !! Forecasting.model_key "pm10" h = None))
        ∧ (100 ≤ length (Forecasting.X_aligned schema df h) →
           Forecasting.models trained !! Forecasting.model_key "pm25" h
             = Some (fitted schema Forecasting.PM25 df h)
           ∧ Forecasting.models trained !! Forecasting.model_key "pm10" h
             = Some (fitted schema Forecasting.PM10 df h)).
Proof.
  intros Hprep. pose proof (prepare_clean _ _ Hprep) as Hdf.
  destruct (train_loop_clean schema df Forecasting.horizons
              (Forecasting.models self) Hdf) as (m & Hloop & Hkeep & Hfit).
  exists {| Forecasting.models := m;
            Forecasting.scalers := Forecasting.scalers self;
            Forecasting.feature_columns := Forecasting.X_columns schema df |}.
  split.
  { unfold Forecasting.train_forecast_models. rewrite Hprep.
    unfold mbind, result_bind, Py.bind. by rewrite Hloop. }
  cbn [Forecasting.models].
  intros h Hh. split; [|by apply Hfit].
  intros Hfew.
  assert (H25 : m !! Forecasting.model_key "pm25" h
               = Forecasting.models self !! Forecasting.model_key "pm25" h).
  { apply Hkeep. intros h' Hh' Hrows. split.
    - intros Heq. apply model_key_inj in Heq. subst. lia.
    - apply model_key_pm25_pm10. }
  assert (H10 : m !! Forecasting.model_key "pm10" h
               = Forecasting.models self !! Forecasting.model_key "pm10" h).
  { apply Hkeep. intros h' Hh' Hrows. split.
    - apply not_eq_sym, model_key_pm25_pm10.
    - intros Heq. apply model_key_inj in Heq. subst. lia. }
  split; [exact H25|]. split; [exact H10|].
  intros Hempty. rewrite H25, H10, Hempty. by rewrite !lookup_empty.
Qed.

End InsufficientData.

(** C8, witness: one city with 144 hourly readings leaves 120 rows after
    the lag warm-up, hence 119, 114, 108, 96 and 72 aligned rows for the
    five horizons: the 24-hour horizon is skipped, the 12-hour models
    before it are stored, and training returns. *)
Lemma insufficient_horizon_is_skipped_witness :
  ∃ trained,
    Forecasting.train_forecast_models (est := Fixtures.mean_estimator)
      (trig := Fixtures.flat_trig) (cal := Fixtures.hourly_calendar)
      Fixtures.schema Forecasting.init Fixtures.single_city = Py.Ok trained
    ∧ Forecasting.models trained !! Forecasting.model_key "pm25" 24 = None
    ∧ Forecasting.models trained !! Forecasting.model_key "pm10" 24 = None
    ∧ is_Some (Forecasting.models trained !! Forecasting.model_key "pm25" 12).
Proof.
  assert (Hprep :
    Forecasting.prepare_forecast_data (trig := Fixtures.flat_trig)
      (cal := Fixtures.hourly_calendar) Fixtures.single_city
    = Py.Ok (Forecasting.build_frame (trig := Fixtures.flat_trig)
               (cal := Fixtures.hourly_calendar)
               (Forecasting.load_files Fixtures.single_city))).
  { vm_compute. reflexivity. }
  destruct (insufficient_horizon_is_skipped (est := Fixtures.mean_estimator)
              Fixtures.schema Forecasting.init Fixtures.single_city _ Hprep)
    as (trained & Htrain & Hh).
  exists trained. split; [exact Htrain|].
  destruct (Hh 24) as [Hskip _].
  { do 3 apply list_elem_of_further. apply list_elem_of_here. }
  destruct Hskip as (_ & _ & Hnone).
  { vm_compute. lia. }
  destruct (Hnone eq_refl) as [H25 H10].
  destruct (Hh 12) as [_ Hfit].
  { do 2 apply list_elem_of_further. apply list_elem_of_here. }
  destruct Hfit as [Hfit _].
  { vm_compute. lia. }
  split; [exact H25|]. split; [exact H10|].
  rewrite Hfit. by eexists.
Defined.

(** ** Horizon labels on a frame of several cities *)

(** The feature rows of a horizon are those of the first rows of the
    frame, in order. *)
Lemma X_aligned_rows (schema : list string) (df : list Forecasting.Row) (h : nat) :
  Forecasting.X_aligned schema df h
  = map (λ r, snd <$> Forecasting.X_row schema (Forecasting.dummy_cities df) r)
      (Forecasting.rows_aligned df h).
Proof.
  unfold Forecasting.X_aligned, Forecasting.rows_aligned, Forecasting.X_of.
  by rewrite <- fmap_take.
Qed.

(** C1, the code at a failing input.  Musandam and Muscat have 124 hourly
    readings each (hours 0..123), which leaves 100 rows per city.  For
    the 1-hour horizon 199 rows are retained.  The row at position 99 is
    Musandam's last one (hour 123, no Musandam reading follows it), yet it
    is retained, and the label paired with it is 1024, the PM2.5 value of
    Muscat at hour 24, the next row of the frame. *)
Theorem label_taken_from_next_city :
  Forecasting.prepare_forecast_data (trig := Fixtures.flat_trig)
    (cal := Fixtures.hourly_calendar) Fixtures.two_cities
  = Py.Ok Fixtures.two_cities_frame
  ∧ length (Forecasting.X_aligned Fixtures.schema Fixtures.two_cities_frame 1) = 199
  ∧ (λ r, (Forecasting.City r, Forecasting.DateTime (Forecasting.reading r)))
      <$> Forecasting.rows_aligned Fixtures.two_cities_frame 1 !! 99
    = Some ("Musandam", 123%Z)
  ∧ forallb (λ r, negb (String.eqb (Forecasting.City r) "Musandam")
                  || (Forecasting.DateTime (Forecasting.reading r) <=? 123)%Z)
      Fixtures.two_cities_frame = true
  ∧ Forecasting.future_target Forecasting.PM25 Fixtures.two_cities_frame 1 !! 99
    = Some 1024%Q
  ∧ (λ r, (Forecasting.City r, Forecasting.DateTime (Forecasting.reading r),
           Forecasting.PM25 (Forecasting.reading r)))
      <$> Fixtures.two_cities_frame !! 100
    = Some ("Muscat", 24%Z, Some 1024%Q).
Proof. split_and!; vm_compute; reflexivity. Qed.

(** C3, the code at a failing input.  On the same frame each city has
    100 rows after the warm-up; the rows retained for the horizons
    1, 6, 12, 24, 48 number 199, 194, 188, 176, 152, that is [200 - h],
    whereas the sum over the cities of [100 - h] is 198, 188, 176, 152,
    104. *)
Theorem retained_rows_not_per_city :
  Forecasting.prepare_forecast_data (trig := Fixtures.flat_trig)
    (cal := Fixtures.hourly_calendar) Fixtures.two_cities
  = Py.Ok Fixtures.two_cities_frame
  ∧ map (λ c, length (List.filter (λ r, String.eqb (Forecasting.City r) c)
                        Fixtures.two_cities_frame))
      ["Musandam"; "Muscat"; "Salalah"] = [100; 100; 0]
  ∧ length Fixtures.two_cities_frame = 200
  ∧ map (λ h, length (Forecasting.X_aligned Fixtures.schema
                        Fixtures.two_cities_frame h)) Forecasting.horizons
    = [199; 194; 188; 176; 152]
  ∧ map (λ h, (100 - h) + (100 - h)) Forecasting.horizons
    = [198; 188; 176; 152; 104].
Proof. split_and!; vm_compute; reflexivity. Qed.

(** ** The stable sort behind [sort_values] *)

Section StableSort.
Context {A : Type} (le : A → A → bool).
Hypothesis le_total : ∀ x y, le x y = true ∨ le y x = true.
Hypothesis le_trans : ∀ x y z, le x y = true → le y z = true → le x z = true.

Lemma insert_by_Permutation (x : A) (l : list A) :
  Pandas.insert_by le x l ≡ₚ x :: l.
Proof.
  induction l as [|y l IH]; simpl; [done|].
  destruct (le x y); [done|]. by rewrite IH, Permutation_swap.
Qed.

Lemma sort_values_Permutation (l : list A) : Pandas.sort_values le l ≡ₚ l.
Proof.
  unfold Pandas.sort_values. induction l as [|x l IH]; simpl; [done|].
  by rewrite insert_by_Permutation, IH.
Qed.

Lemma insert_by_sorted (x : A) (l : list A) :
  sorted_by le l → sorted_by le (Pandas.insert_by le x l).
Proof.
  unfold sorted_by. induction 1 as [|y l Hl IH Hy]; simpl.
  - repeat constructor.
  - destruct (le x y) eqn:E.
    + constructor; [by constructor|]. constructor; [done|].
      eapply Forall_impl; [exact Hy|]. intros z Hz. by eapply le_trans.
    + constructor; [done|]. rewrite insert_by_Permutation.
      constructor; [|done]. by destruct (le_total x y) as [Hxy|Hyx]; [congruence|].
Qed.

Lemma sort_values_sorted (l : list A) : sorted_by le (Pandas.sort_values le l).
Proof.
  unfold Pandas.sort_values. induction l as [|x l IH]; simpl.
  - constructor.
  - by apply insert_by_sorted.
Qed.

(** Selecting rows commutes with sorting: the rows that satisfy [p]
    come out in the order in which sorting them alone would put them. *)
Lemma filter_insert_by (p : A → bool) (x : A) (l : list A) :
  sorted_by le l →
  List.filter p (Pandas.insert_by le x l)
  = if p x then Pandas.insert_by le x (List.filter p l) else List.filter p l.
Proof.
  unfold sorted_by. induction 1 as [|y l Hl IH Hy]; simpl.
  - by destruct (p x).
  - destruct (le x y) eqn:E; simpl.
    + destruct (p x) eqn:Ex; [|done].
      destruct (p y) eqn:Ey; simpl; [by rewrite E|].
      clear IH. induction Hy as [|z l Hz Hy IH']; simpl; [done|].
      destruct (p z) eqn:Ez; simpl.
      * by rewrite (le_trans x y z).
      * apply IH'. by inversion Hl.
    + rewrite IH. destruct (p y) eqn:Ey; destruct (p x) eqn:Ex; simpl;
        by rewrite ?E.
Qed.

Lemma filter_sort_values (p : A → bool) (l : list A) :
  List.filter p (Pandas.sort_values le l)
  = Pandas.sort_values le (List.filter p l).
Proof.
  unfold Pandas.sort_values. induction l as [|x l IH]; simpl; [done|].
  rewrite filter_insert_by by apply sort_values_sorted.
  destruct (p x); simpl; by rewrite IH.
Qed.

(** Sorting a sorted frame changes nothing. *)
Lemma sort_values_sorted_id (l : list A) :
  sorted_by le l → Pandas.sort_values le l = l.
Proof.
  unfold sorted_by, Pandas.sort_values.
  induction 1 as [|y l Hl IH Hy]; simpl; [done|].
  rewrite IH. destruct Hy as [|z l Hz _]; simpl; [done|]. by rewrite Hz.
Qed.

Lemma sort_values_idem (l : list A) :
  Pandas.sort_values le (Pandas.sort_values le l) = Pandas.sort_values le l.
Proof. apply sort_values_sorted_id, sort_values_sorted. Qed.

End StableSort.

(** Two orders that agree on the rows of a frame sort it alike. *)
Lemma insert_by_ext {A} (le1 le2 : A → A → bool) (x : A) (l : list A) :
  Forall (λ y, le1 x y = le2 x y) l →
  Pandas.insert_by le1 x l = Pandas.insert_by le2 x l.
Proof.
  induction 1 as [|y l Hy _ IH]; simpl; [done|]. by rewrite Hy, IH.
Qed.

Lemma sort_values_ext {A} (le1 le2 : A → A → bool) (l : list A) :
  (∀ x y, x ∈ l → y ∈ l → le1 x y = le2 x y) →
  Pandas.sort_values le1 l = Pandas.sort_values le2 l.
Proof.
  unfold Pandas.sort_values. induction l as [|x l IH]; intros Hext; simpl; [done|].
  rewrite IH by (intros; apply Hext; by apply list_elem_of_further).
  apply insert_by_ext, Forall_forall. intros y Hy. apply Hext.
  - apply list_elem_of_here.
  - apply list_elem_of_further.
    by rewrite <- (sort_values_Permutation le2 l).
Qed.

(** ** The orders of the two [sort_values] calls *)

Lemma ltb_compare (a b : string) : String.ltb a b = true ↔ String.compare a b = Lt.
Proof. unfold String.ltb. by destruct (String.compare a b). Qed.

Lemma ltb_trans (a b c : string) :
  String.ltb a b = true → String.ltb b c = true → String.ltb a c = true.
Proof.
  rewrite !ltb_compare.
  change String.compare with String_as_OT.cmp.
  rewrite !String_as_OT.cmp_lt. apply String_as_OT.lt_trans.
Qed.

Lemma ltb_trichotomy (a b : string) :
  String.ltb a b = true ∨ a = b ∨ String.ltb b a = true.
Proof.
  rewrite !ltb_compare. destruct (String.compare a b) eqn:E.
  - right. left. by apply String.compare_eq_iff.
  - by left.
  - right. right. rewrite String.compare_antisym, E. done.
Qed.

Lemma by_DateTime_total (a b : string * Forecasting.Reading) :
  Forecasting.by_DateTime a b = true ∨ Forecasting.by_DateTime b a = true.
Proof. unfold Forecasting.by_DateTime. rewrite !Z.leb_le. lia. Qed.

Lemma by_DateTime_trans (a b c : string * Forecasting.Reading) :
  Forecasting.by_DateTime a b = true → Forecasting.by_DateTime b c = true →
  Forecasting.by_DateTime a c = true.
Proof. unfold Forecasting.by_DateTime. rewrite !Z.leb_le. lia. Qed.

Lemma by_City_DateTime_spec (a b : string * Forecasting.Reading) :
  Forecasting.by_City_DateTime a b = true
  ↔ String.ltb a.1 b.1 = true
    ∨ (a.1 = b.1 ∧ (Forecasting.DateTime a.2 ≤ Forecasting.DateTime b.2)%Z).
Proof.
  unfold Forecasting.by_City_DateTime.
  by rewrite orb_true_iff, andb_true_iff, String.eqb_eq, Z.leb_le.
Qed.

Lemma by_City_DateTime_total (a b : string * Forecasting.Reading) :
  Forecasting.by_City_DateTime a b = true
  ∨ Forecasting.by_City_DateTime b a = true.
Proof.
  rewrite !by_City_DateTime_spec.
  destruct (ltb_trichotomy a.1 b.1) as [Hlt | [Heq | Hgt]]; [tauto | | tauto].
  destruct (Z.le_ge_cases (Forecasting.DateTime a.2) (Forecasting.DateTime b.2));
    [left | right]; right; by split.
Qed.

Lemma by_City_DateTime_trans (a b c : string * Forecasting.Reading) :
  Forecasting.by_City_DateTime a b = true →
  Forecasting.by_City_DateTime b c = true →
  Forecasting.by_City_DateTime a c = true.
Proof.
  rewrite !by_City_DateTime_spec.
  intros [Hab | [Hab Htab]] [Hbc | [Hbc Htbc]].
  - left. by eapply ltb_trans.
  - left. by rewrite <- Hbc.
  - left. by rewrite Hab.
  - right. split; [congruence | lia].
Qed.

(** Within one city the two orders coincide. *)
Lemma by_City_DateTime_same_city (a b : string * Forecasting.Reading) :
  a.1 = b.1 →
  Forecasting.by_City_DateTime a b = Forecasting.by_DateTime a b.
Proof.
  intros Heq. unfold Forecasting.by_City_DateTime, Forecasting.by_DateTime.
  rewrite Heq, String.eqb_refl.
  destruct (String.ltb b.1 b.1) eqn:E; [|done].
  apply ltb_compare in E.
  assert (Hrefl : String.compare b.1 b.1 = Eq) by (by apply String_as_OT.cmp_eq).
  congruence.
Qed.

(** ** [unique] *)

Lemma elem_of_unique (x : string) (l : list string) :
  x ∈ Pandas.unique l ↔ x ∈ l.
Proof.
  induction l as [|y l IH]; simpl; [done|].
  rewrite !elem_of_cons, list_elem_of_filter, IH.
  destruct (decide (x = y)); tauto.
Qed.

Lemma NoDup_unique (l : list string) : NoDup (Pandas.unique l).
Proof.
  induction l as [|y l IH]; simpl; [constructor|].
  constructor.
  - rewrite list_elem_of_filter. intros [Hne _]. by apply Hne.
  - by apply NoDup_filter.
Qed.

(** ** Lag and rolling features stay within one city *)

Lemma filter_nil_forall {A} (p : A → bool) (l : list A) :
  (∀ x, In x l → p x = false) → List.filter p l = [].
Proof.
  induction l as [|x l IH]; intros Hall; simpl; [done|].
  rewrite (Hall x) by by left. apply IH. intros y Hy. apply Hall. by right.
Qed.

Lemma forallb_filter_id {A} (p : A → bool) (l : list A) :
  forallb p l = true → List.filter p l = l.
Proof.
  induction l as [|x l IH]; simpl; [done|].
  intros [Hx Hl]%andb_true_iff. by rewrite Hx, IH.
Qed.

Lemma filter_comm {A} (p q : A → bool) (l : list A) :
  List.filter p (List.filter q l) = List.filter q (List.filter p l).
Proof.
  induction l as [|x l IH]; simpl; [done|].
  destruct (p x) eqn:Ep, (q x) eqn:Eq; simpl; rewrite ?Ep, ?Eq, IH; done.
Qed.

Section PerCity.
Context {trig : Trig} {cal : Calendar}.

(** [create_time_series_features] sees its input only through the
    time-sorted frame. *)
Lemma create_time_series_features_sorted
  (df df' : list (string * Forecasting.Reading)) :
  Pandas.sort_values Forecasting.by_DateTime df
  = Pandas.sort_values Forecasting.by_DateTime df' →
  Forecasting.create_time_series_features df
  = Forecasting.create_time_series_features df'.
Proof.
  intros Heq. unfold Forecasting.create_time_series_features. by rewrite Heq.
Qed.

(** Every row it returns carries the city of one of the input rows. *)
Lemma create_time_series_features_City
  (df : list (string * Forecasting.Reading)) (r : Forecasting.Row) :
  r ∈ Forecasting.create_time_series_features df →
  ∃ x, x ∈ df ∧ Forecasting.City r = x.1.
Proof.
  unfold Forecasting.create_time_series_features. cbv zeta.
  intros Hr. apply list_elem_of_lookup in Hr as [i Hi].
  rewrite list_lookup_imap in Hi.
  destruct (Pandas.sort_values Forecasting.by_DateTime df !! i) as [x|] eqn:Ex;
    [|done].
  injection Hi as <-. exists x. split; [|done].
  rewrite <- (sort_values_Permutation Forecasting.by_DateTime df).
  by eapply list_elem_of_lookup_2.
Qed.

Lemma readings_of_elem (city : string) (df : list (string * Forecasting.Reading))
  (x : string * Forecasting.Reading) :
  x ∈ readings_of city df ↔ x ∈ df ∧ x.1 = city.
Proof.
  unfold readings_of. rewrite !list_elem_of_In, filter_In, String.eqb_eq. done.
Qed.

(** The features of a city's block, filtered by city. *)
Lemma rows_of_block (city c : string) (df : list (string * Forecasting.Reading)) :
  rows_of c (Forecasting.create_time_series_features (readings_of city df))
  = if String.eqb city c
    then Forecasting.create_time_series_features (readings_of city df)
    else [].
Proof.
  unfold rows_of.
  destruct (String.eqb city c) eqn:E.
  - apply String.eqb_eq in E as ->.
    apply forallb_filter_id, forallb_forall. intros r Hr.
    apply list_elem_of_In, create_time_series_features_City in Hr
      as (x & Hx & ->).
    apply readings_of_elem in Hx as [_ ->]. apply String.eqb_refl.
  - apply String.eqb_neq in E. apply filter_nil_forall. intros r Hr.
    apply list_elem_of_In, create_time_series_features_City in Hr
      as (x & Hx & ->).
    apply readings_of_elem in Hx as [_ ->]. by apply String.eqb_neq.
Qed.

(** Among blocks of distinct cities, filtering by city picks one. *)
Lemma rows_of_blocks (c : string) (cities : list string)
  (block : string → list Forecasting.Row) :
  NoDup cities →
  (∀ city, rows_of c (block city) = if String.eqb city c then block city else []) →
  rows_of c (concat (map block cities))
  = if bool_decide (c ∈ cities) then block c else [].
Proof.
  intros Hnd Hblock. unfold rows_of in *.
  induction Hnd as [|city cities Hnotin Hnd IH]; simpl; [done|].
  rewrite List.filter_app, IH, Hblock.
  destruct (String.eqb city c) eqn:E.
  - apply String.eqb_eq in E as ->.
    rewrite (bool_decide_eq_false_2 _ Hnotin), app_nil_r.
    rewrite bool_decide_eq_true_2; [done | apply list_elem_of_here].
  - apply String.eqb_neq in E. simpl.
    rewrite (bool_decide_ext (c ∈ city :: cities) (c ∈ cities)); [done|].
    rewrite elem_of_cons. split; [intros [->|]; [done|done] | by right].
Qed.

(** The time-sorted rows of a city are the same whether they are taken
    from the frame sorted by city and time or from the raw
    concatenation. *)
Lemma readings_of_sorted (c : string) (df : list (string * Forecasting.Reading)) :
  Pandas.sort_values Forecasting.by_DateTime
    (readings_of c (Pandas.sort_values Forecasting.by_City_DateTime df))
  = Pandas.sort_values Forecasting.by_DateTime (readings_of c df).
Proof.
  unfold readings_of.
  rewrite (filter_sort_values _ by_City_DateTime_total by_City_DateTime_trans).
  rewrite (sort_values_ext Forecasting.by_City_DateTime Forecasting.by_DateTime).
  - apply (sort_values_idem _ by_DateTime_total by_DateTime_trans).
  - intros x y Hx Hy. apply by_City_DateTime_same_city.
    apply readings_of_elem in Hx as [_ ->].
    by apply readings_of_elem in Hy as [_ ->].
Qed.

(** The rows of a city in the prepared frame are computed from the
    readings of that city alone: no lag or rolling window reads another
    city's series. *)
Theorem forecaster_features_per_city
  (df_list : list (list (string * Forecasting.Reading))) (c : string) :
  rows_of c (Forecasting.build_frame df_list)
  = Forecasting.dropna
      (Forecasting.create_time_series_features
         (readings_of c (concat df_list))).
Proof.
  unfold Forecasting.build_frame. cbv zeta.
  set (S := Pandas.sort_values Forecasting.by_City_DateTime (concat df_list)).
  unfold rows_of, Forecasting.dropna. rewrite filter_comm.
  fold (rows_of c (concat (map (λ city,
          Forecasting.create_time_series_features
            (List.filter (λ r, String.eqb r.1 city) S))
          (Pandas.unique (map fst S))))).
  rewrite (rows_of_blocks c _
             (λ city, Forecasting.create_time_series_features (readings_of city S))).
  - f_equal. case_bool_decide as Hc.
    + apply create_time_series_features_sorted, readings_of_sorted.
    + assert (Hnone : readings_of c S = []).
      { apply filter_nil_forall. intros x Hx. apply String.eqb_neq.
        intros Heq. apply Hc, elem_of_unique, list_elem_of_fmap.
        exists x. split; [done|]. by apply list_elem_of_In. }
      rewrite <- (create_time_series_features_sorted (readings_of c S)).
      * by rewrite Hnone.
      * apply readings_of_sorted.
  - apply NoDup_unique.
  - intros city. apply rows_of_block.
Qed.

(** Hence the rows of a city do not depend on the other cities of the
    input, nor on the order in which the cities come. *)
Corollary forecaster_features_ignore_other_cities
  (df_list df_list' : list (list (string * Forecasting.Reading))) (c : string) :
  readings_of c (concat df_list) = readings_of c (concat df_list') →
  rows_of c (Forecasting.build_frame df_list)
  = rows_of c (Forecasting.build_frame df_list').
Proof. intros Heq. by rewrite !forecaster_features_per_city, Heq. Qed.

End PerCity.

Lemma readings_of_tagged (c : string) (f : string * list Forecasting.Reading) :
  readings_of c (tagged f) = if String.eqb f.1 c then tagged f else [].
Proof.
  unfold readings_of, tagged. destruct (String.eqb f.1 c) eqn:E.
  - apply forallb_filter_id, forallb_forall. intros x Hx.
    by apply in_map_iff in Hx as (r & <- & _).
  - apply filter_nil_forall. intros x Hx.
    by apply in_map_iff in Hx as (r & <- & _).
Qed.

(** Files of distinct cities may come in any order: the readings of a
    city in the concatenation stay the same. *)
Lemma readings_of_permutation (c : string)
  (fs fs' : list (string * list Forecasting.Reading)) :
  NoDup (map fst fs) → fs ≡ₚ fs' →
  readings_of c (concat (map tagged fs)) = readings_of c (concat (map tagged fs')).
Proof.
  unfold readings_of at 1 2.
  intros Hnd Hperm.
  induction Hperm as [|f fs fs' Hperm IH|f g fs|fs fs' fs'' H1 IH1 H2 IH2].
  - done.
  - simpl. rewrite !List.filter_app. f_equal. apply IH. by inversion Hnd.
  - simpl. rewrite !List.filter_app, !app_assoc. f_equal.
    fold (readings_of c (tagged f)). fold (readings_of c (tagged g)).
    rewrite !readings_of_tagged.
    destruct (String.eqb g.1 c) eqn:Eg, (String.eqb f.1 c) eqn:Ef;
      rewrite ?app_nil_r; try done.
    apply String.eqb_eq in Eg, Ef. exfalso.
    simpl in Hnd. apply NoDup_cons in Hnd as [Hnotin _].
    apply Hnotin. rewrite Eg, <- Ef. apply list_elem_of_here.
  - rewrite IH1 by done. apply IH2. by rewrite <- H1.
Qed.

Section SiteOrder.
Context {trig : Trig} {cal : Calendar}.

(** Permuting the files of distinct cities changes no row of any city
    in the frame prepared by the forecaster. *)
Theorem forecaster_features_site_order (c : string)
  (fs fs' : list (string * list Forecasting.Reading)) :
  NoDup (map fst fs) → fs ≡ₚ fs' →
  rows_of c (Forecasting.build_frame (map tagged fs))
  = rows_of c (Forecasting.build_frame (map tagged fs')).
Proof.
  intros Hnd Hperm. apply forecaster_features_ignore_other_cities.
  by apply readings_of_permutation.
Qed.

End SiteOrder.

(** ** Windows and site boundaries *)

(** C7, the code at a failing input.  With the files in the order
    Muscat, Salalah, the 24-hour pressure window of Salalah's first
    reading holds 23 readings of Muscat, and its [Pressure_Stability] is
    |1024 - (23 * 1000 + 1024) / 24| = 23.  With the files in the order
    Salalah, Muscat, the same reading has no full window, its cell is NaN
    and the row is dropped: the engineered values of Salalah's rows
    depend on the order of the sites. *)
Theorem pressure_window_crosses_cities :
  Pandas.window 24 24
    (map Aviation.Pressure (Fixtures.muscat_file ++ Fixtures.salalah_file))
  = replicate 23 (Some 1000%Q) ++ [Some 1024%Q]
  ∧ Qred <$> Pandas.cell
      (Aviation.pressure_stability
         (Fixtures.muscat_file ++ Fixtures.salalah_file)) 24 = Some 23%Q
  ∧ Pandas.cell
      (Aviation.pressure_stability
         (Fixtures.salalah_file ++ Fixtures.muscat_file)) 0 = None
  ∧ head (Fixtures.stability_of "Salalah"
            (Aviation.load_and_prepare_data (cal := Fixtures.hourly_calendar)
         (fl := Fixtures.exact_halves)
               [Fixtures.muscat_file; Fixtures.salalah_file]))
    = Some (0%Z, Some 23%Q)
  ∧ Fixtures.stability_of "Salalah"
      (Aviation.load_and_prepare_data (cal := Fixtures.hourly_calendar)
         (fl := Fixtures.exact_halves)
         [Fixtures.salalah_file; Fixtures.muscat_file])
    = [(23%Z, Some 0%Q)].
Proof. split_and!; vm_compute; reflexivity. Qed.

(** ** Derived features at training and at inference *)

(** C2, the code at a failing input.  For the measurements temperature
    25, humidity 60, wind speed 10, pressure 1013, dust 50, AOD 0.2 (and
    PM2.5 20, PM10 40 at training), each of the five derived columns
    has one value in the training frame and another in the dict built by
    [create_features_for_location]. *)
Theorem inference_features_differ_from_training {trig : Trig}
  (now : Service.Now) :
  let served := Service.create_features_for_location now "Muscat"
                  23.5933 58.2844 "Muscat" 23 25 60 10 1013 50 0.2 in
  (Aviation.reading <$> Fixtures.training_row
   = Some {| Aviation.City := "Muscat"; Aviation.DateTime := 23;
             Aviation.PM25 := Some 20%Q; Aviation.PM10 := Some 40%Q;
             Aviation.Temperature := Some 25%Q; Aviation.Humidity := Some 60%Q;
             Aviation.WindSpeed := Some 10%Q;
             Aviation.WindDirection := Some 180%Q;
             Aviation.Pressure := Some 1013%Q; Aviation.Dust := Some 50%Q;
             Aviation.AOD := Some 0.2%Q |})
  ∧ (Fixtures.trained_with Aviation.Visibility_Est,
     Fixtures.served_with served "Visibility_Est")
    = (Some (1000 # 41), Some (40 # 17))
  ∧ (Fixtures.trained_with Aviation.Turbulence_Risk,
     Fixtures.served_with served "Turbulence_Risk")
    = (Some (17 # 50), Some (13 # 20))
  ∧ (Fixtures.trained_with Aviation.Air_Density,
     Fixtures.served_with served "Air_Density")
    = (Some (Qred (101300 / (287.05 * 298.15) * 0.988)),
       Some (Qred (101300 / (287.05 * 298.15))))
  ∧ (Fixtures.trained_with Aviation.Pressure_Stability,
     Fixtures.served_with served "Pressure_Stability")
    = (Some 0%Q, Some (1 # 200))
  ∧ (Fixtures.trained_with Aviation.Temp_Humidity_Index,
     Fixtures.served_with served "Temp_Humidity_Index")
    = (Some 15%Q, Some 40%Q).
Proof. intros served. split_and!; vm_compute; reflexivity. Qed.

(** ** One-row frames: selecting and filling columns *)

(** One step of [mapM] in the exception monad. *)
Lemma mapM_result_cons {A B} (f : A → Py.Result B) (x : A) (l : list A) :
  mapM f (x :: l)
  = match f x with
    | Py.Ok y => match mapM f l with
                 | Py.Ok k => Py.Ok (y :: k)
                 | Py.Raise e => Py.Raise e
                 end
    | Py.Raise e => Py.Raise e
    end.
Proof. reflexivity. Qed.

(** Selecting a list of labels raises [KeyError] as soon as one of them
    is not a column of the frame. *)
Lemma select_raises (frame : list (string * Q)) (cols : list string)
  (col : string) :
  col ∈ cols → Py.assoc col frame = None →
  ∃ k, Pandas.select frame cols = Py.Raise (Py.KeyError k)
       ∧ k ∈ cols ∧ Py.assoc k frame = None.
Proof.
  unfold Pandas.select.
  induction cols as [|c cols IH]; intros Hin Hmiss.
  - by apply elem_of_nil in Hin.
  - rewrite mapM_result_cons. unfold Py.getitem at 1.
    destruct (Py.assoc c frame) as [v|] eqn:Ec.
    + apply elem_of_cons in Hin as [-> | Hin]; [congruence|].
      destruct (IH Hin Hmiss) as (k & Hk & Hkin & Hkmiss).
      exists k. split.
      * cbn. by rewrite Hk.
      * split; [by apply list_elem_of_further | done].
    + exists c. split; [done|]. split; [apply list_elem_of_here | done].
Qed.

(** ... and succeeds when all of them are. *)
Lemma select_ok (frame : list (string * Q)) (cols : list string)
  (value : string → Q) :
  (∀ c, c ∈ cols → Py.assoc c frame = Some (value c)) →
  Pandas.select frame cols = Py.Ok (map (λ c, (c, value c)) cols).
Proof.
  unfold Pandas.select. induction cols as [|c cols IH]; intros Hall; [done|].
  rewrite mapM_result_cons. unfold Py.getitem at 1.
  rewrite (Hall c) by apply list_elem_of_here. cbn.
  rewrite IH; [done|]. intros c' Hc'. apply Hall. by apply list_elem_of_further.
Qed.

Lemma select_keys (frame : list (string * Q)) (cols : list string)
  (res : list (string * Q)) :
  Pandas.select frame cols = Py.Ok res → map fst res = cols.
Proof.
  unfold Pandas.select. revert res.
  induction cols as [|c cols IH]; intros res.
  - by intros [= <-].
  - rewrite mapM_result_cons. unfold Py.getitem at 1.
    destruct (Py.assoc c frame) as [v|]; [|done]. cbn.
    destruct (mapM _ cols) as [rest|] eqn:E; [|done].
    intros [= <-]. simpl. f_equal. by apply IH.
Qed.

Lemma assoc_app {V} (k : string) (d1 d2 : list (string * V)) :
  Py.assoc k (d1 ++ d2)
  = match Py.assoc k d1 with Some v => Some v | None => Py.assoc k d2 end.
Proof.
  induction d1 as [|[k' v] d1 IH]; simpl; [done|].
  by destruct (String.eqb k k').
Qed.

Lemma assoc_add_missing (frame : list (string * Q)) (col k : string) :
  Py.assoc k (Pandas.add_missing frame col)
  = match Py.assoc k frame with
    | Some v => Some v
    | None => if String.eqb k col then Some 0%Q else None
    end.
Proof.
  unfold Pandas.add_missing.
  destruct (Py.assoc col frame) as [v|] eqn:Ec.
  - destruct (Py.assoc k frame) eqn:Ek; [done|].
    destruct (String.eqb k col) eqn:E; [|done].
    apply String.eqb_eq in E as ->. congruence.
  - rewrite assoc_app. simpl. by destruct (Py.assoc k frame).
Qed.

Lemma assoc_foldl_add_missing (cols : list string) (frame : list (string * Q))
  (k : string) :
  Py.assoc k (foldl Pandas.add_missing frame cols)
  = match Py.assoc k frame with
    | Some v => Some v
    | None => if bool_decide (k ∈ cols) then Some 0%Q else None
    end.
Proof.
  revert frame. induction cols as [|c cols IH]; intros frame; simpl.
  - by destruct (Py.assoc k frame).
  - rewrite IH, assoc_add_missing.
    destruct (Py.assoc k frame) as [v|]; [done|].
    destruct (String.eqb k c) eqn:E.
    + apply String.eqb_eq in E as ->.
      rewrite bool_decide_eq_true_2; [done | apply list_elem_of_here].
    + apply String.eqb_neq in E.
      rewrite (bool_decide_ext (k ∈ c :: cols) (k ∈ cols)); [done|].
      rewrite elem_of_cons. split; [intros [->|]; done | by right].
Qed.

Lemma assoc_is_Some {V} (k : string) (d : list (string * V)) :
  is_Some (Py.assoc k d) ↔ k ∈ map fst d.
Proof.
  induction d as [|[k' v] d IH]; simpl.
  - split; [by intros [? ?] | by intros ?%elem_of_nil].
  - rewrite elem_of_cons, <- IH. destruct (String.eqb k k') eqn:E.
    + apply String.eqb_eq in E. split; [by left | by eexists].
    + apply String.eqb_neq in E. tauto.
Qed.

(** Filling is the identity on a frame that has all the columns. *)
Lemma foldl_add_missing_present (cols : list string) (frame : list (string * Q)) :
  (∀ c, c ∈ cols → is_Some (Py.assoc c frame)) →
  foldl Pandas.add_missing frame cols = frame.
Proof.
  induction cols as [|c cols IH]; intros Hall; simpl; [done|].
  unfold Pandas.add_missing at 2.
  destruct (Hall c) as [v ->]; [apply list_elem_of_here|].
  apply IH. intros c' Hc'. apply Hall. by apply list_elem_of_further.
Qed.

(** ** Missing columns at inference: the forecaster *)

Section MissingColumns.
Context {est : Estimator}.

(** [forecast_next_48_hours] raises [KeyError] whenever a training-time
    column that is not a site indicator is absent from the request: the
    zero-filling loop comes after the selection that raises. *)
Lemma forecast_raises_on_missing_column (self : Forecasting.Forecaster)
  (current_conditions : Forecasting.Conditions) (now : Z) (col : string) :
  col ∈ Forecasting.feature_columns self →
  Forecasting.is_city_column col = false →
  Py.assoc col (Forecasting.columns current_conditions) = None →
  ∃ k, Forecasting.forecast_next_48_hours self current_conditions now
       = Py.Raise (Py.KeyError k)
       ∧ k ∈ Forecasting.feature_columns self
       ∧ Py.assoc k (Forecasting.columns current_conditions) = None.
Proof.
  intros Hin Hcity Hmiss.
  destruct (select_raises (Forecasting.columns current_conditions)
              (Forecasting.base_features self) col)
    as (k & Hk & Hkin & Hkmiss).
  - apply list_elem_of_In, filter_In. split; [by apply list_elem_of_In|].
    by rewrite Hcity.
  - done.
  - exists k. split; [|split; [|done]].
    + unfold Forecasting.forecast_next_48_hours, Forecasting.current_vector.
      unfold mbind, result_bind, Py.bind in *. by rewrite Hk.
    + apply list_elem_of_In in Hkin. apply filter_In in Hkin as [Hkin _].
      by apply list_elem_of_In.
Qed.

Lemma request_dummies_keys (self : Forecasting.Forecaster)
  (current_conditions : Forecasting.Conditions) (col : string) :
  col ∈ Forecasting.feature_columns self →
  Forecasting.is_city_column col = true →
  is_Some (Py.assoc col (Forecasting.request_dummies self current_conditions)).
Proof.
  intros Hin Hcity. unfold Forecasting.request_dummies.
  assert (Hcol : col ∈ List.filter Forecasting.is_city_column
                         (Forecasting.feature_columns self)).
  { apply list_elem_of_In, filter_In. split; [by apply list_elem_of_In | done]. }
  destruct (Forecasting.city current_conditions) as [c|].
  - rewrite assoc_foldl_add_missing, (bool_decide_eq_true_2 _ Hcol).
    by destruct (Py.assoc col _).
  - apply assoc_is_Some. rewrite map_map. simpl. by rewrite map_id.
Qed.

(** When the selection of the base features succeeds, every
    training-time column is already present: the loop that is meant to
    fill the missing ones with 0 never adds a column. *)
Lemma forecast_fill_never_fires (self : Forecasting.Forecaster)
  (current_conditions : Forecasting.Conditions) (base : list (string * Q)) :
  Pandas.select (Forecasting.columns current_conditions)
    (Forecasting.base_features self) = Py.Ok base →
  foldl Pandas.add_missing
    (base ++ Forecasting.request_dummies self current_conditions)
    (Forecasting.feature_columns self)
  = base ++ Forecasting.request_dummies self current_conditions.
Proof.
  intros Hbase. apply foldl_add_missing_present. intros c Hc.
  rewrite assoc_app.
  destruct (Forecasting.is_city_column c) eqn:Ecity.
  - destruct (Py.assoc c base); [by eexists|].
    by apply request_dummies_keys.
  - assert (Hin : is_Some (Py.assoc c base)).
    { apply assoc_is_Some. rewrite (select_keys _ _ _ Hbase).
      apply list_elem_of_In, filter_In. split; [by apply list_elem_of_In|].
      by rewrite Ecity. }
    destruct Hin as [v ->]. by eexists.
Qed.

End MissingColumns.

(** C6, the code at a failing input.  A forecaster trained on one city
    expects 60 columns; a request that carries the seven raw measurements
    and the city, and none of the lag, rolling or seasonal columns, makes
    [forecast_next_48_hours] raise [KeyError] on the first lag column
    instead of filling it with zero. *)
Theorem forecast_raises_without_engineered_columns :
  Forecasting.train_forecast_models (est := Fixtures.mean_estimator)
    (trig := Fixtures.flat_trig) (cal := Fixtures.hourly_calendar)
    Fixtures.schema Forecasting.init Fixtures.single_city
  = Py.Ok Fixtures.trained_single
  ∧ length (Forecasting.feature_columns Fixtures.trained_single) = 60
  ∧ Forecasting.forecast_next_48_hours Fixtures.trained_single
      Fixtures.raw_conditions 0
    = Py.Raise (Py.KeyError "PM2.5 (µg/m³)_lag_1h").
Proof. split_and!; vm_compute; reflexivity. Qed.

(** ** Missing columns at inference: the prediction service *)

(** The frame handed to the models has exactly the training-time columns,
    in training-time order; a column the feature dict lacks holds 0. *)
Theorem feature_frame_zero_fill (features : list (string * Q))
  (feature_columns : list string) :
  Service.feature_frame features feature_columns
  = Py.Ok (map (λ c, (c, default 0%Q (Py.assoc c features))) feature_columns).
Proof.
  unfold Service.feature_frame. apply select_ok. intros c Hc.
  rewrite assoc_foldl_add_missing, bool_decide_eq_true_2 by done.
  by destruct (Py.assoc c features).
Qed.

(** *** Non-negative outputs *)

Lemma round_nonneg {fl : Float64} (x : Q) : (0 <= x)%Q → (0 ≤ Py.round x)%Z.
Proof.
  intros Hx. unfold Py.round.
  assert (Hf : (0 ≤ Qfloor x)%Z).
  { change 0%Z with (Qfloor 0). by apply Qfloor_resp_le. }
  destruct (_ ?= _)%Q; [destruct (round_tie_up _)|..]; lia.
Qed.

Lemma interpolate_ge_low (b : AQI.Bracket) (c : Q) :
  well_formed b → (AQI.bp_low b <= c)%Q →
  (AQI.aqi_low b <= AQI.interpolate b c)%Q.
Proof.
  intros (Hbp & _ & Haqi) Hc. unfold AQI.interpolate.
  assert (Hslope : (0 <= (AQI.aqi_high b - AQI.aqi_low b)
                        / (AQI.bp_high b - AQI.bp_low b))%Q).
  { apply Qmult_le_0_compat; [lra|]. apply Qinv_le_0_compat. lra. }
  assert (Hprod : (0 <= (AQI.aqi_high b - AQI.aqi_low b)
                         / (AQI.bp_high b - AQI.bp_low b)
                       * (c - AQI.bp_low b))%Q).
  { apply Qmult_le_0_compat; [done | lra]. }
  lra.
Qed.

Lemma breakpoints_well_formed (pollutant : string) :
  Forall well_formed (AQI.breakpoints pollutant).
Proof.
  destruct (breakpoints_cases pollutant) as [-> | ->];
    repeat constructor; cbn; lra.
Qed.

Lemma scan_nonneg (bps : list AQI.Bracket) (c aqi : Q) :
  Forall well_formed bps → AQI.scan bps c = Some aqi → (0 <= aqi)%Q.
Proof.
  induction 1 as [|b bps Hb _ IH]; simpl; [done|].
  destruct (AQI.in_bracket c b) eqn:E; [|exact IH].
  intros Heq. injection Heq as <-.
  apply in_bracket_iff in E as [Hlo _].
  pose proof (interpolate_ge_low b c Hb Hlo) as Hge.
  destruct Hb as (_ & Hlow & _). lra.
Qed.

Lemma service_aqi_nonneg {fl : Float64} (c : Q) (pollutant : string) :
  (0 ≤ Service.calculate_aqi c pollutant)%Z.
Proof.
  unfold Service.calculate_aqi.
  destruct (AQI.scan _ c) as [aqi|] eqn:E.
  - eapply round_nonneg, scan_nonneg, E. apply breakpoints_well_formed.
  - destruct (Py.Qltb _ c); lia.
Qed.

Lemma fallback_nonneg (target_name : string) :
  (0 <= default 0 (Service.fallback_values !! target_name))%Q.
Proof.
  assert (Hall : map_Forall (λ _ v, (0 <= v)%Q) Service.fallback_values).
  { unfold Service.fallback_values.
    repeat (apply map_Forall_insert_2; [lra|]). apply map_Forall_empty. }
  destruct (Service.fallback_values !! target_name) as [v|] eqn:E; simpl.
  - exact (Hall _ _ E).
  - lra.
Qed.

Section ServicePredictions.
Context {est : Estimator} {trig : Trig} {fl : Float64}.

Lemma predict_target_nonneg (x : list Q) (target_name : string) (model : Model) :
  (0 <= Service.predict_target x target_name model)%Q.
Proof.
  unfold Service.predict_target. destruct (rf_predict model x).
  - apply py_max_ge_l.
  - apply fallback_nonneg.
Qed.

Lemma div_ok (a b : Q) : ¬ (b == 0)%Q → Py.div a b = Py.Ok (a / b)%Q.
Proof.
  intros Hb. unfold Py.div. destruct (Qeq_bool b 0) eqn:E; [|done].
  by apply Qeq_bool_iff in E.
Qed.

(** X28.  On a request with an hour of the day and non-degenerate
    measurements, [predict_conditions] returns: the columns its feature
    dict lacks are filled with 0 in the frame given to the models, and
    every value of the response is non-negative. *)
Theorem predict_conditions_fills_and_clamps (self : Service.Predictor)
  (now : Service.Now) (site : string) (lat lon : Q) (region : string)
  (hour : Z) (temperature humidity wind_speed pressure dust aod : Q)
  (ms : gmap string Model) (cols : list string) :
  Service.models self = VModels ms →
  Service.feature_columns self = VColumns cols →
  (0 ≤ hour ≤ 23)%Z →
  ¬ (1 + dust / 200 + aod * 100 == 0)%Q →
  ¬ (287.05 * (temperature + 273.15) == 0)%Q →
  ∃ features predictions,
    Service.create_features_for_location now site lat lon region hour
      temperature humidity wind_speed pressure dust aod = Py.Ok features
    ∧ Service.feature_frame features cols
      = Py.Ok (map (λ c, (c, default 0%Q (Py.assoc c features))) cols)
    ∧ Service.predict_conditions self now site lat lon region hour
        temperature humidity wind_speed pressure dust aod = Py.Ok predictions
    ∧ ∀ k v, predictions !! k = Some v → (0 <= v)%Q.
Proof.
  intros Hms Hcols Hhour Hvis Hden.
  assert (Hfeat : ∃ features,
    Service.create_features_for_location now site lat lon region hour
      temperature humidity wind_speed pressure dust aod = Py.Ok features).
  { unfold Service.create_features_for_location.
    rewrite bool_decide_eq_true_2 by done. cbn [negb].
    rewrite (div_ok _ _ Hvis), (div_ok _ _ Hden). by eexists. }
  destruct Hfeat as [features Hfeat].
  exists features. eexists. split; [exact Hfeat|].
  split; [apply feature_frame_zero_fill|].
  unfold Service.predict_conditions. rewrite Hfeat, Hms, Hcols.
  cbn [mbind result_bind Py.bind]. rewrite feature_frame_zero_fill.
  split; [reflexivity|].
  intros k v. destruct (decide (k = "AQI")) as [-> | Hk].
  - rewrite lookup_insert_eq. intros [= <-].
    change 0%Q with (inject_Z 0). rewrite <- Zle_Qle.
    etransitivity; [|apply Z.le_max_l]. apply service_aqi_nonneg.
  - rewrite lookup_insert_ne by done. rewrite map_lookup_imap.
    destruct (ms !! k) as [model|]; [|done]. cbn. intros [= <-].
    apply predict_target_nonneg.
Qed.

End ServicePredictions.

(* ================================================================== *)
(** * Part III.  Further properties of the code                         *)
(* ================================================================== *)

(** ** The AQI functions on every concentration *)

Lemma interpolate_le_high (b : AQI.Bracket) (c : Q) :
  well_formed b → (c <= AQI.bp_high b)%Q →
  (AQI.interpolate b c <= AQI.aqi_high b)%Q.
Proof.
  intros (Hbp & _ & Haqi) Hc. unfold AQI.interpolate.
  set (slope := ((AQI.aqi_high b - AQI.aqi_low b)
                 / (AQI.bp_high b - AQI.bp_low b))%Q).
  assert (Hslope : (0 <= slope)%Q).
  { apply Qmult_le_0_compat; [lra|]. apply Qinv_le_0_compat. lra. }
  assert (Hfull : (slope * (AQI.bp_high b - AQI.bp_low b)
                   == AQI.aqi_high b - AQI.aqi_low b)%Q).
  { unfold slope. field. lra. }
  assert (Hprod : (0 <= slope * (AQI.bp_high b - c))%Q).
  { apply Qmult_le_0_compat; [done | lra]. }
  lra.
Qed.

Lemma interpolate_mono (b : AQI.Bracket) (c1 c2 : Q) :
  well_formed b → (c1 <= c2)%Q →
  (AQI.interpolate b c1 <= AQI.interpolate b c2)%Q.
Proof.
  intros (Hbp & _ & Haqi) Hc. unfold AQI.interpolate.
  set (slope := ((AQI.aqi_high b - AQI.aqi_low b)
                 / (AQI.bp_high b - AQI.bp_low b))%Q).
  assert (Hslope : (0 <= slope)%Q).
  { apply Qmult_le_0_compat; [lra|]. apply Qinv_le_0_compat. lra. }
  assert (Hprod : (0 <= slope * (c2 - c1))%Q).
  { apply Qmult_le_0_compat; [done | lra]. }
  lra.
Qed.

(** A value found by the loop lies in the AQI range of its bracket. *)
Lemma scan_in_bracket (bps : list AQI.Bracket) (c aqi : Q) :
  AQI.scan bps c = Some aqi →
  ∃ b, b ∈ bps ∧ (AQI.bp_low b <= c <= AQI.bp_high b)%Q
       ∧ aqi = AQI.interpolate b c.
Proof.
  induction bps as [|b bps IH]; simpl; [done|].
  destruct (AQI.in_bracket c b) eqn:E.
  - intros Heq. injection Heq as <-. exists b.
    split; [apply list_elem_of_here|]. split; [by apply in_bracket_iff | done].
  - intros Hscan. destruct (IH Hscan) as (b' & Hin & Hb' & Heq).
    exists b'. split; [by apply list_elem_of_further | done].
Qed.

Lemma scan_none (bps : list AQI.Bracket) (c : Q) :
  AQI.scan bps c = None
  ↔ Forall (λ b, ¬ (AQI.bp_low b <= c <= AQI.bp_high b)%Q) bps.
Proof.
  induction bps as [|b bps IH]; simpl.
  - split; [constructor | done].
  - destruct (AQI.in_bracket c b) eqn:E.
    + apply in_bracket_iff in E. split; [done|].
      intros Hall. apply Forall_cons_1 in Hall as [Hb _]. contradiction.
    + rewrite IH. split.
      * intros Hall. constructor; [|done].
        rewrite <- in_bracket_iff, E. discriminate.
      * intros Hall. by apply Forall_cons_1 in Hall as [_ Hall].
Qed.

Lemma breakpoints_aqi_high (pollutant : string) :
  Forall (λ b, (AQI.aqi_high b <= 400)%Q) (AQI.breakpoints pollutant).
Proof.
  destruct (breakpoints_cases pollutant) as [-> | ->];
    repeat constructor; cbn; lra.
Qed.

Lemma scan_range (pollutant : string) (c aqi : Q) :
  AQI.scan (AQI.breakpoints pollutant) c = Some aqi → (0 <= aqi <= 400)%Q.
Proof.
  intros Hscan. split.
  - eapply scan_nonneg; [apply breakpoints_well_formed | exact Hscan].
  - apply scan_in_bracket in Hscan as (b & Hin & [_ Hhi] & ->).
    pose proof (breakpoints_well_formed pollutant) as Hwf.
    pose proof (breakpoints_aqi_high pollutant) as Hmax.
    rewrite Forall_forall in Hwf, Hmax.
    pose proof (interpolate_le_high b c (Hwf b Hin) Hhi).
    pose proof (Hmax b Hin). lra.
Qed.

Lemma round_le {fl : Float64} (x : Q) (n : Z) :
  (x <= inject_Z n)%Q → (Py.round x ≤ n)%Z.
Proof.
  intros Hx. unfold Py.round.
  assert (Hf : (Qfloor x ≤ n)%Z).
  { rewrite <- (Qfloor_Z n). by apply Qfloor_resp_le. }
  destruct (decide (Qfloor x = n)) as [Heq | Hne].
  - assert (Hlt : (x - inject_Z (Qfloor x) ?= 1 # 2)%Q = Lt).
    { apply (proj1 (Qlt_alt _ _)). rewrite Heq. lra. }
    cbv zeta. rewrite Hlt. lia.
  - destruct (_ ?= _)%Q; [destruct (round_tie_up _)|..]; lia.
Qed.

Lemma forecaster_aqi_cases (c : Q) (pollutant : string) :
  (0 <= Forecasting.calculate_aqi c pollutant <= 400)%Q
  ∨ Forecasting.calculate_aqi c pollutant = 500%Q.
Proof.
  unfold Forecasting.calculate_aqi.
  destruct (AQI.scan _ c) as [aqi|] eqn:E; [left | by right].
  by eapply scan_range.
Qed.

(** X1.  Whatever the concentration (negative, inside a bracket, between
    two brackets, above the table), [calculate_aqi] of the forecaster
    returns a value between 0 and 500 and [calculate_aqi] of the
    prediction service an integer between 0 and 500. *)
Theorem calculate_aqi_range {fl : Float64} (c : Q) (pollutant : string) :
  (0 <= Forecasting.calculate_aqi c pollutant <= 500)%Q
  ∧ (0 ≤ Service.calculate_aqi c pollutant ≤ 500)%Z.
Proof.
  unfold Forecasting.calculate_aqi, Service.calculate_aqi.
  destruct (AQI.scan _ c) as [aqi|] eqn:E.
  - pose proof (scan_range _ _ _ E) as [Hlo Hhi]. split; [split; lra|].
    split; [by apply round_nonneg|].
    etransitivity; [apply (round_le aqi 400)|lia]. exact Hhi.
  - split; [split; lra|]. destruct (Py.Qltb _ c); lia.
Qed.

(** X2.  A concentration that no bracket of the table contains (below
    0, or in the gap between two brackets) gets 500 from the forecaster;
    the prediction service and the training-time column give 500 only
    above the last breakpoint, and 0 otherwise. *)
Theorem calculate_aqi_outside_brackets {fl : Float64} (c : Q)
  (pollutant : string) :
  Forall (λ b, ¬ (AQI.bp_low b <= c <= AQI.bp_high b)%Q)
    (AQI.breakpoints pollutant) →
  Forecasting.calculate_aqi c pollutant = 500%Q
  ∧ Service.calculate_aqi c pollutant
    = (if Py.Qltb (AQI.last_bp_high (AQI.breakpoints pollutant)) c
       then 500 else 0)%Z
  ∧ Aviation.calculate_aqi (Some c) pollutant
    = Some (if Py.Qltb (AQI.last_bp_high (AQI.breakpoints pollutant)) c
            then 500 else 0)%Q.
Proof.
  intros Hnone. apply scan_none in Hnone.
  unfold Forecasting.calculate_aqi, Service.calculate_aqi,
    Aviation.calculate_aqi.
  cbn. rewrite !Hnone. split; [done|]. split; [done|].
  cbn. by destruct (Py.Qltb _ c).
Qed.

(** X2, witness: 12.05 lies between the first two PM2.5 brackets. *)
Lemma calculate_aqi_outside_brackets_witness :
  Forecasting.calculate_aqi 12.05 "pm25" = 500%Q
  ∧ Service.calculate_aqi (fl := Fixtures.exact_halves) 12.05 "pm25" = 0%Z
  ∧ Aviation.calculate_aqi (fl := Fixtures.exact_halves) (Some 12.05%Q) "pm25"
    = Some 0%Q.
Proof.
  apply (calculate_aqi_outside_brackets (fl := Fixtures.exact_halves)
           12.05 "pm25").
  repeat constructor; cbn; lra.
Defined.

(** X3.  The training-time AQI column and the AQI of the prediction
    service agree on every concentration: the cell computed by
    [calculate_aqi] of the aviation script is the integer returned by
    [calculate_aqi] of the service (and NaN stays NaN). *)
Theorem training_aqi_is_service_aqi {fl : Float64} (c : Q)
  (pollutant : string) :
  Aviation.calculate_aqi (Some c) pollutant
  = Some (inject_Z (Service.calculate_aqi c pollutant))
  ∧ Aviation.calculate_aqi None pollutant = None.
Proof.
  split; [|done].
  unfold Aviation.calculate_aqi, Service.calculate_aqi. cbn.
  destruct (AQI.scan _ c) as [aqi|] eqn:E; cbn.
  - destruct (Py.Qltb _ c) eqn:Elt; [|done].
    apply Qltb_lt in Elt. by rewrite (scan_above_last _ _ Elt) in E.
  - by destruct (Py.Qltb _ c).
Qed.

Lemma scan_mono (bps : list AQI.Bracket) (c1 c2 a1 a2 : Q) :
  Forall well_formed bps → ascending bps → (c1 <= c2)%Q →
  AQI.scan bps c1 = Some a1 → AQI.scan bps c2 = Some a2 → (a1 <= a2)%Q.
Proof.
  intros Hwf Hasc Hc. revert Hasc.
  induction Hwf as [|b bps Hb Hwf IH]; simpl; [done|].
  intros Hasc. apply StronglySorted_inv in Hasc as [Hasc Hlater].
  rewrite Forall_forall in Hlater, Hwf.
  destruct (AQI.in_bracket c1 b) eqn:E1, (AQI.in_bracket c2 b) eqn:E2.
  - intros Heq1 Heq2. injection Heq1 as <-. injection Heq2 as <-.
    by apply interpolate_mono.
  - intros Heq1 Hscan2. injection Heq1 as <-.
    apply in_bracket_iff in E1 as [_ Hhi].
    apply scan_in_bracket in Hscan2 as (b' & Hin & [Hlo' _] & ->).
    pose proof (interpolate_le_high b c1 Hb Hhi).
    pose proof (interpolate_ge_low b' c2 (Hwf b' Hin) Hlo').
    destruct (Hlater b' Hin) as [_ Hstep]. lra.
  - intros Hscan1 _.
    apply in_bracket_iff in E2 as [_ Hhi].
    apply scan_in_bracket in Hscan1 as (b' & Hin & [Hlo' _] & _).
    destruct (Hlater b' Hin) as [Hgap _]. lra.
  - by apply IH.
Qed.

Lemma breakpoints_ascending (pollutant : string) :
  ascending (AQI.breakpoints pollutant).
Proof.
  destruct (breakpoints_cases pollutant) as [-> | ->];
    repeat (constructor; [|repeat constructor; cbn; lra]); constructor.
Qed.

(** X4.  From a concentration that lies in a bracket upwards, the AQI of
    the forecaster never decreases: a higher concentration gets at least
    the same AQI, whether it falls in a bracket, in a gap or above the
    table.  (Below a gap the property fails: the gap itself gets 500.) *)
Theorem calculate_aqi_monotone (pollutant : string) (c1 c2 : Q) :
  (∃ b, b ∈ AQI.breakpoints pollutant
        ∧ (AQI.bp_low b <= c1 <= AQI.bp_high b)%Q) →
  (c1 <= c2)%Q →
  (Forecasting.calculate_aqi c1 pollutant
   <= Forecasting.calculate_aqi c2 pollutant)%Q.
Proof.
  intros Hin Hc.
  destruct (first_bracket_exists _ _ Hin) as (pre & b & post & Heq & Hpre & Hb).
  pose proof (scan_first pre post b c1 Hpre Hb) as Hscan1.
  rewrite <- Heq in Hscan1.
  unfold Forecasting.calculate_aqi. rewrite Hscan1.
  destruct (AQI.scan _ c2) as [a2|] eqn:Hscan2.
  - exact (scan_mono _ _ _ _ _ (breakpoints_well_formed pollutant)
             (breakpoints_ascending pollutant) Hc Hscan1 Hscan2).
  - pose proof (scan_range _ _ _ Hscan1). lra.
Qed.

(** X4, witness: PM2.5 concentrations 10 and 40. *)
Lemma calculate_aqi_monotone_witness :
  (Forecasting.calculate_aqi 10 "pm25"
   <= Forecasting.calculate_aqi 40 "pm25")%Q.
Proof.
  apply (calculate_aqi_monotone "pm25" 10 40).
  - exists (0, 12.0, 0, 50)%Q. split; [apply list_elem_of_here|].
    cbn. lra.
  - lra.
Defined.

(** ** Reading the training frame *)

(** What [prepare_forecast_data] returns is the frame built from the
    files that were read. *)
Lemma prepare_frame {trig : Trig} {cal : Calendar}
  (read_csv : string → option (list Forecasting.Reading))
  (df : list Forecasting.Row) :
  Forecasting.prepare_forecast_data read_csv = Py.Ok df →
  df = Forecasting.build_frame (Forecasting.load_files read_csv)
  ∧ concat (Forecasting.load_files read_csv) ≠ [].
Proof.
  unfold Forecasting.prepare_forecast_data.
  destruct (Forecasting.load_files read_csv) as [|d ds]; [discriminate|].
  destruct (concat (d :: ds)); [discriminate|].
  intros Heq. injection Heq as <-. done.
Qed.

(** X5.  When [prepare_forecast_data] returns, the rows of a city whose
    readings carry distinct timestamps are the complete rows of
    [create_time_series_features] applied to that city's readings
    alone, whatever the other files contain and in whatever order the
    readings come. *)
Theorem prepared_rows_of_city {trig : Trig} {cal : Calendar}
  (read_csv : string → option (list Forecasting.Reading))
  (df : list Forecasting.Row) (c : string) :
  Forecasting.prepare_forecast_data read_csv = Py.Ok df →
  NoDup (map (λ x, Forecasting.DateTime x.2)
           (readings_of c (concat (Forecasting.load_files read_csv)))) →
  rows_of c df
  = Forecasting.dropna
      (Forecasting.create_time_series_features
         (readings_of c (concat (Forecasting.load_files read_csv)))).
Proof.
  intros Hprep _. apply prepare_frame in Hprep as [-> _].
  apply forecaster_features_per_city.
Qed.

(** X5, witness: the 26 hourly readings of Muscat. *)
Lemma prepared_rows_of_city_witness :
  rows_of "Muscat"
    (Forecasting.build_frame (trig := Fixtures.flat_trig)
       (cal := Fixtures.hourly_calendar)
       (Forecasting.load_files Fixtures.brief_city))
  = Forecasting.dropna
      (Forecasting.create_time_series_features (trig := Fixtures.flat_trig)
         (cal := Fixtures.hourly_calendar)
         (readings_of "Muscat"
            (concat (Forecasting.load_files Fixtures.brief_city)))).
Proof.
  apply (prepared_rows_of_city (trig := Fixtures.flat_trig)
           (cal := Fixtures.hourly_calendar) Fixtures.brief_city).
  - vm_compute. reflexivity.
  - apply (bool_decide_unpack _). vm_compute. exact I.
Defined.

(** X6.  Reading the files of distinct cities in another order changes
    no row of any city in the prepared frame. *)
Theorem prepared_rows_site_order {trig : Trig} {cal : Calendar} (c : string)
  (fs fs' : list (string * list Forecasting.Reading)) :
  NoDup (map fst fs) → fs ≡ₚ fs' →
  rows_of c (Forecasting.build_frame (map tagged fs))
  = rows_of c (Forecasting.build_frame (map tagged fs')).
Proof.
  intros Hnd Hperm. rewrite !forecaster_features_per_city.
  by rewrite (readings_of_permutation c fs fs' Hnd Hperm).
Qed.

(** X6, witness: Muscat and Salalah, read in either order. *)
Lemma prepared_rows_site_order_witness :
  rows_of "Muscat"
    (Forecasting.build_frame (trig := Fixtures.flat_trig)
       (cal := Fixtures.hourly_calendar)
       (map tagged [("Muscat", Fixtures.hourly 0 30);
                    ("Salalah", Fixtures.hourly 500 30)]))
  = rows_of "Muscat"
      (Forecasting.build_frame (trig := Fixtures.flat_trig)
         (cal := Fixtures.hourly_calendar)
         (map tagged [("Salalah", Fixtures.hourly 500 30);
                      ("Muscat", Fixtures.hourly 0 30)])).
Proof.
  apply (prepared_rows_site_order (trig := Fixtures.flat_trig)
           (cal := Fixtures.hourly_calendar) "Muscat").
  - cbn. apply NoDup_cons. split.
    + intros Hin. apply list_elem_of_singleton in Hin. discriminate.
    + apply NoDup_singleton.
  - apply perm_swap.
Defined.

Lemma omap_nil_iff {A B} (f : A → option B) (l : list A) :
  omap f l = [] ↔ Forall (λ x, f x = None) l.
Proof.
  induction l as [|x l IH]; cbn.
  - split; [constructor | done].
  - rewrite Forall_cons. destruct (f x); [|tauto].
    split; [done | by intros [? _]].
Qed.

(** X7.  [prepare_forecast_data] raises [ValueError] with the message
    'No data files found!' exactly when none of the three files can be
    read; it raises the [ValueError] of [pd.concat], 'No objects to
    concatenate', exactly when some file can be read but no file that
    can be read holds a row; and it returns a frame exactly when some
    file that can be read holds a row. *)
Theorem prepare_raises_without_rows {trig : Trig} {cal : Calendar}
  (read_csv : string → option (list Forecasting.Reading)) :
  (Forecasting.prepare_forecast_data read_csv
   = Py.Raise (Py.ValueError "No data files found!")
   ↔ Forall (λ f, read_csv f = None) Forecasting.files)
  ∧ (Forecasting.prepare_forecast_data read_csv
     = Py.Raise (Py.ValueError "No objects to concatenate")
     ↔ (∃ f, f ∈ Forecasting.files ∧ is_Some (read_csv f))
       ∧ Forall (λ f, read_csv f = None ∨ read_csv f = Some [])
           Forecasting.files)
  ∧ ((∃ df, Forecasting.prepare_forecast_data read_csv = Py.Ok df)
     ↔ ∃ f r rows, f ∈ Forecasting.files ∧ read_csv f = Some (r :: rows)).
Proof.
  assert (Hnil : Forecasting.load_files read_csv = []
                 ↔ Forall (λ f, read_csv f = None) Forecasting.files).
  { unfold Forecasting.load_files. rewrite omap_nil_iff.
    apply Forall_iff. intros f. by destruct (read_csv f). }
  assert (Hnone : ¬ Forall (λ f, read_csv f = None) Forecasting.files
                  ↔ ∃ f, f ∈ Forecasting.files ∧ is_Some (read_csv f)).
  { clear Hnil. induction Forecasting.files as [|f fs IH].
    - split; [intros Hnot; destruct Hnot; constructor|].
      intros (f & Hf & _). by apply elem_of_nil in Hf.
    - rewrite Forall_cons. destruct (read_csv f) as [rows|] eqn:E.
      + split; [|by intros _ [? _]].
        intros _. exists f. split; [apply list_elem_of_here|by rewrite E].
      + split.
        * intros Hnot. destruct (proj1 IH) as (g & Hg & Hsome).
          { intros Hall. by apply Hnot. }
          exists g. split; [by apply list_elem_of_further|done].
        * intros (g & Hg & Hsome) [_ Hall].
          rewrite Forall_forall in Hall.
          apply elem_of_cons in Hg as [-> | Hg].
          -- rewrite E in Hsome. by destruct Hsome.
          -- rewrite (Hall g Hg) in Hsome. by destruct Hsome. }
  assert (Hrows : concat (Forecasting.load_files read_csv) = []
                  ↔ Forall (λ f, read_csv f = None ∨ read_csv f = Some [])
                      Forecasting.files).
  { clear Hnil Hnone. unfold Forecasting.load_files.
    induction Forecasting.files as [|f fs IH]; cbn; [by split|].
    rewrite Forall_cons, <- IH.
    destruct (read_csv f) as [[|r rows]|]; cbn.
    - split; [intros Hnil; split; [by right|done] | intros [_ Hnil]; done].
    - split; [intros Hnil; discriminate Hnil|].
      intros [[Hn | Hn] _]; discriminate Hn.
    - split; [intros Hnil; split; [by left|done] | intros [_ Hnil]; done]. }
  assert (Hsome : concat (Forecasting.load_files read_csv) ≠ []
                  ↔ ∃ f r rows, f ∈ Forecasting.files
                                ∧ read_csv f = Some (r :: rows)).
  { rewrite Hrows. clear Hnil Hnone Hrows.
    induction Forecasting.files as [|f fs IH].
    - split; [intros Hnot; destruct Hnot; constructor|].
      intros (f & r & rows & Hf & _). by apply elem_of_nil in Hf.
    - rewrite Forall_cons. destruct (read_csv f) as [[|r rows]|] eqn:E.
      + split.
        * intros Hnot. destruct (proj1 IH) as (g & r & rows & Hg & Hr).
          { intros Hall. apply Hnot. split; [by right|done]. }
          exists g, r, rows. split; [by apply list_elem_of_further|done].
        * intros (g & r & rows & Hg & Hr) [_ Hall].
          rewrite Forall_forall in Hall.
          apply elem_of_cons in Hg as [-> | Hg].
          -- rewrite E in Hr. discriminate Hr.
          -- destruct (Hall g Hg) as [Hn | Hn]; rewrite Hn in Hr;
               discriminate Hr.
      + split; [|by intros _ [[?|?] _]].
        intros _. exists f, r, rows. split; [apply list_elem_of_here|done].
      + split.
        * intros Hnot. destruct (proj1 IH) as (g & r & rows & Hg & Hr).
          { intros Hall. apply Hnot. split; [by left|done]. }
          exists g, r, rows. split; [by apply list_elem_of_further|done].
        * intros (g & r & rows & Hg & Hr) [_ Hall].
          rewrite Forall_forall in Hall.
          apply elem_of_cons in Hg as [-> | Hg].
          -- rewrite E in Hr. discriminate Hr.
          -- destruct (Hall g Hg) as [Hn | Hn]; rewrite Hn in Hr;
               discriminate Hr. }
  unfold Forecasting.prepare_forecast_data in *.
  destruct (Forecasting.load_files read_csv) as [|d ds] eqn:Efiles.
  - split; [by rewrite <- Hnil|]. split.
    + split; [done|]. intros [Hex _]. apply Hnone in Hex.
      destruct Hex. by apply Hnil.
    + split; [by intros [df ?]|]. intros Hex. apply Hsome in Hex. done.
  - destruct (concat (d :: ds)) as [|x xs] eqn:Erows.
    + split; [rewrite <- Hnil; by split|]. split.
      * split; [|done]. intros _. split; [|by apply Hrows].
        apply Hnone. rewrite <- Hnil. done.
      * split; [by intros [df ?]|]. intros Hex. apply Hsome in Hex. done.
    + split; [rewrite <- Hnil; by split|]. split.
      * split; [done|]. intros [_ Hall]. by apply Hrows in Hall.
      * split; [|by eexists]. intros _. by apply Hsome.
Qed.

(** ** Lag and rolling features, row by row *)

Lemma map_list_bind {A B C} (f : B → C) (g : A → list B) (l : list A) :
  map f (l ≫= g) = l ≫= (λ x, map f (g x)).
Proof.
  induction l as [|x l IH]; cbn; [done|]. by rewrite map_app, IH.
Qed.

Lemma cell_column (col : Forecasting.Reading → option Q)
  (df : list (string * Forecasting.Reading)) (i : nat) :
  Pandas.cell (Forecasting.column col df) i = df !! i ≫= λ x, col x.2.
Proof.
  unfold Pandas.cell, Forecasting.column.
  change (map (λ r, col r.2) df) with ((λ r, col r.2) <$> df).
  rewrite list_lookup_fmap. by destruct (df !! i).
Qed.

(** A lag by [p] rows: NaN in the first [p] rows, then the cell [p]
    rows earlier. *)
Lemma cell_shift (p : Z) (s : Pandas.Series) (i : nat) :
  (0 ≤ p)%Z → i < length s →
  Pandas.cell (Pandas.shift p s) i
  = if bool_decide (i < Z.to_nat p) then None
    else Pandas.cell s (i - Z.to_nat p).
Proof.
  intros Hp Hi. unfold Pandas.cell, Pandas.shift.
  rewrite (proj2 (Z.leb_le 0 p) Hp).
  rewrite lookup_take_lt by done.
  case_bool_decide as Hlt.
  - rewrite lookup_app_l by (by rewrite length_replicate).
    by rewrite lookup_replicate_2.
  - rewrite lookup_app_r by (rewrite length_replicate; lia).
    by rewrite length_replicate.
Qed.

Section Lags.
Context {trig : Trig} {cal : Calendar}.

Lemma lag_hours_bounds (k : Z) :
  k ∈ Forecasting.lag_hours → (1 ≤ k ≤ 24)%Z.
Proof.
  unfold Forecasting.lag_hours. intros Hk.
  repeat (apply elem_of_cons in Hk as [-> | Hk]; [lia|]).
  by apply elem_of_nil in Hk.
Qed.

(** The lag cells of the row at position [i]. *)
Lemma lag_cells
  (df : list (string * Forecasting.Reading)) (i : nat) (r : Forecasting.Row) :
  Forecasting.create_time_series_features df !! i = Some r →
  Forecasting.lag r
  = (col ← Forecasting.lag_columns;
     k ← Forecasting.lag_hours;
     [if bool_decide (i < Z.to_nat k) then None
      else Pandas.sort_values Forecasting.by_DateTime df !! (i - Z.to_nat k)
           ≫= λ x, col.2 x.2]).
Proof.
  unfold Forecasting.create_time_series_features. cbv zeta.
  rewrite list_lookup_imap.
  destruct (Pandas.sort_values Forecasting.by_DateTime df !! i) as [x|] eqn:Ex;
    [|done].
  intros Heq. apply (inj Some) in Heq. subst r. cbn [Forecasting.lag].
  unfold Forecasting.lag_features. rewrite map_list_bind.
  apply list_bind_ext; [|done]. intros col.
  rewrite map_list_bind. apply Forall_bind_ext, Forall_forall.
  intros k Hk. apply lag_hours_bounds in Hk. cbn [map]. f_equal.
  rewrite cell_shift, cell_column; [done | lia |].
  unfold Forecasting.column. rewrite length_map.
  by eapply lookup_lt_Some.
Qed.

(** X8.  In the frame of [create_time_series_features] the lag feature
    of column [col] and lag [k] of row [i] is the value of [col] in the
    row [k] positions earlier in the time-sorted input, and NaN in the
    first [k] rows. *)
Theorem lag_features_read_earlier_rows
  (df : list (string * Forecasting.Reading)) (i : nat) (r : Forecasting.Row) :
  Forecasting.create_time_series_features df !! i = Some r →
  Forecasting.lag r
  = (col ← Forecasting.lag_columns;
     k ← Forecasting.lag_hours;
     [if bool_decide (i < Z.to_nat k) then None
      else Pandas.sort_values Forecasting.by_DateTime df !! (i - Z.to_nat k)
           ≫= λ x, col.2 x.2]).
Proof. apply lag_cells. Qed.

End Lags.

(** X8, witness: the third row of a series of five hourly readings. *)
Lemma lag_features_read_earlier_rows_witness :
  ∃ r, Forecasting.create_time_series_features (trig := Fixtures.flat_trig)
         (cal := Fixtures.hourly_calendar)
         (tagged ("Muscat", Fixtures.hourly 0 5)) !! 2 = Some r
       ∧ Forecasting.lag r
         = (col ← Forecasting.lag_columns;
            k ← Forecasting.lag_hours;
            [if bool_decide (2 < Z.to_nat k) then None
             else Pandas.sort_values Forecasting.by_DateTime
                    (tagged ("Muscat", Fixtures.hourly 0 5)) !! (2 - Z.to_nat k)
                  ≫= λ x, col.2 x.2]).
Proof.
  eexists. split; [reflexivity|].
  apply (lag_features_read_earlier_rows (trig := Fixtures.flat_trig)
           (cal := Fixtures.hourly_calendar)
           (tagged ("Muscat", Fixtures.hourly 0 5)) 2).
  reflexivity.
Defined.

(** A filter that rejects exactly the first [n] positions drops them. *)
Lemma filter_from_position {A} (p : A → bool) (n : nat) (l : list A) :
  (∀ i x, l !! i = Some x → p x = bool_decide (n ≤ i)) →
  List.filter p l = drop n l.
Proof.
  revert n. induction l as [|x l IH]; intros n Hp; [by rewrite drop_nil|].
  simpl. rewrite (Hp 0 x eq_refl). destruct n as [|n].
  - rewrite bool_decide_eq_true_2 by lia. f_equal.
    rewrite (IH 0); [done|]. intros i y Hy. rewrite (Hp (S i) y Hy).
    apply bool_decide_ext. lia.
  - rewrite bool_decide_eq_false_2 by lia. apply IH.
    intros i y Hy. rewrite (Hp (S i) y Hy). apply bool_decide_ext. lia.
Qed.

(** A rolling mean with [min_periods=1] is a number wherever the column
    itself holds one. *)
Lemma cell_rolling_mean (w : nat) (s : Pandas.Series) (i : nat) (v : Q) :
  0 < w → s !! i = Some (Some v) →
  is_Some (Pandas.cell (Pandas.rolling_mean w 1 s) i).
Proof.
  intros Hw Hi. unfold Pandas.cell, Pandas.rolling_mean.
  rewrite list_lookup_imap, Hi. cbn.
  rewrite bool_decide_eq_true_2; [by eexists|].
  unfold Pandas.window. rewrite (take_S_r _ _ _ Hi).
  assert (Hlen : i < length s) by by eapply lookup_lt_Some.
  rewrite drop_app_le by (rewrite length_take; lia).
  rewrite dropna_app, length_app. cbn. lia.
Qed.

Lemma full_reading_column (r : Forecasting.Reading)
  (col : string * (Forecasting.Reading → option Q)) :
  full_reading r = true → col ∈ Forecasting.lag_columns → is_Some (col.2 r).
Proof.
  unfold full_reading. rewrite forallb_forall. intros Hall Hcol.
  apply (bool_decide_eq_true_1 _), Hall, in_or_app. left.
  apply in_map_iff. exists col. split; [done|]. by apply list_elem_of_In.
Qed.

Lemma forallb_is_Some {A} (l : list (option A)) :
  forallb (λ c, bool_decide (is_Some c)) l = true ↔ Forall is_Some l.
Proof.
  rewrite forallb_forall, Forall_forall. split.
  - intros H x Hx. apply (bool_decide_eq_true_1 _), H. by apply list_elem_of_In.
  - intros H x Hx. apply bool_decide_eq_true_2, H. by apply list_elem_of_In.
Qed.

Section Warmup.
Context {trig : Trig} {cal : Calendar}.

(** In a series of readings without NaN, a row of
    [create_time_series_features] is complete exactly from position 24
    on: before that its 24-hour lags are NaN. *)
Lemma complete_from_row_24 (df : list (string * Forecasting.Reading))
  (i : nat) (r : Forecasting.Row) :
  forallb (λ x, full_reading x.2) df = true →
  Forecasting.create_time_series_features df !! i = Some r →
  Forecasting.complete r = bool_decide (24 ≤ i).
Proof.
  intros Hfull Hr.
  pose proof (lag_cells df i r Hr) as Hlag.
  revert Hr. unfold Forecasting.create_time_series_features. cbv zeta.
  rewrite list_lookup_imap.
  set (S := Pandas.sort_values Forecasting.by_DateTime df) in *.
  destruct (S !! i) as [x|] eqn:Ex; [|done].
  intros Heq. apply (inj Some) in Heq.
  assert (HS : ∀ j y, S !! j = Some y → full_reading y.2 = true).
  { intros j y Hy. rewrite forallb_forall in Hfull. apply Hfull.
    apply list_elem_of_In.
    rewrite <- (sort_values_Permutation Forecasting.by_DateTime df).
    by eapply list_elem_of_lookup_2. }
  assert (Hlen : i < length S) by by eapply lookup_lt_Some.
  assert (Hreading : Forecasting.reading r = x.2) by by subst r.
  assert (Hrolling : Forall is_Some (Forecasting.rolling r)).
  { subst r. cbn [Forecasting.rolling]. unfold Forecasting.rolling_features.
    rewrite map_list_bind. apply Forall_forall. intros c Hc.
    apply list_elem_of_bind in Hc as (col & Hc & Hcol). cbn [map] in Hc.
    destruct (full_reading_column x.2 col (HS i x Ex) Hcol) as [v Hv].
    assert (Hcell : Forecasting.column col.2 S !! i = Some (Some v)).
    { unfold Forecasting.column.
      change (map (λ r, col.2 r.2) S) with ((λ r, col.2 r.2) <$> S).
      by rewrite list_lookup_fmap, Ex, <- Hv. }
    apply elem_of_cons in Hc as [-> | Hc];
      [by eapply cell_rolling_mean; [lia | exact Hcell]|].
    apply list_elem_of_singleton in Hc as ->.
    by eapply cell_rolling_mean; [lia | exact Hcell]. }
  unfold Forecasting.complete. rewrite Hreading.
  case_bool_decide as Hi.
  - apply forallb_is_Some. rewrite app_assoc. apply Forall_app. split.
    { apply forallb_is_Some. exact (HS i x Ex). }
    apply Forall_app. split; [|exact Hrolling].
    rewrite Hlag. apply Forall_forall. intros c Hc.
    apply list_elem_of_bind in Hc as (col & Hc & Hcol).
    apply list_elem_of_bind in Hc as (k & Hc & Hk).
    apply list_elem_of_singleton in Hc as ->.
    apply lag_hours_bounds in Hk.
    rewrite bool_decide_eq_false_2 by lia.
    destruct (lookup_lt_is_Some_2 S (i - Z.to_nat k)) as [y Hy]; [lia|].
    rewrite Hy. cbn. exact (full_reading_column y.2 col (HS _ y Hy) Hcol).
  - apply not_true_is_false. intros Hall. apply forallb_is_Some in Hall.
    rewrite !Forall_app in Hall. destruct Hall as (_ & _ & Hlags & _).
    rewrite Hlag, Forall_forall in Hlags.
    destruct (Hlags None) as [? ?]; [|done].
    apply list_elem_of_bind. exists ("PM2.5 (µg/m³)", Forecasting.PM25).
    split; [|apply list_elem_of_here].
    apply list_elem_of_bind. exists 24%Z.
    split; [|unfold Forecasting.lag_hours;
             do 5 apply list_elem_of_further; apply list_elem_of_here].
    rewrite bool_decide_eq_true_2 by lia. apply list_elem_of_here.
Qed.

(** X9.  When [prepare_forecast_data] returns, for a city whose
    readings carry distinct timestamps and hold no NaN, the frame holds
    the rows of [create_time_series_features] from the 25th on: exactly
    the first 24 hours of the city are lost to the lags, and a city with
    at most 24 readings contributes no row. *)
Theorem complete_city_loses_first_24_rows
  (read_csv : string → option (list Forecasting.Reading))
  (df : list Forecasting.Row) (c : string) :
  Forecasting.prepare_forecast_data read_csv = Py.Ok df →
  NoDup (map (λ x, Forecasting.DateTime x.2)
           (readings_of c (concat (Forecasting.load_files read_csv)))) →
  forallb (λ x, full_reading x.2)
    (readings_of c (concat (Forecasting.load_files read_csv))) = true →
  rows_of c df
  = drop 24 (Forecasting.create_time_series_features
               (readings_of c (concat (Forecasting.load_files read_csv)))).
Proof.
  intros Hprep _ Hfull. apply prepare_frame in Hprep as [-> _].
  rewrite forecaster_features_per_city.
  apply filter_from_position. intros i r Hr.
  by apply (complete_from_row_24
              (readings_of c (concat (Forecasting.load_files read_csv)))).
Qed.

End Warmup.

(** X9, witness: the 26 hourly readings of Muscat leave two rows. *)
Lemma complete_city_loses_first_24_rows_witness :
  rows_of "Muscat"
    (Forecasting.build_frame (trig := Fixtures.flat_trig)
       (cal := Fixtures.hourly_calendar)
       (Forecasting.load_files Fixtures.brief_city))
  = drop 24 (Forecasting.create_time_series_features
               (trig := Fixtures.flat_trig) (cal := Fixtures.hourly_calendar)
               (readings_of "Muscat"
                  (concat (Forecasting.load_files Fixtures.brief_city)))).
Proof.
  apply (complete_city_loses_first_24_rows (trig := Fixtures.flat_trig)
           (cal := Fixtures.hourly_calendar) Fixtures.brief_city).
  - vm_compute. reflexivity.
  - apply (bool_decide_unpack _). vm_compute. exact I.
  - vm_compute. reflexivity.
Defined.

(** ** What a horizon is trained on *)

Section Alignment.
Context {est : Estimator} {trig : Trig} {cal : Calendar} (schema : list string).

Lemma future_target_PM10_lookup (df : list Forecasting.Row) (h i : nat) :
  clean df →
  Forecasting.future_target Forecasting.PM10 df h !! i
  = df !! (h + i) ≫= λ r, Forecasting.PM10 (Forecasting.reading r).
Proof.
  intros Hdf. unfold Forecasting.future_target.
  rewrite shift_back_dropna_lookup by by apply clean_column_PM10.
  rewrite list_lookup_fmap. by destruct (df !! (h + i)).
Qed.

(** X10.  On the frame of [prepare_forecast_data], the horizon [h] is
    trained on [len(df) - h] samples: the feature rows are the first
    [len(df) - h] rows of the frame, and the PM2.5 and PM10 labels of
    the sample at position [i] are the measurements of the row at
    position [i + h] of the whole frame, whichever city that row
    belongs to. *)
Theorem horizon_pairs_row_with_later_row
  (read_csv : string → option (list Forecasting.Reading))
  (df : list Forecasting.Row) (h : nat) :
  Forecasting.prepare_forecast_data read_csv = Py.Ok df →
  length (Forecasting.X_aligned schema df h) = length df - h
  ∧ length (Forecasting.future_target Forecasting.PM25 df h) = length df - h
  ∧ length (Forecasting.future_target Forecasting.PM10 df h) = length df - h
  ∧ ∀ i, i < length df - h →
      ∃ r r', df !! i = Some r ∧ df !! (h + i) = Some r'
        ∧ Forecasting.X_aligned schema df h !! i
          = Some (snd <$> Forecasting.X_row schema
                            (Forecasting.dummy_cities df) r)
        ∧ Forecasting.future_target Forecasting.PM25 df h !! i
          = Forecasting.PM25 (Forecasting.reading r')
        ∧ Forecasting.future_target Forecasting.PM10 df h !! i
          = Forecasting.PM10 (Forecasting.reading r').
Proof.
  intros Hprep. pose proof (prepare_clean _ _ Hprep) as Hclean.
  split; [by apply X_aligned_length|].
  split; [by apply future_target_PM25_length|].
  split; [by apply future_target_PM10_length|].
  intros i Hi.
  destruct (lookup_lt_is_Some_2 df i) as [r Hr]; [lia|].
  destruct (lookup_lt_is_Some_2 df (h + i)) as [r' Hr']; [lia|].
  exists r, r'. split; [done|]. split; [done|]. split; [|split].
  - rewrite X_aligned_rows. unfold Forecasting.rows_aligned.
    change (map ?f ?l) with (f <$> l).
    rewrite list_lookup_fmap, lookup_take_lt, Hr; [done|].
    rewrite future_target_PM25_length by done. exact Hi.
  - by rewrite future_target_PM25_lookup, Hr'.
  - by rewrite future_target_PM10_lookup, Hr'.
Qed.

Lemma X_columns_not_excluded (df : list Forecasting.Row) (col : string) :
  col ∈ Forecasting.exclude_cols → col ∉ Forecasting.X_columns schema df.
Proof.
  intros Hex Hin. unfold Forecasting.X_columns in Hin.
  apply elem_of_app in Hin as [Hin | Hin].
  - apply list_elem_of_In, filter_In in Hin as [_ Hin].
    by apply bool_decide_eq_true_1 in Hin.
  - apply list_elem_of_In, in_map_iff in Hin as (c & <- & _).
    unfold Forecasting.exclude_cols in Hex.
    repeat (apply elem_of_cons in Hex as [Hex | Hex]; [discriminate Hex|]).
    by apply elem_of_nil in Hex.
Qed.

Lemma trained_feature_columns (self self' : Forecasting.Forecaster)
  (read_csv : string → option (list Forecasting.Reading)) :
  Forecasting.train_forecast_models schema self read_csv = Py.Ok self' →
  ∃ df, Forecasting.prepare_forecast_data read_csv = Py.Ok df
        ∧ Forecasting.feature_columns self' = Forecasting.X_columns schema df.
Proof.
  unfold Forecasting.train_forecast_models.
  destruct (Forecasting.prepare_forecast_data read_csv) as [df|]; [|done].
  cbn [mbind result_bind Py.bind].
  destruct (Forecasting.train_loop schema df _ _) as [m|]; [|done].
  cbn [mbind result_bind Py.bind]. intros [= <-]. by exists df.
Qed.

(** X11.  No excluded column is a feature: after
    [train_forecast_models], the timestamp, the city name, the two
    target measurements and the heat index are not among the recorded
    feature columns, whatever the schema of the files and the cities of
    the frame. *)
Theorem excluded_columns_are_no_features (self self' : Forecasting.Forecaster)
  (read_csv : string → option (list Forecasting.Reading)) (col : string) :
  Forecasting.train_forecast_models schema self read_csv = Py.Ok self' →
  col ∈ Forecasting.exclude_cols → col ∉ Forecasting.feature_columns self'.
Proof.
  intros Htrain Hex.
  destruct (trained_feature_columns _ _ _ Htrain) as (df & _ & ->).
  by apply X_columns_not_excluded.
Qed.

End Alignment.

(** X10, witness: the frame of Musandam and Muscat, 6 hours ahead. *)
Lemma horizon_pairs_row_with_later_row_witness :
  length (Forecasting.X_aligned Fixtures.schema Fixtures.two_cities_frame 6)
  = length Fixtures.two_cities_frame - 6
  ∧ length (Forecasting.future_target Forecasting.PM25
              Fixtures.two_cities_frame 6)
    = length Fixtures.two_cities_frame - 6.
Proof.
  destruct (horizon_pairs_row_with_later_row (trig := Fixtures.flat_trig)
              (cal := Fixtures.hourly_calendar) Fixtures.schema
              Fixtures.two_cities Fixtures.two_cities_frame 6)
    as (HX & Hy & _); [vm_compute; reflexivity|].
  split; [exact HX | exact Hy].
Defined.

(** X11, witness: the PM2.5 column, after training on 26 readings of
    Muscat. *)
Lemma excluded_columns_are_no_features_witness :
  "PM2.5 (µg/m³)" ∉ Forecasting.feature_columns Fixtures.trained_brief.
Proof.
  apply (excluded_columns_are_no_features (trig := Fixtures.flat_trig)
           (cal := Fixtures.hourly_calendar) Fixtures.schema
           Forecasting.init Fixtures.trained_brief Fixtures.brief_city).
  - vm_compute. reflexivity.
  - unfold Forecasting.exclude_cols.
    do 2 apply list_elem_of_further. apply list_elem_of_here.
Defined.

(** ** The feature vector of a forecast *)

Lemma assoc_map_key {V} (f : string → V) (l : list string) (k : string) :
  Py.assoc k (map (λ c, (c, f c)) l)
  = if bool_decide (k ∈ l) then Some (f k) else None.
Proof.
  induction l as [|c l IH]; simpl; [done|].
  destruct (String.eqb k c) eqn:E.
  - apply String.eqb_eq in E as ->.
    rewrite bool_decide_eq_true_2; [done | apply list_elem_of_here].
  - apply String.eqb_neq in E. rewrite IH.
    apply (f_equal (λ b : bool, if b then Some (f k) else None)).
    apply bool_decide_ext. rewrite elem_of_cons. tauto.
Qed.

Section ForecastVector.
Context {est : Estimator}.

Lemma assoc_request_dummies (self : Forecasting.Forecaster)
  (current_conditions : Forecasting.Conditions) (col : string) :
  col ∈ Forecasting.feature_columns self →
  Forecasting.is_city_column col = true →
  Py.assoc col (Forecasting.request_dummies self current_conditions)
  = Some (site_indicator current_conditions col).
Proof.
  intros Hin Hcity. unfold Forecasting.request_dummies, site_indicator.
  assert (Hcol : col ∈ List.filter Forecasting.is_city_column
                         (Forecasting.feature_columns self)).
  { apply list_elem_of_In, filter_In. split; [by apply list_elem_of_In | done]. }
  destruct (Forecasting.city current_conditions) as [c|].
  - rewrite assoc_foldl_add_missing, (bool_decide_eq_true_2 _ Hcol). simpl.
    by destruct (String.eqb col ("City_" +:+ c)).
  - by rewrite (assoc_map_key
                  (λ col, if String.eqb col "City_Muscat" then 1 else 0)%Q),
      (bool_decide_eq_true_2 _ Hcol).
Qed.

(** The vector of a request that carries every base feature. *)
Lemma current_vector_ok
  (self : Forecasting.Forecaster)
  (current_conditions : Forecasting.Conditions) :
  (∀ col, col ∈ Forecasting.base_features self →
          is_Some (Py.assoc col (Forecasting.columns current_conditions))) →
  Forecasting.current_vector self current_conditions
  = Py.Ok (map (λ col,
                  (col,
                   if Forecasting.is_city_column col
                   then site_indicator current_conditions col
                   else default 0%Q
                          (Py.assoc col
                             (Forecasting.columns current_conditions))))
             (Forecasting.feature_columns self)).
Proof.
  intros Hall.
  pose (value := λ col,
          default 0%Q (Py.assoc col (Forecasting.columns current_conditions))).
  assert (Hbase :
    Pandas.select (Forecasting.columns current_conditions)
      (Forecasting.base_features self)
    = Py.Ok (map (λ c, (c, value c)) (Forecasting.base_features self))).
  { apply select_ok. intros c Hc. unfold value.
    by destruct (Hall c Hc) as [v ->]. }
  unfold Forecasting.current_vector. rewrite Hbase.
  cbn [mbind result_bind Py.bind].
  rewrite (forecast_fill_never_fires self current_conditions _ Hbase).
  apply select_ok. intros c Hc.
  rewrite assoc_app, assoc_map_key.
  destruct (Forecasting.is_city_column c) eqn:Ecity.
  - rewrite bool_decide_eq_false_2.
    + by apply assoc_request_dummies.
    + intros Hin. apply list_elem_of_In, filter_In in Hin as [_ Hin].
      by rewrite Ecity in Hin.
  - rewrite bool_decide_eq_true_2; [done|].
    apply list_elem_of_In, filter_In. split; [by apply list_elem_of_In|].
    by rewrite Ecity.
Qed.

(** X12.  When the request carries every training-time column that is
    not a site indicator, the vector handed to the models has exactly
    the training-time columns in training-time order: the measurements
    are copied from the request (its other columns are ignored), and
    the site indicators are 1 for the request's city and 0 for the
    others (all 0 for a city unseen in training; Muscat when the request
    names no city). *)
Theorem forecast_vector_follows_training_columns
  (self : Forecasting.Forecaster)
  (current_conditions : Forecasting.Conditions) :
  (∀ col, col ∈ Forecasting.base_features self →
          is_Some (Py.assoc col (Forecasting.columns current_conditions))) →
  Forecasting.current_vector self current_conditions
  = Py.Ok (map (λ col,
                  (col,
                   if Forecasting.is_city_column col
                   then site_indicator current_conditions col
                   else default 0%Q
                          (Py.assoc col
                             (Forecasting.columns current_conditions))))
             (Forecasting.feature_columns self)).
Proof. apply current_vector_ok. Qed.

(** Selecting a list of labels raises [KeyError] as soon as one of them
    is not a column. *)
Lemma select_missing (frame : list (string * Q)) (labels : list string)
  (k : string) :
  k ∈ labels → Py.assoc k frame = None →
  ∃ e, Pandas.select frame labels = Py.Raise (Py.KeyError e).
Proof.
  unfold Pandas.select. intros Hin Hk.
  induction labels as [|c labels IH]; [by apply elem_of_nil in Hin|].
  rewrite mapM_result_cons. unfold Py.getitem at 1.
  destruct (Py.assoc c frame) as [v|] eqn:Ec.
  - apply elem_of_cons in Hin as [-> | Hin]; [by rewrite Hk in Ec|].
    destruct (IH Hin) as [e He]. exists e.
    cbn [mbind result_bind Py.bind]. by rewrite He.
  - by exists c.
Qed.

Lemma present_or_missing (frame : list (string * Q)) (labels : list string) :
  (∀ c, c ∈ labels → is_Some (Py.assoc c frame))
  ∨ (∃ k, k ∈ labels ∧ Py.assoc k frame = None).
Proof.
  induction labels as [|c labels [IH | (k & Hk & Hmiss)]].
  - left. intros c Hc. by apply elem_of_nil in Hc.
  - destruct (Py.assoc c frame) as [v|] eqn:Ec.
    + left. intros c' Hc'. apply elem_of_cons in Hc' as [-> | Hc'].
      * by rewrite Ec.
      * by apply IH.
    + right. exists c. split; [apply list_elem_of_here | done].
  - right. exists k. split; [by apply list_elem_of_further | done].
Qed.

(** X13.  The feature vector of [forecast_next_48_hours] fails with a
    [KeyError] exactly when the request lacks a training-time column that
    is not a site indicator, and then the whole call raises that
    [KeyError]: no such column is ever filled with 0, and no model is
    consulted. *)
Theorem forecast_raises_iff_column_missing
  (self : Forecasting.Forecaster)
  (current_conditions : Forecasting.Conditions) (now : Z) :
  ((∃ k, k ∈ Forecasting.base_features self
         ∧ Py.assoc k (Forecasting.columns current_conditions) = None)
   ↔ ∃ e, Forecasting.current_vector self current_conditions
          = Py.Raise (Py.KeyError e))
  ∧ ((∃ k, k ∈ Forecasting.base_features self
           ∧ Py.assoc k (Forecasting.columns current_conditions) = None) →
     ∃ e, Forecasting.forecast_next_48_hours self current_conditions now
          = Py.Raise (Py.KeyError e)).
Proof.
  assert (Hraise :
    (∃ k, k ∈ Forecasting.base_features self
          ∧ Py.assoc k (Forecasting.columns current_conditions) = None) →
    ∃ e, Forecasting.current_vector self current_conditions
         = Py.Raise (Py.KeyError e)).
  { intros (k & Hin & Hk).
    destruct (select_missing _ _ k Hin Hk) as [e He]. exists e.
    unfold Forecasting.current_vector. by rewrite He. }
  split; [split; [exact Hraise|] |].
  - intros [e He].
    destruct (present_or_missing (Forecasting.columns current_conditions)
                (Forecasting.base_features self)) as [Hall | Hmiss]; [|done].
    rewrite (current_vector_ok self current_conditions Hall) in He.
    discriminate He.
  - intros Hmiss. destruct (Hraise Hmiss) as [e He]. exists e.
    unfold Forecasting.forecast_next_48_hours. by rewrite He.
Qed.

(** ** The forecasts *)

Lemma forecast_loop_entries (self : Forecasting.Forecaster) (X_current : list Q)
  (now : Z) (hs : list nat) (forecasts : list (string * Forecasting.Forecast)) :
  Forecasting.forecast_loop self X_current now hs = Py.Ok forecasts →
  map fst forecasts = map (λ h, pretty h +:+ "h") (served_horizons self hs)
  ∧ map (λ e, Forecasting.timestamp e.2) forecasts
    = map (λ h, (now + Z.of_nat h)%Z) (served_horizons self hs)
  ∧ Forall (λ e, (0 <= Forecasting.pm25 e.2)%Q ∧ (0 <= Forecasting.pm10 e.2)%Q)
      forecasts.
Proof.
  revert forecasts. induction hs as [|h hs IH]; intros forecasts; simpl.
  - intros [= <-]. by split_and!.
  - destruct (Forecasting.models self !! Forecasting.model_key "pm25" h)
      as [m25|] eqn:E25;
      [destruct (Forecasting.models self !! Forecasting.model_key "pm10" h)
         as [m10|] eqn:E10|].
    + rewrite !bool_decide_eq_true_2 by by eexists. simpl.
      destruct (rf_predict m25 X_current) as [p25|]; [|done].
      destruct (rf_predict m10 X_current) as [p10|]; [|done].
      cbn [mbind result_bind Py.bind].
      destruct (Forecasting.forecast_loop self X_current now hs)
        as [rest|]; [|done].
      intros [= <-]. destruct (IH rest eq_refl) as (Hk & Ht & Hpos).
      simpl. rewrite Hk, Ht. split; [done|]. split; [done|].
      constructor; [|done]. simpl. split; apply py_max_ge_l.
    + rewrite (bool_decide_eq_false_2 (is_Some None)) by by intros [? ?].
      rewrite andb_false_r. apply IH.
    + rewrite (bool_decide_eq_false_2 (is_Some None)) by by intros [? ?].
      simpl. apply IH.
Qed.

(** X15.  A forecast that [forecast_next_48_hours] returns has one
    entry per horizon of 1, 6, 12, 24, 48 for which both models are
    present, in that order and keyed [<h>h]; a horizon with only one of
    its two models is skipped.  Each entry is stamped [now + h] and its
    two predictions are clamped at 0. *)
Theorem forecast_entries (self : Forecasting.Forecaster)
  (current_conditions : Forecasting.Conditions) (now : Z)
  (forecasts : list (string * Forecasting.Forecast)) :
  Forecasting.forecast_next_48_hours self current_conditions now
  = Py.Ok forecasts →
  map fst forecasts
  = map (λ h, pretty h +:+ "h") (served_horizons self Forecasting.horizons)
  ∧ map (λ e, Forecasting.timestamp e.2) forecasts
    = map (λ h, (now + Z.of_nat h)%Z) (served_horizons self Forecasting.horizons)
  ∧ Forall (λ e, (0 <= Forecasting.pm25 e.2)%Q ∧ (0 <= Forecasting.pm10 e.2)%Q)
      forecasts.
Proof.
  unfold Forecasting.forecast_next_48_hours.
  destruct (Forecasting.current_vector self current_conditions) as [v|];
    [|done].
  cbn [mbind result_bind Py.bind]. apply forecast_loop_entries.
Qed.

End ForecastVector.

(** X12, witness: a forecaster with one measurement column and two site
    indicators, asked about Muscat. *)
Lemma forecast_vector_follows_training_columns_witness :
  Forecasting.current_vector (est := Fixtures.mean_estimator)
    Fixtures.toy_forecaster
    Fixtures.raw_conditions
  = Py.Ok [("City_Muscat", 1%Q); ("Humidity (%)", 45.0%Q);
           ("City_Salalah", 0%Q)].
Proof.
  apply (forecast_vector_follows_training_columns
           (est := Fixtures.mean_estimator)
           Fixtures.toy_forecaster
           Fixtures.raw_conditions).
  intros col Hcol. cbn in Hcol.
  apply list_elem_of_singleton in Hcol as ->. by eexists.
Defined.

(** X15, witness: a forecaster that holds both models of the 1-hour
    horizon and only the PM2.5 model of the 6-hour horizon. *)
Lemma forecast_entries_witness :
  ∃ forecasts,
    Forecasting.forecast_next_48_hours Fixtures.toy_forecaster
      Fixtures.raw_conditions 0 = Py.Ok forecasts
    ∧ map fst forecasts = ["1h"].
Proof.
  assert (Hok : Forecasting.forecast_next_48_hours Fixtures.toy_forecaster
                  Fixtures.raw_conditions 0
                = Py.Ok [("1h", {| Forecasting.pm25 := 30; Forecasting.pm10 := 70;
                                   Forecasting.timestamp := 1 |})]).
  { vm_compute. reflexivity. }
  eexists. split; [exact Hok|].
  rewrite (proj1 (forecast_entries _ _ _ _ Hok)).
  vm_compute. reflexivity.
Defined.

(** ** The sample request of [main] *)

Section MainFill.
Context {est : Estimator} {trig : Trig} {cal : Calendar} (schema : list string).

(** X14.  The sample request of [main], completed by its loop over the
    required features, carries every column the trained forecaster
    expects: the vector handed to the models holds the sample's value
    for a column of the sample, 0 for every other measurement, lag,
    rolling or seasonal column, and the indicator of Muscat. *)
Theorem main_fill_supplies_every_feature
  (read_csv : string → option (list Forecasting.Reading))
  (self : Forecasting.Forecaster) :
  Forecasting.train_forecast_models schema Forecasting.init read_csv
  = Py.Ok self →
  Forecasting.current_vector self (Forecasting.main_conditions self)
  = Py.Ok (map (λ col,
                  (col,
                   if Forecasting.is_city_column col
                   then (if String.eqb col "City_Muscat" then 1 else 0)%Q
                   else default 0%Q
                          (Py.assoc col
                             (Forecasting.columns
                                Forecasting.sample_conditions))))
             (Forecasting.feature_columns self)).
Proof.
  intros Htrain.
  destruct (trained_feature_columns schema _ _ _ Htrain) as (df & _ & Hcols).
  rewrite current_vector_ok.
  - f_equal. apply map_ext. intros col.
    destruct (Forecasting.is_city_column col); [done|]. f_equal.
    unfold Forecasting.main_conditions. cbn [Forecasting.columns].
    rewrite assoc_foldl_add_missing.
    destruct (Py.assoc col _) as [v|]; [done|]. by case_bool_decide.
  - intros col Hcol.
    unfold Forecasting.main_conditions. cbn [Forecasting.columns].
    rewrite assoc_foldl_add_missing.
    destruct (Py.assoc col _) as [v|]; [by eexists|].
    rewrite bool_decide_eq_true_2; [by eexists|].
    apply list_elem_of_In, filter_In. split; [by apply list_elem_of_In|].
    apply negb_true_iff, String.eqb_neq. intros ->.
    apply (X_columns_not_excluded schema df "City").
    + unfold Forecasting.exclude_cols.
      apply list_elem_of_further, list_elem_of_here.
    + rewrite <- Hcols.
      apply list_elem_of_In, filter_In in Hcol as [Hcol _].
      by apply list_elem_of_In.
Qed.

End MainFill.

(** X14, witness: the forecaster trained on 26 readings of Muscat. *)
Lemma main_fill_supplies_every_feature_witness :
  Forecasting.current_vector Fixtures.trained_brief
    (Forecasting.main_conditions (trig := Fixtures.flat_trig)
       Fixtures.trained_brief)
  = Py.Ok (map (λ col,
                  (col,
                   if Forecasting.is_city_column col
                   then (if String.eqb col "City_Muscat" then 1 else 0)%Q
                   else default 0%Q
                          (Py.assoc col
                             (Forecasting.columns
                                (Forecasting.sample_conditions
                                   (trig := Fixtures.flat_trig))))))
             (Forecasting.feature_columns Fixtures.trained_brief)).
Proof.
  apply (main_fill_supplies_every_feature (trig := Fixtures.flat_trig)
           (cal := Fixtures.hourly_calendar) Fixtures.schema
           Fixtures.brief_city Fixtures.trained_brief).
  vm_compute. reflexivity.
Defined.

(** ** Forecast alerts *)

(** The loop of [generate_forecast_alerts], entry by entry. *)
Lemma forecast_alerts_omap (forecasts : list (string * Forecasting.Forecast)) :
  Forecasting.generate_forecast_alerts forecasts
  = omap (λ e,
            let overall := Forecasting.overall_aqi e.2 in
            if Qle_bool overall 100 then None
            else Some {| Forecasting.horizon := e.1;
                         Forecasting.level :=
                           if Qle_bool overall 150 then "MODERATE" else "HIGH";
                         Forecasting.alert_timestamp := Forecasting.timestamp e.2;
                         Forecasting.aqi := overall |}) forecasts.
Proof.
  unfold Forecasting.generate_forecast_alerts.
  induction forecasts as [|e forecasts IH]; [done|].
  cbn [mbind list_bind omap list_omap]. cbv zeta. cbn [mbind] in IH.
  rewrite IH. unfold Py.Qltb.
  destruct (Qle_bool (Forecasting.overall_aqi e.2) 150) eqn:E150;
    destruct (Qle_bool (Forecasting.overall_aqi e.2) 100) eqn:E100;
    cbn [negb]; try reflexivity.
  apply Qle_bool_iff in E100.
  apply not_true_iff_false in E150. rewrite Qle_bool_iff in E150.
  exfalso. apply E150. lra.
Qed.

Lemma overall_aqi_le_500 (pred : Forecasting.Forecast) :
  (Forecasting.overall_aqi pred <= 500)%Q.
Proof.
  unfold Forecasting.overall_aqi, Py.max.
  destruct (forecaster_aqi_cases (Forecasting.pm25 pred) "pm25")
    as [[_ H25] | H25];
    destruct (forecaster_aqi_cases (Forecasting.pm10 pred) "pm10")
      as [[_ H10] | H10];
    destruct (Py.Qltb _ _); rewrite ?H25, ?H10; lra.
Qed.

(** X16.  [generate_forecast_alerts] emits at most one alert per
    forecast entry, in the order of the entries, and none exactly when
    every overall AQI is at most 100; an alert carries an AQI above 100
    and at most 500, and it is HIGH exactly when that AQI exceeds 150
    and MODERATE otherwise. *)
Theorem forecast_alerts_by_threshold
  (forecasts : list (string * Forecasting.Forecast)) :
  map Forecasting.horizon (Forecasting.generate_forecast_alerts forecasts)
    `sublist_of` map fst forecasts
  ∧ (Forecasting.generate_forecast_alerts forecasts = []
     ↔ Forall (λ e, (Forecasting.overall_aqi e.2 <= 100)%Q) forecasts)
  ∧ Forall (λ a, (100 < Forecasting.aqi a <= 500)%Q
                 ∧ ((150 < Forecasting.aqi a)%Q
                    ∧ Forecasting.level a = "HIGH"
                    ∨ (Forecasting.aqi a <= 150)%Q
                      ∧ Forecasting.level a = "MODERATE"))
      (Forecasting.generate_forecast_alerts forecasts).
Proof.
  rewrite forecast_alerts_omap.
  induction forecasts as [|e forecasts (IHsub & IHnil & IHall)].
  - split; [done|]. split; [by split | constructor].
  - cbn [omap list_omap map]. cbv zeta.
    destruct (Qle_bool (Forecasting.overall_aqi e.2) 100) eqn:E100.
    + apply Qle_bool_iff in E100. split; [by apply sublist_cons|].
      split; [|exact IHall]. rewrite IHnil, Forall_cons. tauto.
    + apply not_true_iff_false in E100. rewrite Qle_bool_iff in E100.
      split; [by apply sublist_skip|]. split.
      * split; [done|]. intros Hall. by apply Forall_cons_1 in Hall as [? _].
      * constructor; [|exact IHall]. cbn.
        pose proof (overall_aqi_le_500 e.2).
        split; [lra|].
        destruct (Qle_bool (Forecasting.overall_aqi e.2) 150) eqn:E150.
        -- apply Qle_bool_iff in E150. by right.
        -- apply not_true_iff_false in E150. rewrite Qle_bool_iff in E150.
           left. split; [lra | done].
Qed.

(** X17.  A predicted PM2.5 concentration that falls between two
    brackets of the table (12.05, say) or a predicted PM10
    concentration that does, makes [generate_forecast_alerts] emit a
    HIGH alert with an AQI of 500, however low the concentration. *)
Theorem gap_concentration_raises_high_alert (hz : string)
  (pred : Forecasting.Forecast) :
  Forall (λ b, ¬ (AQI.bp_low b <= Forecasting.pm25 pred <= AQI.bp_high b)%Q)
    (AQI.breakpoints "pm25")
  ∨ Forall (λ b, ¬ (AQI.bp_low b <= Forecasting.pm10 pred <= AQI.bp_high b)%Q)
      (AQI.breakpoints "pm10") →
  Forecasting.generate_forecast_alerts [(hz, pred)]
  = [{| Forecasting.horizon := hz; Forecasting.level := "HIGH";
        Forecasting.alert_timestamp := Forecasting.timestamp pred;
        Forecasting.aqi := 500%Q |}].
Proof.
  intros Hgap.
  assert (Hoverall : Forecasting.overall_aqi pred = 500%Q).
  { unfold Forecasting.overall_aqi, Py.max.
    destruct Hgap as [Hgap | Hgap]; apply scan_none in Hgap.
    - pose proof (forecaster_aqi_cases (Forecasting.pm10 pred) "pm10") as H10.
      set (a10 := Forecasting.calculate_aqi (Forecasting.pm10 pred) "pm10") in *.
      unfold Forecasting.calculate_aqi. rewrite Hgap.
      destruct (Py.Qltb _ _) eqn:E; [|done]. apply Qltb_lt in E.
      destruct H10 as [[_ H10] | H10]; [lra | done].
    - pose proof (forecaster_aqi_cases (Forecasting.pm25 pred) "pm25") as H25.
      set (a25 := Forecasting.calculate_aqi (Forecasting.pm25 pred) "pm25") in *.
      unfold Forecasting.calculate_aqi. rewrite Hgap.
      destruct (Py.Qltb _ _) eqn:E; [done|]. apply Qltb_ge in E.
      destruct H25 as [[_ H25] | H25]; [lra | done]. }
  unfold Forecasting.generate_forecast_alerts. cbn [mbind list_bind].
  cbv zeta. cbn [snd fst]. rewrite Hoverall. reflexivity.
Qed.

(** X17, witness: a 6-hour forecast of 12.05 µg/m³ of PM2.5. *)
Lemma gap_concentration_raises_high_alert_witness :
  Forecasting.generate_forecast_alerts
    [("6h", {| Forecasting.pm25 := 12.05; Forecasting.pm10 := 20;
               Forecasting.timestamp := 6 |})]
  = [{| Forecasting.horizon := "6h"; Forecasting.level := "HIGH";
        Forecasting.alert_timestamp := 6; Forecasting.aqi := 500%Q |}].
Proof.
  apply (gap_concentration_raises_high_alert "6h"
           {| Forecasting.pm25 := 12.05; Forecasting.pm10 := 20;
              Forecasting.timestamp := 6 |}).
  left. repeat constructor; cbn; lra.
Defined.

(** ** From training to forecasting *)

Section TrainThenForecast.
Context {est : Estimator} {trig : Trig} {cal : Calendar} (schema : list string).

(** X18.  A forecaster trained from scratch answers for exactly the
    horizons that had at least 100 training samples, that is the
    horizons [h] with [100 + h <= len(df)] on the prepared frame [df]:
    whenever [forecast_next_48_hours] returns, its entries are those
    horizons, in increasing order. *)
Theorem forecast_covers_trained_horizons
  (read_csv : string → option (list Forecasting.Reading))
  (df : list Forecasting.Row) (trained : Forecasting.Forecaster)
  (current_conditions : Forecasting.Conditions) (now : Z)
  (forecasts : list (string * Forecasting.Forecast)) :
  Forecasting.prepare_forecast_data read_csv = Py.Ok df →
  Forecasting.train_forecast_models schema Forecasting.init read_csv
  = Py.Ok trained →
  Forecasting.forecast_next_48_hours trained current_conditions now
  = Py.Ok forecasts →
  map fst forecasts
  = map (λ h, pretty h +:+ "h")
      (List.filter (λ h, bool_decide (100 + h ≤ length df)) Forecasting.horizons).
Proof.
  intros Hprep Htrain Hforecast.
  pose proof (prepare_clean _ _ Hprep) as Hdf.
  destruct (train_loop_clean schema df Forecasting.horizons ∅ Hdf)
    as (m & Hloop & Hkeep & Hfit).
  assert (Hmodels : Forecasting.models trained = m).
  { revert Htrain. unfold Forecasting.train_forecast_models.
    rewrite Hprep. cbn [mbind result_bind Py.bind Forecasting.models
                        Forecasting.init].
    rewrite Hloop. cbn [mbind result_bind Py.bind].
    intros Heq. injection Heq as <-. reflexivity. }
  assert (Hserved :
    served_horizons trained Forecasting.horizons
    = List.filter (λ h, bool_decide (100 + h ≤ length df)) Forecasting.horizons).
  { unfold served_horizons. apply filter_ext_in. intros h Hh.
    apply list_elem_of_In in Hh. rewrite Hmodels.
    pose proof (X_aligned_length schema df h Hdf) as Hlen.
    destruct (decide (100 + h ≤ length df)) as [Hrows | Hrows].
    - rewrite (bool_decide_eq_true_2 (100 + h ≤ length df)) by done.
      destruct (Hfit h Hh) as [-> ->]; [lia|].
      by rewrite !bool_decide_eq_true_2 by by eexists.
    - rewrite (bool_decide_eq_false_2 (100 + h ≤ length df)) by done.
      assert (H25 : m !! Forecasting.model_key "pm25" h = None).
      { rewrite Hkeep; [apply lookup_empty|]. intros h' Hh' Hrows'. split.
        - intros Heq. apply model_key_inj in Heq. subst h'.
          rewrite Hlen in Hrows'. lia.
        - apply model_key_pm25_pm10. }
      rewrite H25.
      by rewrite (bool_decide_eq_false_2 (is_Some None)) by by intros [? ?]. }
  rewrite <- Hserved. revert Hforecast.
  unfold Forecasting.forecast_next_48_hours.
  destruct (Forecasting.current_vector trained current_conditions) as [v|];
    [|intros Hraise; discriminate Hraise].
  cbn [mbind result_bind Py.bind]. intros Hloop'.
  by destruct (forecast_loop_entries _ _ _ _ _ Hloop') as [Hkeys _].
Qed.

End TrainThenForecast.

(** X18, witness: one city with 144 hourly readings leaves 120 rows, so
    the horizons 1, 6 and 12 are served and 24 and 48 are not. *)
Lemma forecast_covers_trained_horizons_witness :
  ∃ forecasts,
    Forecasting.forecast_next_48_hours Fixtures.trained_single
      (Forecasting.main_conditions (trig := Fixtures.flat_trig)
         Fixtures.trained_single) 0 = Py.Ok forecasts
    ∧ map fst forecasts = ["1h"; "6h"; "12h"].
Proof.
  eexists. split; [vm_compute; reflexivity|].
  rewrite (forecast_covers_trained_horizons (trig := Fixtures.flat_trig)
             (cal := Fixtures.hourly_calendar) Fixtures.schema
             Fixtures.single_city
             (Forecasting.build_frame (trig := Fixtures.flat_trig)
                (cal := Fixtures.hourly_calendar)
                (Forecasting.load_files Fixtures.single_city))
             Fixtures.trained_single
             (Forecasting.main_conditions (trig := Fixtures.flat_trig)
                Fixtures.trained_single) 0 _);
    vm_compute; reflexivity.
Defined.

(** ** Loading the artifacts *)

Section Loading.
Context {est : Estimator}.

Lemma item_raises_KeyError (d : gmap string PyVal) (key : string)
  (e : Py.Exception) :
  Service.item d key = Py.Raise e → e = Py.KeyError key.
Proof. unfold Service.item. destruct (d !! key); [done|]. by intros [= <-]. Qed.

Lemma joblib_load_raises_ValueError (c : FileContent) (e : Py.Exception) :
  Service.joblib_load c = Py.Raise e → ∃ msg, e = Py.ValueError msg.
Proof. destruct c; [done|]. intros [= <-]. by eexists. Qed.

(** The body of the [try] never leaves through [SystemExit]. *)
Lemma load_models_body_no_exit (self : Service.Predictor)
  (fs : gmap string FileContent) (e : Py.Exception) :
  Service.load_models_body self fs = Py.Raise e →
  ∀ code, e ≠ Py.SystemExit code.
Proof.
  assert (Hfile : ∀ (c : FileContent) (k : gmap string PyVal → Py.Result Service.Predictor),
    (∀ d e, k d = Py.Raise e → ∀ code, e ≠ Py.SystemExit code) →
    ∀ e, (d ← Service.joblib_load c; k d) = Py.Raise e →
    ∀ code, e ≠ Py.SystemExit code).
  { intros c k Hk e'. destruct (Service.joblib_load c) as [d|e0] eqn:Ec; cbn.
    - apply Hk.
    - intros [= <-] code.
      by apply joblib_load_raises_ValueError in Ec as [msg ->]. }
  assert (Hitems : ∀ (d : gmap string PyVal)
                     (mk : PyVal → PyVal → PyVal → Service.Predictor) e,
    (m ← Service.item d "models"; s ← Service.item d "scalers";
     f ← Service.item d "feature_columns"; Py.Ok (mk m s f)) = Py.Raise e →
    ∀ code, e ≠ Py.SystemExit code).
  { intros d mk e'.
    destruct (Service.item d "models") as [m|e0] eqn:Em; cbn;
      [destruct (Service.item d "scalers") as [s|e0] eqn:Es; cbn;
       [destruct (Service.item d "feature_columns") as [f|e0] eqn:Ef; cbn|]|];
      [done|..]; intros [= <-] code;
      match goal with
      | E : Service.item _ _ = Py.Raise _ |- _ =>
          by apply item_raises_KeyError in E as ->
      end. }
  unfold Service.load_models_body.
  destruct (fs !! "air_quality_flight_safety_models.pkl") as [c1|];
    destruct (fs !! "air_quality_forecast_models.pkl") as [c2|].
  - destruct (Service.joblib_load c1) as [d1|e1] eqn:E1; cbn.
    + destruct (Service.item d1 "models") as [m|e0] eqn:Em; cbn;
        [destruct (Service.item d1 "scalers") as [s|e0] eqn:Es; cbn;
         [destruct (Service.item d1 "feature_columns") as [f|e0] eqn:Ef; cbn|]|].
      * apply Hfile. intros d e'. apply Hitems.
      * intros [= <-] code. by apply item_raises_KeyError in Ef as ->.
      * intros [= <-] code. by apply item_raises_KeyError in Es as ->.
      * intros [= <-] code. by apply item_raises_KeyError in Em as ->.
    + intros [= <-] code.
      by apply joblib_load_raises_ValueError in E1 as [msg ->].
  - destruct (Service.joblib_load c1) as [d1|e1] eqn:E1; cbn.
    + destruct (Service.item d1 "models") as [m|e0] eqn:Em; cbn;
        [destruct (Service.item d1 "scalers") as [s|e0] eqn:Es; cbn;
         [destruct (Service.item d1 "feature_columns") as [f|e0] eqn:Ef; cbn|]|].
      * done.
      * intros [= <-] code. by apply item_raises_KeyError in Ef as ->.
      * intros [= <-] code. by apply item_raises_KeyError in Es as ->.
      * intros [= <-] code. by apply item_raises_KeyError in Em as ->.
    + intros [= <-] code.
      by apply joblib_load_raises_ValueError in E1 as [msg ->].
  - cbn. apply Hfile. intros d e'. apply Hitems.
  - done.
Qed.

(** X19.  [load_models] either returns or terminates the process with
    exit status 1: a file that does not unpickle or lacks a key never
    surfaces as another exception.  When neither artifact exists it
    returns the predictor unchanged (no model loaded), without any
    error. *)
Theorem load_models_returns_or_exits (self : Service.Predictor)
  (fs : gmap string FileContent) :
  ((∃ loaded, Service.load_models self fs = Py.Ok loaded)
   ∨ Service.load_models self fs = Py.Raise (Py.SystemExit 1))
  ∧ (fs !! "air_quality_flight_safety_models.pkl" = None →
     fs !! "air_quality_forecast_models.pkl" = None →
     Service.load_models self fs = Py.Ok self).
Proof.
  split.
  - unfold Service.load_models.
    destruct (Service.load_models_body self fs) as [loaded|e] eqn:E.
    + left. by eexists.
    + right. pose proof (load_models_body_no_exit _ _ _ E) as Hne.
      destruct e; cbn; try reflexivity. by destruct (Hne code).
  - intros H1 H2. unfold Service.load_models, Service.load_models_body.
    by rewrite H1, H2.
Qed.

(** X20.  What [save_models] of the training script writes,
    [load_models] of the prediction service reads back: with the
    forecast artifact absent, the predictor holds the trainer's models,
    scalers and feature columns, and its forecast attributes are
    untouched. *)
Theorem saved_models_load_back (self : Service.Predictor)
  (trainer : Aviation.Trainer) (fs : gmap string FileContent) :
  fs !! "air_quality_flight_safety_models.pkl"
    = Some (Pickled (Aviation.save_models trainer)) →
  fs !! "air_quality_forecast_models.pkl" = None →
  Service.load_models self fs
  = Py.Ok {| Service.models := VModels (Aviation.models trainer);
             Service.scalers := VScalers (Aviation.scalers trainer);
             Service.feature_columns :=
               VColumns (Aviation.feature_columns trainer);
             Service.forecast_models := Service.forecast_models self;
             Service.forecast_scalers := Service.forecast_scalers self;
             Service.forecast_feature_columns :=
               Service.forecast_feature_columns self |}.
Proof.
  intros H1 H2. unfold Service.load_models, Service.load_models_body.
  rewrite H1, H2. reflexivity.
Qed.

End Loading.

(** X20, witness: only the artifact of the training script exists. *)
Lemma saved_models_load_back_witness :
  Service.load_models Service.init Fixtures.flight_only
  = Py.Ok {| Service.models := VModels (Aviation.models Fixtures.toy_trainer);
             Service.scalers := VScalers (Aviation.scalers Fixtures.toy_trainer);
             Service.feature_columns :=
               VColumns (Aviation.feature_columns Fixtures.toy_trainer);
             Service.forecast_models := VModels ∅;
             Service.forecast_scalers := VScalers ∅;
             Service.forecast_feature_columns := VColumns [] |}.
Proof.
  apply (saved_models_load_back Service.init Fixtures.toy_trainer
           Fixtures.flight_only).
  - reflexivity.
  - reflexivity.
Defined.

(** ** Seasons *)

(** X21.  For the twelve months of the calendar the season number of
    the prediction service is the one the training script maps the
    month to; a number that is no month gets 3 (autumn) from the
    service and NaN from the training script. *)
Theorem get_season_matches_training (month : Z) :
  ((1 ≤ month ≤ 12)%Z →
   Aviation.season_of month = Some (inject_Z (Service.get_season month)))
  ∧ (¬ (1 ≤ month ≤ 12)%Z →
     Aviation.season_of month = None ∧ Service.get_season month = 3%Z).
Proof.
  split.
  - intros Hm.
    assert (Hcases : Exists (λ m, month = m) [1;2;3;4;5;6;7;8;9;10;11;12]%Z).
    { apply Exists_exists. exists month. split; [|done].
      assert (month = 1 ∨ month = 2 ∨ month = 3 ∨ month = 4 ∨ month = 5
              ∨ month = 6 ∨ month = 7 ∨ month = 8 ∨ month = 9 ∨ month = 10
              ∨ month = 11 ∨ month = 12)%Z as Hor by lia.
      repeat (destruct Hor as [-> | Hor];
              [repeat first [apply list_elem_of_here | apply list_elem_of_further]|]).
      subst. repeat first [apply list_elem_of_here | apply list_elem_of_further]. }
    repeat (apply Exists_cons in Hcases as [-> | Hcases]; [reflexivity|]).
    by apply Exists_nil in Hcases.
  - intros Hm.
    assert (Hout : ∀ l : list Z, Forall (λ m, (1 ≤ m ≤ 12)%Z) l → month ∉ l).
    { intros l Hl Hin. rewrite Forall_forall in Hl. apply Hm, Hl, Hin. }
    unfold Aviation.season_of, Service.get_season.
    rewrite !bool_decide_eq_false_2;
      try (apply Hout; repeat constructor; lia).
    done.
Qed.

(** ** The dashboard *)

Section Dashboard.
Context {est : Estimator} {trig : Trig} {fl : Float64}.

(** The response of [predict_conditions] on a request that raises
    nothing: one clamped prediction per model, and the AQI. *)
Lemma predict_conditions_ok (self : Service.Predictor)
  (now : Service.Now) (site : string) (lat lon : Q) (region : string)
  (hour : Z) (temperature humidity wind_speed pressure dust aod : Q)
  (ms : gmap string Model) (cols : list string) :
  Service.models self = VModels ms →
  Service.feature_columns self = VColumns cols →
  (0 ≤ hour ≤ 23)%Z →
  ¬ (1 + dust / 200 + aod * 100 == 0)%Q →
  ¬ (287.05 * (temperature + 273.15) == 0)%Q →
  ∃ x : list Q,
    let predictions :=
      map_imap (λ name model, Some (Service.predict_target x name model)) ms in
    Service.predict_conditions self now site lat lon region hour
      temperature humidity wind_speed pressure dust aod
    = Py.Ok (<["AQI" := inject_Z
                 (Z.max
                    (Service.calculate_aqi
                       (default 20%Q (predictions !! "PM2.5")) "pm25")
                    (Service.calculate_aqi
                       (default 40%Q (predictions !! "PM10")) "pm10"))]>
               predictions).
Proof.
  intros Hms Hcols Hhour Hvis Hden.
  unfold Service.predict_conditions, Service.create_features_for_location.
  rewrite bool_decide_eq_true_2 by done. cbn [negb].
  rewrite (div_ok _ _ Hvis), (div_ok _ _ Hden), Hms, Hcols.
  cbn [mbind result_bind Py.bind]. rewrite feature_frame_zero_fill.
  cbn [mbind result_bind Py.bind]. by eexists.
Qed.

Lemma predictions_nonneg (x : list Q) (ms : gmap string Model) (aqi : Z)
  (k : string) (v : Q) :
  (0 ≤ aqi)%Z →
  <["AQI" := inject_Z aqi]>
    (map_imap (λ name model, Some (Service.predict_target x name model)) ms)
    !! k = Some v →
  (0 <= v)%Q.
Proof.
  intros Haqi. destruct (decide (k = "AQI")) as [-> | Hk].
  - rewrite lookup_insert_eq. intros [= <-].
    change 0%Q with (inject_Z 0). by rewrite <- Zle_Qle.
  - rewrite lookup_insert_ne by done. rewrite map_lookup_imap.
    destruct (ms !! k) as [model|]; [|done]. cbn. intros [= <-].
    apply predict_target_nonneg.
Qed.

Lemma default_nonneg (d : Q) (predictions : gmap string Q) (k : string) :
  (0 <= d)%Q → (∀ k v, predictions !! k = Some v → (0 <= v)%Q) →
  (0 <= default d (predictions !! k))%Q.
Proof.
  intros Hd Hall. destruct (predictions !! k) as [v|] eqn:E; cbn; [|done].
  by eapply Hall.
Qed.

(** One site of the dashboard. *)
Lemma predict_site_ok (self : Service.Predictor) (now : Service.Now)
  (site_info : Service.SiteInfo) (ms : gmap string Model) (cols : list string) :
  Service.models self = VModels ms →
  Service.feature_columns self = VColumns cols →
  well_posed site_info →
  ∃ row, Service.predict_site self now site_info = Py.Ok row
         ∧ Service.r_site row = Service.si_site site_info
         ∧ (0 <= Service.r_pm25 row)%Q ∧ (0 <= Service.r_pm10 row)%Q
         ∧ (0 <= Service.r_visibility row)%Q
         ∧ (0 <= Service.r_flight_safety_score row)%Q
         ∧ (0 <= Service.r_AQI row)%Q
         ∧ (ms = ∅ → row = fallback_row site_info).
Proof.
  intros Hms Hcols (Hhour & Hvis & Hden). unfold Service.predict_site.
  destruct (predict_conditions_ok self now (Service.si_site site_info)
              (Service.si_lat site_info) (Service.si_lon site_info)
              (Service.si_region site_info) (Service.si_hour site_info)
              (default 25%Q (Service.si_temperature site_info))
              (default 60%Q (Service.si_humidity site_info))
              (default 10%Q (Service.si_wind_speed site_info))
              (default 1013%Q (Service.si_pressure site_info))
              (default 50%Q (Service.si_dust site_info))
              (default 0.2%Q (Service.si_aod site_info))
              ms cols Hms Hcols Hhour Hvis Hden) as [x Hok].
  cbv zeta in Hok. rewrite Hok. cbn [mbind result_bind Py.bind].
  eexists. split; [reflexivity|]. cbn [Service.r_site Service.r_pm25
    Service.r_pm10 Service.r_visibility Service.r_flight_safety_score
    Service.r_AQI].
  set (predictions := <["AQI" := _]> _).
  assert (Hpos : ∀ k v, predictions !! k = Some v → (0 <= v)%Q).
  { intros k v. apply predictions_nonneg.
    etransitivity; [|apply Z.le_max_l]. apply service_aqi_nonneg. }
  split; [done|].
  split; [apply default_nonneg; [lra | done]|].
  split; [apply default_nonneg; [lra | done]|].
  split; [apply default_nonneg; [lra | done]|].
  split; [apply default_nonneg; [lra | done]|].
  split; [apply default_nonneg; [lra | done]|].
  intros ->. subst predictions. rewrite map_imap_empty. reflexivity.
Qed.

(** X22.  On a batch of requests none of which raises,
    [predict_for_dashboard] returns one row per site, in the order of
    the batch, and every reading of every row is non-negative. *)
Theorem dashboard_rows_follow_sites (self : Service.Predictor)
  (now : Service.Now) (sites_data : list Service.SiteInfo)
  (ms : gmap string Model) (cols : list string) :
  Service.models self = VModels ms →
  Service.feature_columns self = VColumns cols →
  Forall well_posed sites_data →
  ∃ rows,
    Service.predict_for_dashboard self now sites_data = Py.Ok rows
    ∧ map Service.r_site rows = map Service.si_site sites_data
    ∧ Forall (λ row, (0 <= Service.r_pm25 row)%Q ∧ (0 <= Service.r_pm10 row)%Q
                     ∧ (0 <= Service.r_visibility row)%Q
                     ∧ (0 <= Service.r_flight_safety_score row)%Q
                     ∧ (0 <= Service.r_AQI row)%Q) rows.
Proof.
  intros Hms Hcols Hall. unfold Service.predict_for_dashboard.
  induction Hall as [|site_info sites_data Hsite _ (rows & Hrows & Hkeys & Hpos)].
  - exists []. by split_and!.
  - destruct (predict_site_ok self now site_info ms cols Hms Hcols Hsite)
      as (row & Hrow & Hname & H1 & H2 & H3 & H4 & H5 & _).
    exists (row :: rows). rewrite mapM_result_cons, Hrow, Hrows.
    split; [done|]. split; [by rewrite !map_cons, Hname, Hkeys|].
    constructor; [by split_and! | done].
Qed.

(** X23.  A predictor that holds no model (as after [load_models] when
    no artifact exists) answers every batch of requests that raise
    nothing with the same readings for every site: PM2.5 20, PM10 40,
    visibility 15, flight safety 0.7 and AQI 68, whatever the
    measurements of the request. *)
Theorem dashboard_without_models_is_constant (self : Service.Predictor)
  (now : Service.Now) (sites_data : list Service.SiteInfo) (cols : list string) :
  Service.models self = VModels ∅ →
  Service.feature_columns self = VColumns cols →
  Forall well_posed sites_data →
  Service.predict_for_dashboard self now sites_data
  = Py.Ok (map fallback_row sites_data).
Proof.
  intros Hms Hcols Hall. unfold Service.predict_for_dashboard.
  induction Hall as [|site_info sites_data Hsite _ IH]; [done|].
  destruct (predict_site_ok self now site_info ∅ cols Hms Hcols Hsite)
    as (row & Hrow & _ & _ & _ & _ & _ & _ & Hfallback).
  rewrite mapM_result_cons, Hrow, IH, Hfallback by done. done.
Qed.

(** X24.  One request with an hour outside 0..23 makes
    [predict_for_dashboard] raise: the batch yields no row at all, not
    even for the sites that precede the offending one. *)
Theorem dashboard_fails_on_invalid_hour (self : Service.Predictor)
  (now : Service.Now) (sites_data : list Service.SiteInfo)
  (site_info : Service.SiteInfo) :
  site_info ∈ sites_data →
  ¬ (0 ≤ Service.si_hour site_info ≤ 23)%Z →
  ∃ e, Service.predict_for_dashboard self now sites_data = Py.Raise e.
Proof.
  intros Hin Hhour. unfold Service.predict_for_dashboard.
  induction sites_data as [|s sites_data IH]; [by apply elem_of_nil in Hin|].
  rewrite mapM_result_cons.
  destruct (Service.predict_site self now s) as [row|e] eqn:Es; [|by eexists].
  apply elem_of_cons in Hin as [<- | Hin].
  - exfalso. revert Es.
    unfold Service.predict_site, Service.predict_conditions,
      Service.create_features_for_location.
    by rewrite bool_decide_eq_false_2.
  - destruct (IH Hin) as [e ->]. by eexists.
Qed.

End Dashboard.

Lemma well_posed_muscat_noon : well_posed Fixtures.muscat_noon.
Proof.
  unfold well_posed. cbn. split; [lia|]. split; intros H; vm_compute in H;
    discriminate.
Defined.

(** X22, witness: one request, answered by a predictor with one model. *)
Lemma dashboard_rows_follow_sites_witness :
  ∃ rows,
    Service.predict_for_dashboard (trig := Fixtures.flat_trig)
        (fl := Fixtures.exact_halves)
      Fixtures.toy_predictor Fixtures.july [Fixtures.muscat_noon]
    = Py.Ok rows
    ∧ map Service.r_site rows = ["Muscat"].
Proof.
  destruct (dashboard_rows_follow_sites (trig := Fixtures.flat_trig)
      (fl := Fixtures.exact_halves)
              Fixtures.toy_predictor Fixtures.july [Fixtures.muscat_noon]
              (Aviation.models Fixtures.toy_trainer)
              (Aviation.feature_columns Fixtures.toy_trainer)
              eq_refl eq_refl)
    as (rows & Hrows & Hsites & _).
  - constructor; [exact well_posed_muscat_noon | constructor].
  - exists rows. split; [exact Hrows | exact Hsites].
Defined.

(** X23, witness: the same request, with no model loaded. *)
Lemma dashboard_without_models_is_constant_witness :
  Service.predict_for_dashboard (est := Fixtures.mean_estimator)
    (trig := Fixtures.flat_trig)
        (fl := Fixtures.exact_halves) Service.init Fixtures.july
    [Fixtures.muscat_noon]
  = Py.Ok [fallback_row Fixtures.muscat_noon].
Proof.
  apply (dashboard_without_models_is_constant (est := Fixtures.mean_estimator)
           (trig := Fixtures.flat_trig)
               (fl := Fixtures.exact_halves) Service.init Fixtures.july
           [Fixtures.muscat_noon] []).
  - reflexivity.
  - reflexivity.
  - constructor; [exact well_posed_muscat_noon | constructor].
Defined.

(** X24, witness: a valid request followed by one for hour 24. *)
Lemma dashboard_fails_on_invalid_hour_witness :
  ∃ e, Service.predict_for_dashboard (trig := Fixtures.flat_trig)
      (fl := Fixtures.exact_halves)
         Fixtures.toy_predictor Fixtures.july
         [Fixtures.muscat_noon; Fixtures.muscat_hour_24]
       = Py.Raise e.
Proof.
  apply (dashboard_fails_on_invalid_hour (trig := Fixtures.flat_trig)
      (fl := Fixtures.exact_halves)
           Fixtures.toy_predictor Fixtures.july
           [Fixtures.muscat_noon; Fixtures.muscat_hour_24]
           Fixtures.muscat_hour_24).
  - apply list_elem_of_further, list_elem_of_here.
  - cbn. lia.
Defined.

(** ** Training columns and inference features *)

Section FeatureNames.
Context {est : Estimator} {trig : Trig} {cal : Calendar}.

(** X25.  When the training data covers Musandam, Muscat and Salalah,
    the feature dict that [create_features_for_location] builds has
    exactly the columns that [prepare_features] recorded at training
    time, in the same order: [predict_conditions] then neither fills a
    column with 0 nor drops or reorders one. *)
Theorem inference_features_are_training_columns
  (trainer : Aviation.Trainer) (data : list Aviation.Row)
  (now : Service.Now) (site : string) (lat lon : Q) (region : string)
  (hour : Z) (temperature humidity wind_speed pressure dust aod : Q)
  (features : list (string * Q)) :
  Aviation.dummy_cities data = Service.cities →
  Service.create_features_for_location now site lat lon region hour
    temperature humidity wind_speed pressure dust aod = Py.Ok features →
  map fst features
  = Aviation.feature_columns (Aviation.prepare_features trainer data).1
  ∧ Service.feature_frame features
      (Aviation.feature_columns (Aviation.prepare_features trainer data).1)
    = Py.Ok features.
Proof.
  intros Hcities. unfold Service.create_features_for_location.
  destruct (negb _); [intros Hraise; discriminate Hraise|]. unfold Py.div.
  destruct (Qeq_bool _ 0); destruct (Qeq_bool _ 0);
    cbn [mbind result_bind Py.bind];
    try (intros Hraise; discriminate Hraise).
  intros Heq. injection Heq as <-.
  unfold Aviation.prepare_features. cbv zeta.
  cbn [fst Aviation.feature_columns]. rewrite Hcities.
  split; [reflexivity|]. rewrite feature_frame_zero_fill. reflexivity.
Qed.

End FeatureNames.

(** X25, witness: training rows of the three sites, a request for
    Muscat at noon. *)
Lemma inference_features_are_training_columns_witness :
  ∃ features,
    Service.create_features_for_location (trig := Fixtures.flat_trig)
      Fixtures.july "Muscat" 23.5933 58.2844 "Muscat" 12
      25 60 10 1013 50 0.2 = Py.Ok features
    ∧ Service.feature_frame features
        (Aviation.feature_columns
           (Aviation.prepare_features Fixtures.toy_trainer
              Fixtures.three_sites).1)
      = Py.Ok features.
Proof.
  eexists. split; [reflexivity|].
  refine (proj2 (inference_features_are_training_columns
                   (trig := Fixtures.flat_trig)
                   Fixtures.toy_trainer Fixtures.three_sites
                   Fixtures.july "Muscat" 23.5933 58.2844 "Muscat" 12
                   25 60 10 1013 50 0.2 _ _ _)).
  - reflexivity.
  - reflexivity.
Defined.

(** ** The engineered columns of the training script *)

Lemma clip_range (x lo hi : Q) :
  (lo <= hi)%Q → (lo <= Py.clip x lo hi <= hi)%Q.
Proof.
  intros Hle. unfold Py.clip. split.
  - apply Q.min_glb; [done | apply Q.le_max_r].
  - apply Q.le_min_l.
Qed.

Lemma aviation_aqi_range {fl : Float64} (conc : option Q) (pollutant : string)
  (a : Q) :
  Aviation.calculate_aqi conc pollutant = Some a → (0 <= a <= 500)%Q.
Proof.
  unfold Aviation.calculate_aqi. destruct conc as [c|]; [|done]. cbn.
  intros [= <-].
  assert (Hr : (0 <= (if Py.Qltb (AQI.last_bp_high (AQI.breakpoints pollutant)) c
                      then 500
                      else default 0 (AQI.scan (AQI.breakpoints pollutant) c))
                <= 500)%Q).
  { destruct (Py.Qltb _ c); [lra|].
    destruct (AQI.scan _ c) as [aqi|] eqn:E; cbn; [|lra].
    pose proof (scan_range _ _ _ E). lra. }
  destruct Hr as [Hlo Hhi]. split.
  - change 0%Q with (inject_Z 0). rewrite <- Zle_Qle. by apply round_nonneg.
  - change 500%Q with (inject_Z 500). rewrite <- Zle_Qle. by apply round_le.
Qed.

Section Engineered.
Context {cal : Calendar} {fl : Float64}.

(** X26.  Whatever a reading holds, the engineered columns of its row
    stay in their ranges when they are numbers: the estimated
    visibility between 0.1 and 50, the turbulence risk and the flight
    safety score between 0 and 1, the three AQI columns between 0 and
    500.  The estimated visibility is a number whenever PM2.5, PM10 and
    dust are, also when the divisor of its formula vanishes. *)
Theorem engineered_columns_in_range (r : Aviation.Reading)
  (stability : option Q) :
  let row := Aviation.engineer r stability in
  (∀ v, Aviation.Visibility_Est row = Some v → (0.1 <= v <= 50)%Q)
  ∧ (∀ t, Aviation.Turbulence_Risk row = Some t → (0 <= t <= 1)%Q)
  ∧ (∀ s, Aviation.Flight_Safety_Score row = Some s → (0 <= s <= 1)%Q)
  ∧ (∀ a, Aviation.AQI_PM25 row = Some a → (0 <= a <= 500)%Q)
  ∧ (∀ a, Aviation.AQI_PM10 row = Some a → (0 <= a <= 500)%Q)
  ∧ (∀ a, Aviation.Overall_AQI row = Some a → (0 <= a <= 500)%Q)
  ∧ (is_Some (Aviation.PM25 r) → is_Some (Aviation.PM10 r) →
     is_Some (Aviation.Dust r) → is_Some (Aviation.Visibility_Est row)).
Proof.
  cbv zeta. unfold Aviation.engineer. cbv zeta.
  cbn [Aviation.Visibility_Est Aviation.Turbulence_Risk
       Aviation.Flight_Safety_Score Aviation.AQI_PM25 Aviation.AQI_PM10
       Aviation.Overall_AQI].
  split_and!; [| | | | | |by intros [? ->] [? ->] [? ->]; eexists].
  - intros v Hv.
    destruct (Aviation.PM25 r) as [pm25|]; [|done].
    destruct (Aviation.PM10 r) as [pm10|]; [|done].
    destruct (Aviation.Dust r) as [dust|]; [|done].
    cbn [mbind option_bind] in Hv. injection Hv as <-.
    unfold Aviation.calculate_visibility. cbv zeta.
    destruct (Qeq_bool (1 + pm25 / 50 + pm10 / 100 + dust / 200) 0);
      [lra|]. apply clip_range. lra.
  - intros t Ht.
    destruct (Aviation.WindSpeed r) as [w|]; [|done].
    destruct (Aviation.Dust r) as [d|]; [|done].
    destruct (Aviation.Temperature r) as [temp|]; [|done]. cbn in Ht.
    injection Ht as <-. unfold Aviation.calculate_turbulence_risk. cbv zeta.
    pose proof (clip_range (w / 20) 0 1).
    pose proof (clip_range (d / 500) 0 1).
    pose proof (clip_range (temp / 50) 0 1).
    lra.
  - intros s Hs.
    apply bind_Some in Hs as (v & _ & Hs).
    apply bind_Some in Hs as (t & _ & Hs).
    apply bind_Some in Hs as (o & _ & Hs).
    apply bind_Some in Hs as (w & _ & Hs).
    injection Hs as <-. unfold Aviation.calculate_flight_safety_score.
    cbv zeta. apply clip_range. lra.
  - intros a. apply aviation_aqi_range.
  - intros a. apply aviation_aqi_range.
  - intros a Ha.
    destruct (Aviation.calculate_aqi (Aviation.PM25 r) "pm25") as [a25|] eqn:E25;
      [|done].
    destruct (Aviation.calculate_aqi (Aviation.PM10 r) "pm10") as [a10|] eqn:E10;
      [|done].
    cbn in Ha. injection Ha as <-.
    apply aviation_aqi_range in E25, E10.
    destruct (Q.max_spec a25 a10) as [[_ ->] | [_ ->]]; done.
Qed.

Lemma dropna_length_le (s : Pandas.Series) :
  length (Pandas.dropna s) ≤ length s.
Proof.
  unfold Pandas.dropna. induction s as [|[v|] s IH]; cbn; lia.
Qed.

(** The rolling mean with the default [min_periods] is NaN until the
    window is full. *)
Lemma cell_rolling_mean_default (w : nat) (s : Pandas.Series) (i : nat) :
  S i < w → Pandas.cell (Pandas.rolling_mean_default w s) i = None.
Proof.
  intros Hi. unfold Pandas.cell, Pandas.rolling_mean_default, Pandas.rolling_mean.
  rewrite list_lookup_imap. destruct (s !! i) as [x|]; [|done]. cbn.
  rewrite bool_decide_eq_false_2; [done|]. intros [Hlen _].
  assert (Hobs : length (Pandas.dropna (Pandas.window w i s)) ≤ S i).
  { etransitivity; [apply dropna_length_le|].
    unfold Pandas.window. rewrite length_drop, length_take. lia. }
  lia.
Qed.

Lemma filter_length_after {A} (p : A → bool) (n : nat) (l : list A) :
  (∀ i x, l !! i = Some x → i < n → p x = false) →
  List.filter p l = List.filter p (drop n l).
Proof.
  intros Hp. rewrite <- (take_drop n l) at 1. rewrite List.filter_app.
  rewrite (filter_nil_forall p (take n l)); [done|].
  intros x Hx. apply list_elem_of_In, list_elem_of_lookup in Hx as [i Hi].
  apply lookup_take_Some in Hi as [Hi Hlt]. by eapply Hp.
Qed.

(** X27.  The first 23 rows of the concatenated files never reach the
    data that [load_and_prepare_data] returns, whatever they hold: their
    24-hour pressure window is incomplete.  Hence the prepared data has
    at most [n - 23] rows, and none when the files hold fewer than 24
    readings in all. *)
Theorem pressure_window_discards_first_rows
  (df_list : list (list Aviation.Reading)) :
  let df := concat df_list in
  Aviation.load_and_prepare_data df_list
  = List.filter Aviation.complete
      (drop 23 (zip_with Aviation.engineer df (Aviation.pressure_stability df)))
  ∧ length (Aviation.load_and_prepare_data df_list) ≤ length df - 23.
Proof.
  cbv zeta. unfold Aviation.load_and_prepare_data. cbv zeta.
  set (df := concat df_list).
  assert (Heq : List.filter Aviation.complete
                  (zip_with Aviation.engineer df (Aviation.pressure_stability df))
                = List.filter Aviation.complete
                    (drop 23 (zip_with Aviation.engineer df
                                (Aviation.pressure_stability df)))).
  { apply filter_length_after. intros i row Hrow Hi.
    apply lookup_zip_with_Some in Hrow as (r & st & -> & Hr & Hst).
    assert (Hnone : st = None).
    { unfold Aviation.pressure_stability in Hst. cbv zeta in Hst.
      apply lookup_zip_with_Some in Hst as (p & m & -> & Hp & Hm).
      pose proof (cell_rolling_mean_default 24 (map Aviation.Pressure df) i)
        as Hcell.
      unfold Pandas.cell in Hcell. rewrite Hm in Hcell. cbn in Hcell.
      rewrite Hcell by lia. by destruct p. }
    subst st. unfold Aviation.complete.
    apply not_true_is_false. rewrite forallb_forall. intros Hall.
    specialize (Hall (Aviation.Pressure_Stability (Aviation.engineer r None))).
    cbn in Hall. discriminate Hall. tauto. }
  split; [exact Heq|]. rewrite Heq.
  etransitivity; [apply List.filter_length_le|].
  rewrite length_drop, length_zip_with.
  unfold Aviation.pressure_stability. cbv zeta.
  rewrite length_zip_with. unfold Pandas.rolling_mean_default, Pandas.rolling_mean.
  rewrite length_imap, length_map. lia.
Qed.

End Engineered.

(** ** One dashboard request *)

(** X28, witness: a request for Muscat at noon, answered from the
    artifact of [toy_trainer], whose column [City_Sohar] the feature
    dict lacks. *)
Lemma predict_conditions_fills_and_clamps_witness :
  ∃ predictions,
    Service.predict_conditions (trig := Fixtures.flat_trig)
        (fl := Fixtures.exact_halves)
      Fixtures.toy_predictor Fixtures.july "Muscat" 23.5933 58.2844 "Muscat" 12
      25 60 10 1013 50 0.2 = Py.Ok predictions
    ∧ ∀ k v, predictions !! k = Some v → (0 <= v)%Q.
Proof.
  destruct (predict_conditions_fills_and_clamps (trig := Fixtures.flat_trig)
      (fl := Fixtures.exact_halves)
              Fixtures.toy_predictor Fixtures.july "Muscat" 23.5933 58.2844
              "Muscat" 12 25 60 10 1013 50 0.2
              (Aviation.models Fixtures.toy_trainer)
              (Aviation.feature_columns Fixtures.toy_trainer)
              eq_refl eq_refl)
    as (features & predictions & _ & _ & Hok & Hpos).
  - lia.
  - intros H. vm_compute in H. discriminate H.
  - intros H. vm_compute in H. discriminate H.
  - exists predictions. split; [exact Hok | exact Hpos].
Defined.
